(** * Annotation engine of the cell segmentation tool

    A shallow embedding of the React hooks [useAnnotations], [useSAM] and
    [useTransfer] and of the parts of [App] that drive them, followed by the
    properties of the action log, of the transfer workflow and of the
    debounced segmentation request.

    Conventions of the embedding.
    - A JavaScript value that may be [null] or [undefined] is an [option].
    - Numbers (coordinates, areas, class ids) are carried around by the
      hooks and not computed on; they are integers here.  The colour of a
      class is computed from its id: there the id is an integer that a
      double holds exactly.
    - An [async] function is a function of the hook state and of the history
      of requests sent to the backend so far.  It gives back what the
      function returned or threw, the new hook state and the new history.
      State changes made before an exception is thrown are kept, as in
      JavaScript.
    - The backend is a [collaborator]: for every endpoint a function from
      the history of earlier requests and the arguments to a reply or an
      error.  Nothing is assumed about it.
    - Callbacks are run one at a time, each one on the state of the latest
      render, so the values a callback closes over are those of the state it
      starts from.
    - An effect is run by the handler that changes one of its dependencies:
      first the clean-up its run before returned, then its body.  Timeouts
      wait in a queue under the ids [setTimeout] gave them until they are
      due or cleared. *)

From Stdlib Require Import ZArith List String Bool Arith Lia.
Import ListNotations.
Open Scope string_scope.
Open Scope list_scope.
Open Scope nat_scope.

(** ** Values exchanged with the backend *)

Definition Id := string.

Definition polygon_t := list Z.
Definition polygon_set := list polygon_t.

Record point := { x : Z; y : Z; is_positive : bool }.

Record annotation := {
  id : Id;
  class_id : Z;
  class_name : string;
  segmentation : polygon_set;
  bbox : list Z;
  area : Z
}.

(** The body of a create or update request: an object literal with some of
    the five keys.  [None] is a key that is missing or [null]. *)
Record payload := {
  p_class_id : option Z;
  p_class_name : option string;
  p_segmentation : option polygon_set;
  p_bbox : option (list Z);
  p_area : option Z
}.

(** The result of the segmentation oracle, [{polygon, bbox, area}]. *)
Record preview_t := {
  polygon : option polygon_set;
  pv_bbox : list Z;
  pv_area : Z
}.

Record points_data := {
  positive_points : list point;
  negative_points : list point
}.

Record jserror := { message : option string }.

(** [m || dflt] on a message: [undefined] and the empty string are falsy. *)
Definition or_default (m : option string) (dflt : string) : string :=
  match m with
  | Some s => if String.eqb s "" then dflt else s
  | None => dflt
  end.

(** [!imageId] *)
Definition falsy (i : option Id) : bool :=
  match i with
  | Some s => String.eqb s ""
  | None => true
  end.

Inductive request :=
| ReqFetchAnnotations (imageId : option Id)
| ReqCreateAnnotation (imageId : option Id) (data : payload)
| ReqUpdateAnnotation (annotationId : Id) (data : payload)
| ReqDeleteAnnotation (annotationId : Id)
| ReqMergeAnnotations (annotationIds : list Id) (classId : Z) (className : string)
| ReqEncodeImage (imageId : option Id)
| ReqSegmentImage (imageId : option Id) (points : list point)
    (existingPolygons : option (list polygon_set))
| ReqGenerateTransferPoints (seg : polygon_set) (box : list Z)
    (positiveCount negativeCount : Z).

Definition history := list request.

Inductive result (A : Type) :=
| Ok (a : A)
| Err (e : jserror).
Arguments Ok {A} a.
Arguments Err {A} e.

(** utils/api.js, seen from the hooks. *)
Record collaborator := {
  fetchAnnotations : history -> option Id -> result (list annotation);
  createAnnotation : history -> option Id -> payload -> result annotation;
  updateAnnotationApi : history -> Id -> payload -> result annotation;
  deleteAnnotationApi : history -> Id -> result unit;
  mergeAnnotationsApi : history -> list Id -> Z -> string -> result annotation;
  encodeImage : history -> option Id -> result unit;
  segmentImage :
    history -> option Id -> list point -> option (list polygon_set) -> result preview_t;
  generateTransferPoints :
    history -> polygon_set -> list Z -> Z -> Z -> result points_data
}.

(** ** Asynchronous functions *)

Inductive outcome (A : Type) :=
| Returned (a : A)
| Threw (e : jserror).
Arguments Returned {A} a.
Arguments Threw {A} e.

Record ran (S A : Type) := Ran {
  res : outcome A;
  st : S;
  sent : history
}.
Arguments Ran {S A} res st sent.
Arguments res {S A} r.
Arguments st {S A} r.
Arguments sent {S A} r.

Definition async (S A : Type) : Type := S -> history -> ran S A.

Definition ret {S A} (a : A) : async S A :=
  fun s h => Ran (Returned a) s h.

Definition throw {S A} (e : jserror) : async S A :=
  fun s h => Ran (Threw e) s h.

Definition bind {S A B} (m : async S A) (k : A -> async S B) : async S B :=
  fun s h =>
    match m s h with
    | Ran (Returned a) s' h' => k a s' h'
    | Ran (Threw e) s' h' => Ran (Threw e) s' h'
    end.

Notation "x <- m ;; k" := (bind m (fun x => k))
  (at level 61, m at next level, right associativity).
Notation "m ;; k" := (bind m (fun _ => k))
  (at level 61, right associativity).

(** [try { body } catch (err) { handler }] *)
Definition try_catch {S A} (body : async S A) (handler : jserror -> async S A)
  : async S A :=
  fun s h =>
    match body s h with
    | Ran (Returned a) s' h' => Ran (Returned a) s' h'
    | Ran (Threw e) s' h' => handler e s' h'
    end.

(** [try { body } finally { fin }] *)
Definition try_finally {S A} (body : async S A) (fin : async S unit)
  : async S A :=
  fun s h =>
    match body s h with
    | Ran r s' h' =>
      match fin s' h' with
      | Ran (Returned _) s'' h'' => Ran r s'' h''
      | Ran (Threw e) s'' h'' => Ran (Threw e) s'' h''
      end
    end.

(** A state setter, [setX((prev) => f(prev))]. *)
Definition modify {S} (f : S -> S) : async S unit :=
  fun s h => Ran (Returned tt) (f s) h.

(** Reading the state of the current render. *)
Definition gets {S A} (f : S -> A) : async S A :=
  fun s h => Ran (Returned (f s)) s h.

(** [await endpoint(args)]: the request is recorded and the collaborator's
    answer for the history so far is returned or thrown. *)
Definition await {S A} (rq : request) (respond : history -> result A)
  : async S A :=
  fun s h =>
    match respond h with
    | Ok a => Ran (Returned a) s (h ++ [rq])
    | Err e => Ran (Threw e) s (h ++ [rq])
    end.

(** Running a function of a sub-state inside a larger state. *)
Definition zoom {S T A} (get : S -> T) (set : T -> S -> S) (m : async T A)
  : async S A :=
  fun s h =>
    match m (get s) h with
    | Ran r t h' => Ran r (set t s) h'
    end.

(** ** hooks/useAnnotations.js *)

Module Annotations.

Inductive action :=
| ACreate (a : annotation)
| ADelete (a : annotation)
| AUpdate (oldAnnotation newAnnotation : annotation)
| AMerge (mergedAnnotations : list annotation) (newAnnotation : annotation).

Record state := {
  annotations : list annotation;
  isLoading : bool;
  error : option string;
  undoStack : list action;
  redoStack : list action
}.

Definition initial : state :=
  {| annotations := []; isLoading := false; error := None;
     undoStack := []; redoStack := [] |}.

Definition setAnnotations (f : list annotation -> list annotation)
  : async state unit :=
  modify (fun s =>
    {| annotations := f (annotations s); isLoading := isLoading s;
       error := error s; undoStack := undoStack s; redoStack := redoStack s |}).

Definition setIsLoading (b : bool) : async state unit :=
  modify (fun s =>
    {| annotations := annotations s; isLoading := b;
       error := error s; undoStack := undoStack s; redoStack := redoStack s |}).

Definition setError (e : option string) : async state unit :=
  modify (fun s =>
    {| annotations := annotations s; isLoading := isLoading s;
       error := e; undoStack := undoStack s; redoStack := redoStack s |}).

Definition setUndoStack (f : list action -> list action) : async state unit :=
  modify (fun s =>
    {| annotations := annotations s; isLoading := isLoading s;
       error := error s; undoStack := f (undoStack s); redoStack := redoStack s |}).

Definition setRedoStack (f : list action -> list action) : async state unit :=
  modify (fun s =>
    {| annotations := annotations s; isLoading := isLoading s;
       error := error s; undoStack := undoStack s; redoStack := f (redoStack s) |}).

(** [{class_id: a.class_id, ..., area: a.area}] *)
Definition fields_of (a : annotation) : payload :=
  {| p_class_id := Some (class_id a); p_class_name := Some (class_name a);
     p_segmentation := Some (segmentation a); p_bbox := Some (bbox a);
     p_area := Some (area a) |}.

(** [{class_id: a.class_id, class_name: a.class_name}] *)
Definition class_of (a : annotation) : payload :=
  {| p_class_id := Some (class_id a); p_class_name := Some (class_name a);
     p_segmentation := None; p_bbox := None; p_area := None |}.

(** [(a) => a.id === annotationId] *)
Definition has_id (annotationId : Id) (a : annotation) : bool :=
  String.eqb (id a) annotationId.

(** [(a) => annotationIds.includes(a.id)] *)
Definition includes (annotationIds : list Id) (a : annotation) : bool :=
  existsb (String.eqb (id a)) annotationIds.

Section WithApi.

Variable api : collaborator.

(** The effect on [imageId]: it runs when the hook mounts and every time
    [imageId] changes. *)
Definition loadAnnotations (imageId : option Id) : async state unit :=
  if falsy imageId then
    setAnnotations (fun _ => [])
  else
    setIsLoading true ;;
    setError None ;;
    try_finally
      (try_catch
         (data <- await (ReqFetchAnnotations imageId)
                    (fun h => fetchAnnotations api h imageId) ;;
          setAnnotations (fun _ => data) ;;
          setUndoStack (fun _ => []) ;;
          setRedoStack (fun _ => []))
         (fun err =>
            setError (Some (or_default (message err) "Failed to load annotations"))))
      (setIsLoading false).

Definition saveAnnotation (imageId : option Id)
    (seg : option polygon_set) (box : list Z) (ar : Z)
    (classId : Z) (className : string) : async state (option annotation) :=
  if falsy imageId then ret None
  else
    try_catch
      (a <- await
              (ReqCreateAnnotation imageId
                 {| p_class_id := Some classId; p_class_name := Some className;
                    p_segmentation := seg; p_bbox := Some box; p_area := Some ar |})
              (fun h => createAnnotation api h imageId
                 {| p_class_id := Some classId; p_class_name := Some className;
                    p_segmentation := seg; p_bbox := Some box; p_area := Some ar |}) ;;
       setAnnotations (fun prev => prev ++ [a]) ;;
       setUndoStack (fun prev => prev ++ [ACreate a]) ;;
       setRedoStack (fun _ => []) ;;
       ret (Some a))
      (fun err =>
         setError (Some (or_default (message err) "Failed to save annotation")) ;;
         throw err).

Definition deleteAnnotation (annotationId : Id) : async state unit :=
  found <- gets (fun s => find (has_id annotationId) (annotations s)) ;;
  match found with
  | None => ret tt
  | Some a =>
    try_catch
      (await (ReqDeleteAnnotation annotationId)
         (fun h => deleteAnnotationApi api h annotationId) ;;
       setAnnotations (filter (fun x => negb (has_id annotationId x))) ;;
       setUndoStack (fun prev => prev ++ [ADelete a]) ;;
       setRedoStack (fun _ => []))
      (fun err =>
         setError (Some (or_default (message err) "Failed to delete annotation")) ;;
         throw err)
  end.

Definition updateAnnotation (annotationId : Id) (data : payload)
  : async state (option annotation) :=
  found <- gets (fun s => find (has_id annotationId) (annotations s)) ;;
  match found with
  | None => ret None
  | Some oldAnnotation =>
    try_catch
      (updated <- await (ReqUpdateAnnotation annotationId data)
                    (fun h => updateAnnotationApi api h annotationId data) ;;
       setAnnotations (map (fun a => if has_id annotationId a then updated else a)) ;;
       setUndoStack (fun prev => prev ++ [AUpdate oldAnnotation updated]) ;;
       setRedoStack (fun _ => []) ;;
       ret (Some updated))
      (fun err =>
         setError (Some (or_default (message err) "Failed to update annotation")) ;;
         throw err)
  end.

Definition mergeAnnotations (imageId : option Id) (annotationIds : list Id)
    (classId : Z) (className : string) : async state (option annotation) :=
  if falsy imageId || (List.length annotationIds <? 2) then ret None
  else
    mergedAnnotations <- gets (fun s => filter (includes annotationIds) (annotations s)) ;;
    try_catch
      (merged <- await (ReqMergeAnnotations annotationIds classId className)
                   (fun h => mergeAnnotationsApi api h annotationIds classId className) ;;
       setAnnotations
         (fun prev => filter (fun a => negb (includes annotationIds a)) prev ++ [merged]) ;;
       setUndoStack (fun prev => prev ++ [AMerge mergedAnnotations merged]) ;;
       setRedoStack (fun _ => []) ;;
       ret (Some merged))
      (fun err =>
         setError (Some (or_default (message err) "Failed to merge annotations")) ;;
         throw err).

(** [for (const ann of anns) recreated.push(await createAnnotation(...))] *)
Fixpoint recreate_all (imageId : option Id) (anns : list annotation)
  : async state (list annotation) :=
  match anns with
  | [] => ret []
  | ann :: rest =>
    newAnn <- await (ReqCreateAnnotation imageId (fields_of ann))
                (fun h => createAnnotation api h imageId (fields_of ann)) ;;
    recreated <- recreate_all imageId rest ;;
    ret (newAnn :: recreated)
  end.

(** The branch of [undo] for one record.  It gives back the record as it is
    after the assignments to [action.annotation] and
    [action.mergedAnnotations]. *)
Definition undo_action (imageId : option Id) (act : action) : async state action :=
  match act with
  | ACreate a =>
    await (ReqDeleteAnnotation (id a)) (fun h => deleteAnnotationApi api h (id a)) ;;
    setAnnotations (filter (fun x => negb (has_id (id a) x))) ;;
    ret act
  | ADelete a =>
    created <- await (ReqCreateAnnotation imageId (fields_of a))
                 (fun h => createAnnotation api h imageId (fields_of a)) ;;
    setAnnotations (fun prev => prev ++ [created]) ;;
    ret (ADelete created)
  | AUpdate oldAnnotation newAnnotation =>
    updated <- await (ReqUpdateAnnotation (id newAnnotation) (class_of oldAnnotation))
                 (fun h => updateAnnotationApi api h (id newAnnotation)
                             (class_of oldAnnotation)) ;;
    setAnnotations
      (map (fun a => if has_id (id newAnnotation) a then updated else a)) ;;
    ret act
  | AMerge mergedAnnotations newAnnotation =>
    await (ReqDeleteAnnotation (id newAnnotation))
      (fun h => deleteAnnotationApi api h (id newAnnotation)) ;;
    recreated <- recreate_all imageId mergedAnnotations ;;
    setAnnotations
      (fun prev => filter (fun a => negb (has_id (id newAnnotation) a)) prev ++ recreated) ;;
    ret (AMerge recreated newAnnotation)
  end.

Definition undo (imageId : option Id) : async state unit :=
  stack <- gets undoStack ;;
  match rev stack with
  | [] => ret tt
  | act :: _ =>
    setUndoStack (fun prev => removelast prev) ;;
    try_catch
      (act' <- undo_action imageId act ;;
       setRedoStack (fun prev => prev ++ [act']))
      (fun err => setError (Some (or_default (message err) "Failed to undo")))
  end.

Definition redo_action (imageId : option Id) (act : action) : async state action :=
  match act with
  | ACreate a =>
    created <- await (ReqCreateAnnotation imageId (fields_of a))
                 (fun h => createAnnotation api h imageId (fields_of a)) ;;
    setAnnotations (fun prev => prev ++ [created]) ;;
    ret (ACreate created)
  | ADelete a =>
    await (ReqDeleteAnnotation (id a)) (fun h => deleteAnnotationApi api h (id a)) ;;
    setAnnotations (filter (fun x => negb (has_id (id a) x))) ;;
    ret act
  | AUpdate oldAnnotation newAnnotation =>
    updated <- await (ReqUpdateAnnotation (id oldAnnotation) (class_of newAnnotation))
                 (fun h => updateAnnotationApi api h (id oldAnnotation)
                             (class_of newAnnotation)) ;;
    setAnnotations
      (map (fun a => if has_id (id oldAnnotation) a then updated else a)) ;;
    ret act
  | AMerge mergedAnnotations newAnnotation =>
    let annotationIds := map id mergedAnnotations in
    merged <- await (ReqMergeAnnotations annotationIds
                       (class_id newAnnotation) (class_name newAnnotation))
                (fun h => mergeAnnotationsApi api h annotationIds
                            (class_id newAnnotation) (class_name newAnnotation)) ;;
    setAnnotations
      (fun prev => filter (fun a => negb (includes annotationIds a)) prev ++ [merged]) ;;
    ret (AMerge mergedAnnotations merged)
  end.

Definition redo (imageId : option Id) : async state unit :=
  stack <- gets redoStack ;;
  match rev stack with
  | [] => ret tt
  | act :: _ =>
    setRedoStack (fun prev => removelast prev) ;;
    try_catch
      (act' <- redo_action imageId act ;;
       setUndoStack (fun prev => prev ++ [act']))
      (fun err => setError (Some (or_default (message err) "Failed to redo")))
  end.

Definition canUndo (s : state) : bool := negb (List.length (undoStack s) =? 0).
Definition canRedo (s : state) : bool := negb (List.length (redoStack s) =? 0).

End WithApi.

End Annotations.

(** ** hooks/useSAM.js *)

Module SAM.

Record state := {
  isEncoding : bool;
  isSegmenting : bool;
  preview : option preview_t;
  error : option string;
  encodedImageRef : option Id
}.

Definition initial : state :=
  {| isEncoding := false; isSegmenting := false; preview := None;
     error := None; encodedImageRef := None |}.

Definition setIsEncoding (b : bool) : async state unit :=
  modify (fun s =>
    {| isEncoding := b; isSegmenting := isSegmenting s; preview := preview s;
       error := error s; encodedImageRef := encodedImageRef s |}).

Definition setIsSegmenting (b : bool) : async state unit :=
  modify (fun s =>
    {| isEncoding := isEncoding s; isSegmenting := b; preview := preview s;
       error := error s; encodedImageRef := encodedImageRef s |}).

Definition setPreview (p : option preview_t) : async state unit :=
  modify (fun s =>
    {| isEncoding := isEncoding s; isSegmenting := isSegmenting s; preview := p;
       error := error s; encodedImageRef := encodedImageRef s |}).

Definition setError (e : option string) : async state unit :=
  modify (fun s =>
    {| isEncoding := isEncoding s; isSegmenting := isSegmenting s;
       preview := preview s; error := e; encodedImageRef := encodedImageRef s |}).

Definition setEncodedImageRef (i : option Id) : async state unit :=
  modify (fun s =>
    {| isEncoding := isEncoding s; isSegmenting := isSegmenting s;
       preview := preview s; error := error s; encodedImageRef := i |}).

(** [encodedImageRef.current === imageId] *)
Definition same_image (a b : option Id) : bool :=
  match a, b with
  | Some i, Some j => String.eqb i j
  | None, None => true
  | _, _ => false
  end.

Section WithApi.

Variable api : collaborator.

Definition encode (imageId : option Id) : async state unit :=
  cur <- gets encodedImageRef ;;
  if same_image cur imageId then ret tt
  else
    setIsEncoding true ;;
    setError None ;;
    try_finally
      (try_catch
         (await (ReqEncodeImage imageId) (fun h => encodeImage api h imageId) ;;
          setEncodedImageRef imageId)
         (fun err =>
            setError (Some (or_default (message err) "Failed to encode image")) ;;
            throw err))
      (setIsEncoding false).

Definition segment (imageId : option Id) (points : list point)
    (existingPolygons : option (list polygon_set))
  : async state (option preview_t) :=
  if List.length points =? 0 then
    setPreview None ;; ret None
  else
    setIsSegmenting true ;;
    setError None ;;
    try_finally
      (try_catch
         (cur <- gets encodedImageRef ;;
          (if same_image cur imageId then ret tt else encode imageId) ;;
          result <- await (ReqSegmentImage imageId points existingPolygons)
                      (fun h => segmentImage api h imageId points existingPolygons) ;;
          setPreview (Some result) ;;
          ret (Some result))
         (fun err =>
            setError (Some (or_default (message err) "Failed to segment")) ;;
            throw err))
      (setIsSegmenting false).

End WithApi.

Definition clearPreview : async state unit := setPreview None.

Definition resetEncoder : async state unit :=
  setEncodedImageRef None ;; setPreview None.

End SAM.

(** ** hooks/useTransfer.js *)

Module Transfer.

Record settings_t := { positivePoints : Z; negativePoints : Z }.

Definition DEFAULT_SETTINGS : settings_t :=
  {| positivePoints := 2; negativePoints := 1 |}.

(** An entry of [confirmedPreviews]:
    [{...sam.preview, classId, className, sourceId}]. *)
Record confirmed := {
  fields : preview_t;
  classId : Z;
  className : string;
  sourceId : Id
}.

Record state := {
  settings : settings_t;
  isActive : bool;
  sourceAnnotations : list annotation;
  currentIndex : nat;
  confirmedPreviews : list confirmed;
  isLoading : bool;
  error : option string;
  transferPoints : option (list point)
}.

Definition initial : state :=
  {| settings := DEFAULT_SETTINGS; isActive := false; sourceAnnotations := [];
     currentIndex := 0; confirmedPreviews := []; isLoading := false;
     error := None; transferPoints := None |}.

(** The hook works on its own state and on the [sam] object it is given. *)
Record hooks := { tr : state; sam : SAM.state }.

Definition on_tr (f : state -> state) : async hooks unit :=
  modify (fun w => {| tr := f (tr w); sam := sam w |}).

Definition on_sam {A} (m : async SAM.state A) : async hooks A :=
  zoom sam (fun s w => {| tr := tr w; sam := s |}) m.

Definition setSettings (v : settings_t) : async hooks unit :=
  on_tr (fun s =>
    {| settings := v; isActive := isActive s;
       sourceAnnotations := sourceAnnotations s; currentIndex := currentIndex s;
       confirmedPreviews := confirmedPreviews s; isLoading := isLoading s;
       error := error s; transferPoints := transferPoints s |}).

Definition setIsActive (b : bool) : async hooks unit :=
  on_tr (fun s =>
    {| settings := settings s; isActive := b;
       sourceAnnotations := sourceAnnotations s; currentIndex := currentIndex s;
       confirmedPreviews := confirmedPreviews s; isLoading := isLoading s;
       error := error s; transferPoints := transferPoints s |}).

Definition setSourceAnnotations (l : list annotation) : async hooks unit :=
  on_tr (fun s =>
    {| settings := settings s; isActive := isActive s;
       sourceAnnotations := l; currentIndex := currentIndex s;
       confirmedPreviews := confirmedPreviews s; isLoading := isLoading s;
       error := error s; transferPoints := transferPoints s |}).

Definition setCurrentIndex (i : nat) : async hooks unit :=
  on_tr (fun s =>
    {| settings := settings s; isActive := isActive s;
       sourceAnnotations := sourceAnnotations s; currentIndex := i;
       confirmedPreviews := confirmedPreviews s; isLoading := isLoading s;
       error := error s; transferPoints := transferPoints s |}).

Definition setConfirmedPreviews (f : list confirmed -> list confirmed)
  : async hooks unit :=
  on_tr (fun s =>
    {| settings := settings s; isActive := isActive s;
       sourceAnnotations := sourceAnnotations s; currentIndex := currentIndex s;
       confirmedPreviews := f (confirmedPreviews s); isLoading := isLoading s;
       error := error s; transferPoints := transferPoints s |}).

Definition setIsLoading (b : bool) : async hooks unit :=
  on_tr (fun s =>
    {| settings := settings s; isActive := isActive s;
       sourceAnnotations := sourceAnnotations s; currentIndex := currentIndex s;
       confirmedPreviews := confirmedPreviews s; isLoading := b;
       error := error s; transferPoints := transferPoints s |}).

Definition setError (e : option string) : async hooks unit :=
  on_tr (fun s =>
    {| settings := settings s; isActive := isActive s;
       sourceAnnotations := sourceAnnotations s; currentIndex := currentIndex s;
       confirmedPreviews := confirmedPreviews s; isLoading := isLoading s;
       error := e; transferPoints := transferPoints s |}).

Definition setTransferPoints (p : option (list point)) : async hooks unit :=
  on_tr (fun s =>
    {| settings := settings s; isActive := isActive s;
       sourceAnnotations := sourceAnnotations s; currentIndex := currentIndex s;
       confirmedPreviews := confirmedPreviews s; isLoading := isLoading s;
       error := error s; transferPoints := p |}).

(** [images.findIndex((img) => img.id === currentImageId)], [None] for -1. *)
Fixpoint findIndex (currentImageId : Id) (images : list Id) : option nat :=
  match images with
  | [] => None
  | i :: rest =>
    if String.eqb i currentImageId then Some 0
    else option_map S (findIndex currentImageId rest)
  end.

(** [images] is the list of the images' ids, in the order of the list. *)
Definition previousImageId (currentImageId : option Id) (images : list Id)
  : option Id :=
  if falsy currentImageId || (List.length images =? 0) then None
  else
    match currentImageId with
    | None => None
    | Some cur =>
      match findIndex cur images with
      | Some (S k) => nth_error images k
      | _ => None
      end
    end.

Definition canStartTransfer (currentImageId : option Id) (images : list Id)
    (s : state) : bool :=
  negb (falsy (previousImageId currentImageId images)) && negb (isActive s).

Definition currentAnnotation (s : state) : option annotation :=
  if negb (isActive s) || (List.length (sourceAnnotations s) =? 0) then None
  else nth_error (sourceAnnotations s) (currentIndex s).

(** The polygons handed to the oracle as already taken: the array starts as
    the segmentations of the annotations of the current slice, and
    [forEach] pushes the polygon of every confirmed preview that has one. *)
Definition existingPolygons (existingAnnotations : option (list annotation))
    (confirmedPreviews : list confirmed) : list polygon_set :=
  fold_left
    (fun acc p =>
       match polygon (fields p) with
       | Some pg => acc ++ [pg]
       | None => acc
       end)
    confirmedPreviews
    (match existingAnnotations with
     | Some l => map segmentation l
     | None => []
     end).

(** [existingPolygons.length > 0 ? existingPolygons : null] *)
Definition exclusion (existingAnnotations : option (list annotation))
    (confirmedPreviews : list confirmed) : option (list polygon_set) :=
  let l := existingPolygons existingAnnotations confirmedPreviews in
  if 0 <? List.length l then Some l else None.

Section WithApi.

Variable api : collaborator.

(** The values [generateAndSegment] closes over are arguments here:
    [currentImageId], [settings], [existingAnnotations] and
    [confirmedPreviews] of the render the callback was made in. *)
Definition generateAndSegment (currentImageId : option Id) (sets : settings_t)
    (existingAnnotations : option (list annotation))
    (confirmedPreviews : list confirmed) (ann : option annotation)
  : async hooks unit :=
  match ann with
  | None => ret tt
  | Some a =>
    if falsy currentImageId then ret tt
    else
      setIsLoading true ;;
      setError None ;;
      try_finally
        (try_catch
           (pointsData <-
              await (ReqGenerateTransferPoints (segmentation a) (bbox a)
                       (positivePoints sets) (negativePoints sets))
                (fun h => generateTransferPoints api h (segmentation a) (bbox a)
                            (positivePoints sets) (negativePoints sets)) ;;
            let allPoints :=
              positive_points pointsData ++ negative_points pointsData in
            setTransferPoints (Some allPoints) ;;
            on_sam (SAM.segment api currentImageId allPoints
                      (exclusion existingAnnotations confirmedPreviews)) ;;
            ret tt)
           (fun err =>
              setError (Some (or_default (message err)
                                "Failed to generate segmentation")) ;;
              setTransferPoints None))
        (setIsLoading false)
  end.

Definition startTransfer (currentImageId : option Id) (images : list Id)
    (existingAnnotations : option (list annotation)) : async hooks unit :=
  render <- gets tr ;;
  let prevId := previousImageId currentImageId images in
  if falsy prevId then
    setError (Some "No previous slice available")
  else
    setIsLoading true ;;
    setError None ;;
    try_finally
      (try_catch
         (prevAnnotations <- await (ReqFetchAnnotations prevId)
                               (fun h => fetchAnnotations api h prevId) ;;
          if List.length prevAnnotations =? 0 then
            setError (Some "Previous slice has no annotations") ;;
            setIsLoading false
          else
            setSourceAnnotations prevAnnotations ;;
            setCurrentIndex 0 ;;
            setConfirmedPreviews (fun _ => []) ;;
            setIsActive true ;;
            generateAndSegment currentImageId (settings render)
              existingAnnotations (confirmedPreviews render)
              (nth_error prevAnnotations 0))
         (fun err =>
            setError (Some (or_default (message err) "Failed to start transfer"))))
      (setIsLoading false).

(** The shared tail of [confirmCurrent] and [skipCurrent]. *)
Definition advance (currentImageId : option Id)
    (existingAnnotations : option (list annotation)) (render : state)
  : async hooks unit :=
  if currentIndex render <? List.length (sourceAnnotations render) - 1 then
    let nextIndex := currentIndex render + 1 in
    setCurrentIndex nextIndex ;;
    generateAndSegment currentImageId (settings render) existingAnnotations
      (confirmedPreviews render) (nth_error (sourceAnnotations render) nextIndex)
  else
    on_sam SAM.clearPreview ;;
    setTransferPoints None.

Definition confirmCurrent (currentImageId : option Id)
    (existingAnnotations : option (list annotation)) : async hooks unit :=
  render <- gets tr ;;
  pv <- gets (fun w => SAM.preview (sam w)) ;;
  match pv, currentAnnotation render with
  | Some p, Some cur =>
    setConfirmedPreviews (fun prev =>
      prev ++ [{| fields := p; classId := class_id cur;
                  className := class_name cur; sourceId := id cur |}]) ;;
    advance currentImageId existingAnnotations render
  | _, _ => ret tt
  end.

Definition skipCurrent (currentImageId : option Id)
    (existingAnnotations : option (list annotation)) : async hooks unit :=
  render <- gets tr ;;
  advance currentImageId existingAnnotations render.

Definition prevAnnotation (currentImageId : option Id)
    (existingAnnotations : option (list annotation)) : async hooks unit :=
  render <- gets tr ;;
  if 0 <? currentIndex render then
    let prevIndex := currentIndex render - 1 in
    setCurrentIndex prevIndex ;;
    generateAndSegment currentImageId (settings render) existingAnnotations
      (confirmedPreviews render) (nth_error (sourceAnnotations render) prevIndex)
  else ret tt.

(** The effect on [settings.positivePoints, settings.negativePoints].
    React runs it after a render in which one of the two is not what it
    was in the render before ([Object.is], on integers equality); [before]
    are the settings of the render before. *)
Definition settingsEffect (currentImageId : option Id)
    (existingAnnotations : option (list annotation)) (before : settings_t) :
    async hooks unit :=
  render <- gets tr ;;
  if (positivePoints (settings render) =? positivePoints before)%Z
     && (negativePoints (settings render) =? negativePoints before)%Z
  then ret tt
  else
    match currentAnnotation render with
    | Some cur =>
      if isActive render && negb (isLoading render) then
        generateAndSegment currentImageId (settings render) existingAnnotations
          (confirmedPreviews render) (Some cur)
      else ret tt
    | None => ret tt
    end.

End WithApi.

(** [setSettings((prev) => ({ ...prev, ...newSettings }))]; a key that
    [newSettings] does not have keeps its value. *)
Definition updateSettings (positive negative : option Z) : async hooks unit :=
  prev <- gets (fun w => settings (tr w)) ;;
  setSettings
    {| positivePoints :=
         match positive with Some n => n | None => positivePoints prev end;
       negativePoints :=
         match negative with Some n => n | None => negativePoints prev end |}.

(** [onSettingsChange={transfer.updateSettings}]: [updateSettings] with the
    render it causes and the effects of that render. *)
Definition onSettingsChange (api : collaborator) (currentImageId : option Id)
    (existingAnnotations : option (list annotation))
    (positive negative : option Z) : async hooks unit :=
  before <- gets (fun w => settings (tr w)) ;;
  updateSettings positive negative ;;
  settingsEffect api currentImageId existingAnnotations before.

(** [prev.filter((_, i) => i !== index)] *)
Fixpoint remove_at {A} (index : nat) (l : list A) : list A :=
  match l, index with
  | [], _ => []
  | _ :: rest, 0 => rest
  | a :: rest, S k => a :: remove_at k rest
  end.

Definition removeConfirmed (index : nat) : async hooks unit :=
  setConfirmedPreviews (remove_at index).

Definition cancelTransfer : async hooks unit :=
  setIsActive false ;;
  setSourceAnnotations [] ;;
  setCurrentIndex 0 ;;
  setConfirmedPreviews (fun _ => []) ;;
  setTransferPoints None ;;
  setError None ;;
  on_sam SAM.clearPreview.

Definition hasMoreAnnotations (s : state) : bool :=
  currentIndex s <? List.length (sourceAnnotations s) - 1.

Definition allProcessed (w : hooks) : bool :=
  isActive (tr w)
  && (List.length (sourceAnnotations (tr w)) - 1 <=? currentIndex (tr w))
  && match SAM.preview (sam w) with Some _ => false | None => true end.

End Transfer.

(** ** App: the debounced segmentation effect and the batch commit *)

Module App.

(** A timeout that was set and has neither run nor been cleared, with what
    its callback closes over. *)
Record timer := {
  timerId : nat;
  due : nat;
  t_imageId : option Id;
  t_points : list point;
  t_existingPolygons : option (list polygon_set)
}.

(** The parts of the component state the hooks are wired to, and the timers
    of the browser: the clock (in milliseconds), the timeouts that are
    pending in the order they were set, the id the next [setTimeout] gives,
    and [debounceTimer], the id held by the clean-up function the last run
    of the segment effect returned ([None] when that run returned before it
    set a timeout). *)
Record state := {
  selectedImageId : option Id;
  images : list Id;
  points : list point;
  store : Annotations.state;
  hooks : Transfer.hooks;
  clock : nat;
  timers : list timer;
  nextTimerId : nat;
  debounceTimer : option nat
}.

Definition setPoints (f : list point -> list point) : async state unit :=
  modify (fun s =>
    {| selectedImageId := selectedImageId s; images := images s;
       points := f (points s); store := store s; hooks := hooks s;
       clock := clock s; timers := timers s; nextTimerId := nextTimerId s;
       debounceTimer := debounceTimer s |}).

Definition setTimers (f : list timer -> list timer) : async state unit :=
  modify (fun s =>
    {| selectedImageId := selectedImageId s; images := images s;
       points := points s; store := store s; hooks := hooks s;
       clock := clock s; timers := f (timers s);
       nextTimerId := nextTimerId s; debounceTimer := debounceTimer s |}).

Definition setNextTimerId (n : nat) : async state unit :=
  modify (fun s =>
    {| selectedImageId := selectedImageId s; images := images s;
       points := points s; store := store s; hooks := hooks s;
       clock := clock s; timers := timers s; nextTimerId := n;
       debounceTimer := debounceTimer s |}).

Definition setDebounceTimer (t : option nat) : async state unit :=
  modify (fun s =>
    {| selectedImageId := selectedImageId s; images := images s;
       points := points s; store := store s; hooks := hooks s;
       clock := clock s; timers := timers s; nextTimerId := nextTimerId s;
       debounceTimer := t |}).

Definition setClock (f : nat -> nat) : async state unit :=
  modify (fun s =>
    {| selectedImageId := selectedImageId s; images := images s;
       points := points s; store := store s; hooks := hooks s;
       clock := f (clock s); timers := timers s;
       nextTimerId := nextTimerId s; debounceTimer := debounceTimer s |}).

Definition on_store {A} (m : async Annotations.state A) : async state A :=
  zoom store
    (fun a s =>
       {| selectedImageId := selectedImageId s; images := images s;
          points := points s; store := a; hooks := hooks s;
          clock := clock s; timers := timers s;
          nextTimerId := nextTimerId s; debounceTimer := debounceTimer s |}) m.

Definition on_hooks {A} (m : async Transfer.hooks A) : async state A :=
  zoom hooks
    (fun w s =>
       {| selectedImageId := selectedImageId s; images := images s;
          points := points s; store := store s; hooks := w;
          clock := clock s; timers := timers s;
          nextTimerId := nextTimerId s; debounceTimer := debounceTimer s |}) m.

Definition on_sam {A} (m : async SAM.state A) : async state A :=
  on_hooks (Transfer.on_sam m).

(** [promise.catch(console.error)] *)
Definition swallow {S A} (m : async S A) : async S unit :=
  try_catch (m ;; ret tt) (fun _ => ret tt).

(** The quiet window of the segment effect, in milliseconds. *)
Definition DEBOUNCE : nat := 100.

(** [setTimeout(callback, delay)]: the timeout joins the pending ones and
    its id is returned. *)
Definition setTimeout (delay : nat) (imageId : option Id)
    (pts : list point) (existingPolygons : option (list polygon_set)) :
    async state nat :=
  s <- gets (fun s => s) ;;
  setTimers (fun l =>
    l ++ [{| timerId := nextTimerId s; due := clock s + delay;
             t_imageId := imageId; t_points := pts;
             t_existingPolygons := existingPolygons |}]) ;;
  setNextTimerId (S (nextTimerId s)) ;;
  ret (nextTimerId s).

(** [clearTimeout(id)]: the pending timeout of that id, if there is one, is
    dropped; every other one stays. *)
Definition clearTimeout (i : nat) : async state unit :=
  setTimers (filter (fun t => negb (timerId t =? i))).

(** The timeouts in the order they run: by the time they are due, and in
    the order they were set when that is the same. *)
Fixpoint insertByDue (t : timer) (l : list timer) : list timer :=
  match l with
  | [] => [t]
  | u :: rest =>
    if due t <? due u then t :: l else u :: insertByDue t rest
  end.

Definition byDue (l : list timer) : list timer :=
  fold_left (fun sorted t => insertByDue t sorted) l [].

Section WithApi.

Variable api : collaborator.

(** The effect on [selectedImageId, points, annotations].  React runs the
    clean-up the previous run returned, [clearTimeout(debounceTimer)], and
    then the body, which returns a clean-up only after it has set its
    timeout. *)
Definition segmentEffect : async state unit :=
  cleanup <- gets debounceTimer ;;
  match cleanup with
  | Some i => clearTimeout i
  | None => ret tt
  end ;;
  setDebounceTimer None ;;
  s <- gets (fun s => s) ;;
  if falsy (selectedImageId s) || (List.length (points s) =? 0) then
    on_sam SAM.clearPreview
  else
    i <- setTimeout DEBOUNCE (selectedImageId s) (points s)
           (Some (map segmentation (Annotations.annotations (store s)))) ;;
    setDebounceTimer (Some i).

(** [handleAddPoint], with the render and the effect run it causes. *)
Definition handleAddPoint (p : point) : async state unit :=
  setPoints (fun prev => prev ++ [p]) ;;
  segmentEffect.

(** The callback of the timeout:
    [sam.segment(selectedImageId, points, existingPolygons).catch(console.error)] *)
Definition fire (t : timer) : async state unit :=
  swallow (on_sam (SAM.segment api (t_imageId t) (t_points t)
                     (t_existingPolygons t))).

Fixpoint fireAll (l : list timer) : async state unit :=
  match l with
  | [] => ret tt
  | t :: rest => fire t ;; fireAll rest
  end.

(** [d] milliseconds pass: every pending timeout that has become due leaves
    the pending ones and runs its callback. *)
Definition elapse (d : nat) : async state unit :=
  setClock (fun c => c + d) ;;
  s <- gets (fun s => s) ;;
  setTimers (filter (fun t => negb (due t <=? clock s))) ;;
  fireAll (byDue (filter (fun t => due t <=? clock s) (timers s))).

(** Point additions, each one followed by the time that passes after it. *)
Fixpoint additions (l : list (point * nat)) : async state unit :=
  match l with
  | [] => ret tt
  | (p, d) :: rest => handleAddPoint p ;; elapse d ;; additions rest
  end.

Definition saveAnnotation (seg : option polygon_set) (box : list Z) (ar : Z)
    (classId : Z) (className : string) : async state (option annotation) :=
  imageId <- gets selectedImageId ;;
  on_store (Annotations.saveAnnotation api imageId seg box ar classId className).

(** [for (const preview of transfer.confirmedPreviews) await saveAnnotation(...)].
    A save that succeeds sets a new [annotations] array, so the component
    renders and the segment effect, which depends on [annotations], runs
    before the loop goes on; a save without a slice sets nothing. *)
Fixpoint saveEach (l : list Transfer.confirmed) : async state unit :=
  match l with
  | [] => ret tt
  | preview :: rest =>
    saved <- saveAnnotation (polygon (Transfer.fields preview))
               (pv_bbox (Transfer.fields preview))
               (pv_area (Transfer.fields preview))
               (Transfer.classId preview) (Transfer.className preview) ;;
    match saved with
    | Some _ => segmentEffect
    | None => ret tt
    end ;;
    saveEach rest
  end.

Definition handleSaveAllTransfers : async state unit :=
  confirmedPreviews <-
    gets (fun s => Transfer.confirmedPreviews (Transfer.tr (hooks s))) ;;
  if List.length confirmedPreviews =? 0 then ret tt
  else
    try_catch
      (saveEach confirmedPreviews ;;
       on_hooks Transfer.cancelTransfer)
      (fun _ => ret tt).

End WithApi.

End App.

(** ** utils/canvas.js: the colour of a class *)

Module Canvas.

Definition colors : list string :=
  ["#ef4444"; "#3b82f6"; "#22c55e"; "#eab308"; "#6b7280"].

(** JS numbers are doubles.  Of the integers, those from
    [Number.MIN_SAFE_INTEGER] to [Number.MAX_SAFE_INTEGER] are held exactly,
    and so is the difference [classId - 1] of such a one; beyond them a
    double rounds.  The colour is modelled for class ids in that range
    only. *)
Definition MAX_SAFE_INTEGER : Z := 2 ^ 53 - 1.

Definition isSafeInteger (n : Z) : bool :=
  ((- MAX_SAFE_INTEGER <=? n) && (n <=? MAX_SAFE_INTEGER))%Z.

Record safe_integer := {
  value : Z;
  is_safe : isSafeInteger value = true
}.

(** [colors[(classId - 1) % colors.length]]; the remainder has the sign of
    [classId - 1], and an index below zero gives [undefined]. *)
Definition getClassColor (classId : safe_integer) : option string :=
  let i := Z.rem (value classId - 1) (Z.of_nat (List.length colors)) in
  if (i <? 0)%Z then None else nth_error colors (Z.to_nat i).

End Canvas.

(** ** hooks/useKeyboard.js: the key handler *)

Module Keyboard.

(** What the handler reads of a [keydown] event. *)
Record event := {
  key : string;
  ctrlKey : bool;
  metaKey : bool;
  shiftKey : bool;
  tagName : string;
  isContentEditable : bool
}.

(** The callback the handler calls. *)
Inductive command :=
| OnCancelTransfer
| OnSkipTransfer
| OnSave
| OnClear
| OnRemoveLastPoint
| OnUndo
| OnRedo
| OnNextImage
| OnPrevImage
| OnToggleHelp
| OnToggleAnnotations
| OnDeleteSelected
| OnMerge
| OnToggleMode
| OnToggleBrush
| OnToggleBrushMode
| OnStartTransfer
| OnDecreaseBrushSize
| OnIncreaseBrushSize
| OnSelectClass (n : Z).

Definition lower (c : Ascii.ascii) : Ascii.ascii :=
  let n := Ascii.nat_of_ascii c in
  if (65 <=? n) && (n <=? 90) then Ascii.ascii_of_nat (n + 32) else c.

(** [e.key.toLowerCase()], on the letters A to Z; the keys the handler
    compares with are ASCII. *)
Fixpoint toLowerCase (s : string) : string :=
  match s with
  | EmptyString => EmptyString
  | String c rest => String (lower c) (toLowerCase rest)
  end.

(** [/^[1-9]$/.test(key)] with [parseInt(key, 10)] *)
Definition digit (k : string) : option Z :=
  match k with
  | String c EmptyString =>
    let n := Ascii.nat_of_ascii c in
    if (49 <=? n) && (n <=? 57) then Some (Z.of_nat (n - 48)) else None
  | _ => None
  end.

Definition handleKeyDown (enabled isTransferActive : bool) (e : event)
  : option command :=
  if negb enabled then None
  else if String.eqb (tagName e) "INPUT" || String.eqb (tagName e) "TEXTAREA"
          || isContentEditable e then None
  else
    let k := toLowerCase (key e) in
    let isCtrl := ctrlKey e || metaKey e in
    let isShift := shiftKey e in
    if String.eqb (key e) "Escape" && isTransferActive then Some OnCancelTransfer
    else if String.eqb (key e) "Tab" && isTransferActive then Some OnSkipTransfer
    else if String.eqb (key e) "Enter" && negb isCtrl then Some OnSave
    else if String.eqb (key e) "Escape" && negb isTransferActive then Some OnClear
    else if String.eqb (key e) "Backspace" && negb isCtrl then Some OnRemoveLastPoint
    else if isCtrl && String.eqb k "z" && negb isShift then Some OnUndo
    else if (isCtrl && String.eqb k "y") || (isCtrl && isShift && String.eqb k "z")
    then Some OnRedo
    else if String.eqb k "n" || String.eqb (key e) "ArrowRight" then Some OnNextImage
    else if String.eqb k "p" || String.eqb (key e) "ArrowLeft" then Some OnPrevImage
    else if String.eqb k "h" || String.eqb k "?" then Some OnToggleHelp
    else if String.eqb k "v" && negb isCtrl then Some OnToggleAnnotations
    else if String.eqb (key e) "Delete" then Some OnDeleteSelected
    else if String.eqb k "m" && negb isCtrl then Some OnMerge
    else if String.eqb k "s" && negb isCtrl then Some OnToggleMode
    else if String.eqb k "b" && negb isCtrl then Some OnToggleBrush
    else if String.eqb k "x" && negb isCtrl then Some OnToggleBrushMode
    else if String.eqb k "t" && negb isCtrl && negb isTransferActive
    then Some OnStartTransfer
    else if String.eqb (key e) "[" && negb isCtrl then Some OnDecreaseBrushSize
    else if String.eqb (key e) "]" && negb isCtrl then Some OnIncreaseBrushSize
    else
      match digit k with
      | Some n => if negb isCtrl && negb isShift then Some (OnSelectClass n) else None
      | None => None
      end.

End Keyboard.

(** ** App: the other handlers *)

From Stdlib Require DecimalString.

Module Handlers.

(** An entry of [DEFAULT_CLASSES], as far as the handlers read it. *)
Record class_info := { c_id : Z; c_name : string }.

Inductive mode_t := SegmentMode | SelectMode.
Inductive tool_t := Pointer | Brush.
Inductive brushMode_t := AddMode | RemoveMode.

(** The state of [App] next to the part the hooks are wired to. *)
Record state := {
  core : App.state;
  selectedClass : Z;
  selectedAnnotations : list Id;
  mode : mode_t;
  tool : tool_t;
  brushMode : brushMode_t;
  brushSize : Z
}.

Definition on_core {A} (m : async App.state A) : async state A :=
  zoom core
    (fun c s =>
       {| core := c; selectedClass := selectedClass s;
          selectedAnnotations := selectedAnnotations s; mode := mode s;
          tool := tool s; brushMode := brushMode s; brushSize := brushSize s |}) m.

Definition setSelectedClass (n : Z) : async state unit :=
  modify (fun s =>
    {| core := core s; selectedClass := n;
       selectedAnnotations := selectedAnnotations s; mode := mode s;
       tool := tool s; brushMode := brushMode s; brushSize := brushSize s |}).

Definition setSelectedAnnotations (f : list Id -> list Id) : async state unit :=
  modify (fun s =>
    {| core := core s; selectedClass := selectedClass s;
       selectedAnnotations := f (selectedAnnotations s); mode := mode s;
       tool := tool s; brushMode := brushMode s; brushSize := brushSize s |}).

Definition setMode (m : mode_t) : async state unit :=
  modify (fun s =>
    {| core := core s; selectedClass := selectedClass s;
       selectedAnnotations := selectedAnnotations s; mode := m;
       tool := tool s; brushMode := brushMode s; brushSize := brushSize s |}).

Definition setTool (f : tool_t -> tool_t) : async state unit :=
  modify (fun s =>
    {| core := core s; selectedClass := selectedClass s;
       selectedAnnotations := selectedAnnotations s; mode := mode s;
       tool := f (tool s); brushMode := brushMode s; brushSize := brushSize s |}).

Definition setBrushMode (f : brushMode_t -> brushMode_t) : async state unit :=
  modify (fun s =>
    {| core := core s; selectedClass := selectedClass s;
       selectedAnnotations := selectedAnnotations s; mode := mode s;
       tool := tool s; brushMode := f (brushMode s); brushSize := brushSize s |}).

Definition setBrushSize (f : Z -> Z) : async state unit :=
  modify (fun s =>
    {| core := core s; selectedClass := selectedClass s;
       selectedAnnotations := selectedAnnotations s; mode := mode s;
       tool := tool s; brushMode := brushMode s; brushSize := f (brushSize s) |}).

(** [handleRemoveLastPoint], with the run of the segment effect that the
    new array of points causes. *)
Definition handleRemoveLastPoint : async App.state unit :=
  App.setPoints (fun prev => removelast prev) ;;
  App.segmentEffect.

Definition handleClearPoints : async App.state unit :=
  App.setPoints (fun _ => []) ;;
  App.on_sam SAM.clearPreview ;;
  App.segmentEffect.

(** The updater of [handleSelectAnnotation(id, shiftKey)]. *)
Definition selection (annotationId : option Id) (shiftKey : bool)
    (prev : list Id) : list Id :=
  match annotationId with
  | None => []
  | Some i =>
    if shiftKey then
      if existsb (String.eqb i) prev
      then filter (fun x => negb (String.eqb x i)) prev
      else prev ++ [i]
    else
      match prev with
      | [j] => if String.eqb j i then [] else [i]
      | _ => [i]
      end
  end.

Definition handleSelectAnnotation (annotationId : option Id) (shiftKey : bool)
  : async state unit :=
  setSelectedAnnotations (selection annotationId shiftKey).

Definition handleToggleBrush : async state unit :=
  s <- gets (fun s => s) ;;
  match mode s with
  | SelectMode =>
    if List.length (selectedAnnotations s) =? 1 then
      setTool (fun prev => match prev with Brush => Pointer | Pointer => Brush end)
    else ret tt
  | SegmentMode => ret tt
  end.

Definition handleToggleBrushMode : async state unit :=
  setBrushMode (fun prev =>
    match prev with AddMode => RemoveMode | RemoveMode => AddMode end).

Definition handleIncreaseBrushSize : async state unit :=
  setBrushSize (fun prev => Z.min (prev + 5) 100).

Definition handleDecreaseBrushSize : async state unit :=
  setBrushSize (fun prev => Z.max (prev - 5) 5).

(** [handleToggleMode]: going to segment mode drops the selection and the
    brush; going to select mode drops the points and the preview, and the
    new array of points makes the segment effect run. *)
Definition handleToggleMode : async state unit :=
  s <- gets (fun s => s) ;;
  match mode s with
  | SelectMode =>
    setSelectedAnnotations (fun _ => []) ;;
    setTool (fun _ => Pointer) ;;
    setMode SegmentMode
  | SegmentMode =>
    on_core (App.setPoints (fun _ => []) ;;
             App.on_sam SAM.clearPreview) ;;
    setMode SelectMode ;;
    on_core App.segmentEffect
  end.

Section WithApi.

Variable api : collaborator.

(** [DEFAULT_CLASSES] is defined with the class selector. *)
Variable DEFAULT_CLASSES : list class_info.

(** [classInfo?.name || `Class ${selectedClass}`] *)
Definition classNameOf (selectedClass : Z) : string :=
  let fallback :=
    String.append "Class "
      (DecimalString.NilZero.string_of_int (Z.to_int selectedClass)) in
  match find (fun c => Z.eqb (c_id c) selectedClass) DEFAULT_CLASSES with
  | Some c => if String.eqb (c_name c) "" then fallback else c_name c
  | None => fallback
  end.

(** [handleSave]; after a save the new arrays of annotations and of points
    make the segment effect run. *)
Definition handleSave : async state unit :=
  s <- gets (fun s => s) ;;
  match SAM.preview (Transfer.sam (App.hooks (core s))) with
  | None => ret tt
  | Some pv =>
    if List.length (App.points (core s)) =? 0 then ret tt
    else
      try_catch
        (saved <- on_core (App.saveAnnotation api (polygon pv) (pv_bbox pv)
                             (pv_area pv) (selectedClass s)
                             (classNameOf (selectedClass s))) ;;
         on_core (App.setPoints (fun _ => []) ;;
                  App.on_sam SAM.clearPreview ;;
                  App.segmentEffect))
        (fun _ => ret tt)
  end.


End WithApi.

End Handlers.

(** ** components/ImageCanvas.jsx: the mouse handlers *)

Module ImageCanvas.

(** Image coordinates, as [getImageCoords] gives them. *)
Definition coords := (Z * Z)%type.

(** The props the mouse handlers read. *)
Record props := {
  mode : Handlers.mode_t;
  tool : Handlers.tool_t;
  selectedAnnotations : list Id;
  showAnnotations : bool;
  annotations : list annotation;
  brushMode : Handlers.brushMode_t;
  brushSize : Z
}.

Record state := {
  isDrawing : bool;
  brushPath : list coords;
  mousePos : option coords
}.

(** The callbacks of the parent the handlers call. *)
Inductive call :=
| OnAddPoint (p : point)
| OnSelectAnnotation (annotationId : option Id) (shiftKey : bool)
| OnBrushComplete (path : list coords) (radius : Z) (operation : Handlers.brushMode_t).

Definition isBrushActive (p : props) : bool :=
  match mode p, tool p with
  | Handlers.SelectMode, Handlers.Brush =>
    List.length (selectedAnnotations p) =? 1
  | _, _ => false
  end.

Section WithHitTest.

(** The point-in-polygon test of the component is floating point
    arithmetic; the handlers only use its answer. *)
Variable isPointInPolygon : Z -> Z -> polygon_t -> bool.

(** The first annotation, in the order of the list, with a polygon that
    holds the point. *)
Definition hit (c : coords) (anns : list annotation) : option Id :=
  option_map id
    (find (fun ann =>
             existsb (isPointInPolygon (fst c) (snd c)) (segmentation ann))
       anns).

(** [handleMouseDown]; [position] is what [getImageCoords(e)] gives, [None]
    outside the image. *)
Definition handleMouseDown (p : props) (position : option coords) (button : Z)
    (shiftKey : bool) (s : state) : state * list call :=
  match position with
  | None => (s, [])
  | Some c =>
    if isBrushActive p then
      ({| isDrawing := true; brushPath := [c]; mousePos := mousePos s |}, [])
    else
      match mode p, tool p with
      | Handlers.SegmentMode, _ =>
        (s, [OnAddPoint {| x := fst c; y := snd c;
                           is_positive := negb (Z.eqb button 2) |}])
      | Handlers.SelectMode, Handlers.Pointer =>
        if negb (showAnnotations p) then (s, [])
        else (s, [OnSelectAnnotation (hit c (annotations p)) shiftKey])
      | Handlers.SelectMode, Handlers.Brush => (s, [])
      end
  end.

End WithHitTest.

Definition handleMouseMove (p : props) (position : option coords) (s : state)
  : state * list call :=
  if isBrushActive p then
    match position with
    | Some c =>
      if isDrawing s then
        ({| isDrawing := isDrawing s; brushPath := brushPath s ++ [c];
            mousePos := position |}, [])
      else
        ({| isDrawing := isDrawing s; brushPath := brushPath s;
            mousePos := position |}, [])
    | None =>
      ({| isDrawing := isDrawing s; brushPath := brushPath s;
          mousePos := position |}, [])
    end
  else (s, []).

Definition handleMouseUp (p : props) (s : state) : state * list call :=
  if isDrawing s && (0 <? List.length (brushPath s)) then
    ({| isDrawing := false; brushPath := []; mousePos := mousePos s |},
     [OnBrushComplete (brushPath s) (brushSize p) (brushMode p)])
  else
    ({| isDrawing := false; brushPath := brushPath s; mousePos := mousePos s |}, []).

Definition handleMouseLeave (p : props) (s : state) : state * list call :=
  if isDrawing s then
    ({| isDrawing := false; brushPath := []; mousePos := None |},
     if 0 <? List.length (brushPath s)
     then [OnBrushComplete (brushPath s) (brushSize p) (brushMode p)]
     else [])
  else
    ({| isDrawing := isDrawing s; brushPath := brushPath s; mousePos := None |}, []).

(** [handleContextMenu] *)
Definition handleContextMenu (p : props) (position : option coords)
  : list call :=
  match mode p, position with
  | Handlers.SegmentMode, Some c =>
    [OnAddPoint {| x := fst c; y := snd c; is_positive := false |}]
  | _, _ => []
  end.

End ImageCanvas.
(** * Auxiliary definitions *)

(** ** Backends and states used in the examples *)

Module Examples.

Definition square : polygon_set := [[0; 0; 10; 0; 10; 10; 0; 10]%Z].
Definition half : polygon_set := [[0; 0; 5; 0; 5; 10; 0; 10]%Z].

Definition cellA : annotation :=
  {| id := "a"; class_id := 1; class_name := "Cell";
     segmentation := square; bbox := [0; 0; 10; 10]%Z; area := 100 |}.

Definition cellB : annotation :=
  {| id := "b"; class_id := 2; class_name := "Nucleus";
     segmentation := half; bbox := [0; 0; 5; 10]%Z; area := 50 |}.

(** [cellA] after an update of its geometry. *)
Definition cellA' : annotation :=
  {| id := "a"; class_id := 1; class_name := "Cell";
     segmentation := half; bbox := [0; 0; 5; 10]%Z; area := 50 |}.

Definition down : jserror := {| message := Some "Network Error" |}.

(** A backend that answers every request, always with the same values. *)
Definition steady : collaborator :=
  {| fetchAnnotations := fun _ _ => Ok [cellA; cellB];
     createAnnotation := fun _ _ _ => Ok cellA;
     updateAnnotationApi := fun _ _ _ => Ok cellA';
     deleteAnnotationApi := fun _ _ => Ok tt;
     mergeAnnotationsApi := fun _ _ _ _ => Ok cellA;
     encodeImage := fun _ _ => Ok tt;
     segmentImage := fun _ _ _ _ =>
       Ok {| polygon := Some square; pv_bbox := [0; 0; 10; 10]%Z; pv_area := 100 |};
     generateTransferPoints := fun _ _ _ _ _ =>
       Ok {| positive_points := [{| x := 5; y := 5; is_positive := true |}];
             negative_points := [{| x := 20; y := 20; is_positive := false |}] |} |}.

(** A backend that cannot be reached. *)
Definition unreachable : collaborator :=
  {| fetchAnnotations := fun _ _ => Err down;
     createAnnotation := fun _ _ _ => Err down;
     updateAnnotationApi := fun _ _ _ => Err down;
     deleteAnnotationApi := fun _ _ => Err down;
     mergeAnnotationsApi := fun _ _ _ _ => Err down;
     encodeImage := fun _ _ => Err down;
     segmentImage := fun _ _ _ _ => Err down;
     generateTransferPoints := fun _ _ _ _ _ => Err down |}.

(** A backend that creates annotations until [n] requests have been sent
    and fails afterwards. *)
Definition failing_after (n : nat) : collaborator :=
  {| fetchAnnotations := fetchAnnotations steady;
     createAnnotation := fun h _ _ =>
       if List.length h <? n then Ok cellA else Err down;
     updateAnnotationApi := updateAnnotationApi steady;
     deleteAnnotationApi := deleteAnnotationApi steady;
     mergeAnnotationsApi := mergeAnnotationsApi steady;
     encodeImage := encodeImage steady;
     segmentImage := segmentImage steady;
     generateTransferPoints := generateTransferPoints steady |}.

(** A backend that cannot encode an image and answers everything else. *)
Definition encoderDown : collaborator :=
  {| fetchAnnotations := fetchAnnotations steady;
     createAnnotation := createAnnotation steady;
     updateAnnotationApi := updateAnnotationApi steady;
     deleteAnnotationApi := deleteAnnotationApi steady;
     mergeAnnotationsApi := mergeAnnotationsApi steady;
     encodeImage := fun _ _ => Err down;
     segmentImage := segmentImage steady;
     generateTransferPoints := generateTransferPoints steady |}.

(** A store showing [cellA] and [cellB], with one action done and one undone. *)
Definition busy : Annotations.state :=
  {| Annotations.annotations := [cellA; cellB];
     Annotations.isLoading := false;
     Annotations.error := None;
     Annotations.undoStack := [Annotations.ACreate cellA];
     Annotations.redoStack := [Annotations.ADelete cellB] |}.


(** A backend that stores [cellA'] and, on an update, overwrites the keys
    the request carries. *)
Definition patch (a : annotation) (d : payload) : annotation :=
  {| id := id a;
     class_id := match p_class_id d with Some c => c | None => class_id a end;
     class_name := match p_class_name d with Some c => c | None => class_name a end;
     segmentation :=
       match p_segmentation d with Some g => g | None => segmentation a end;
     bbox := match p_bbox d with Some b => b | None => bbox a end;
     area := match p_area d with Some n => n | None => area a end |}.

Definition patching : collaborator :=
  {| fetchAnnotations := fetchAnnotations steady;
     createAnnotation := createAnnotation steady;
     updateAnnotationApi := fun _ _ d => Ok (patch cellA' d);
     deleteAnnotationApi := deleteAnnotationApi steady;
     mergeAnnotationsApi := mergeAnnotationsApi steady;
     encodeImage := encodeImage steady;
     segmentImage := segmentImage steady;
     generateTransferPoints := generateTransferPoints steady |}.

(** The store after [updateAnnotation("a", {segmentation, bbox, area})]
    has turned [cellA] into [cellA']. *)
Definition updated : Annotations.state :=
  {| Annotations.annotations := [cellA'];
     Annotations.isLoading := false;
     Annotations.error := None;
     Annotations.undoStack := [Annotations.AUpdate cellA cellA'];
     Annotations.redoStack := [] |}.


(** A transfer from a slice with the two cells, at its first step, with a
    preview on screen. *)
Definition shown : preview_t :=
  {| polygon := Some half; pv_bbox := [0; 0; 5; 10]%Z; pv_area := 50 |}.

Definition withPreview : SAM.state :=
  {| SAM.isEncoding := false; SAM.isSegmenting := false;
     SAM.preview := Some shown; SAM.error := None;
     SAM.encodedImageRef := Some "slice_0002" |}.

Definition firstStep : Transfer.hooks :=
  {| Transfer.tr :=
       {| Transfer.settings := Transfer.DEFAULT_SETTINGS;
          Transfer.isActive := true;
          Transfer.sourceAnnotations := [cellA; cellB];
          Transfer.currentIndex := 0;
          Transfer.confirmedPreviews := [];
          Transfer.isLoading := false;
          Transfer.error := None;
          Transfer.transferPoints := None |};
     Transfer.sam := withPreview |}.

Definition confirmedA : Transfer.confirmed :=
  {| Transfer.fields := shown; Transfer.classId := 1;
     Transfer.className := "Cell"; Transfer.sourceId := "a" |}.

Definition confirmedB : Transfer.confirmed :=
  {| Transfer.fields := shown; Transfer.classId := 2;
     Transfer.className := "Nucleus"; Transfer.sourceId := "b" |}.

(** The same transfer at its last step, the first preview confirmed. *)
Definition lastStep : Transfer.hooks :=
  {| Transfer.tr :=
       {| Transfer.settings := Transfer.DEFAULT_SETTINGS;
          Transfer.isActive := true;
          Transfer.sourceAnnotations := [cellA; cellB];
          Transfer.currentIndex := 1;
          Transfer.confirmedPreviews := [confirmedA];
          Transfer.isLoading := false;
          Transfer.error := None;
          Transfer.transferPoints := None |};
     Transfer.sam := withPreview |}.

(** The transfer with both previews confirmed and nothing left on screen. *)
Definition allConfirmed : Transfer.hooks :=
  {| Transfer.tr :=
       {| Transfer.settings := Transfer.DEFAULT_SETTINGS;
          Transfer.isActive := true;
          Transfer.sourceAnnotations := [cellA; cellB];
          Transfer.currentIndex := 1;
          Transfer.confirmedPreviews := [confirmedA; confirmedB];
          Transfer.isLoading := false;
          Transfer.error := None;
          Transfer.transferPoints := None |};
     Transfer.sam := SAM.initial |}.

(** A transfer from a slice with three cells at its last step: two previews
    are confirmed and the third is on screen. *)
Definition thirdStep : Transfer.hooks :=
  {| Transfer.tr :=
       {| Transfer.settings := Transfer.DEFAULT_SETTINGS;
          Transfer.isActive := true;
          Transfer.sourceAnnotations := [cellA; cellB; cellA'];
          Transfer.currentIndex := 2;
          Transfer.confirmedPreviews := [confirmedA; confirmedB];
          Transfer.isLoading := false;
          Transfer.error := None;
          Transfer.transferPoints := None |};
     Transfer.sam := withPreview |}.



Definition idle : Transfer.hooks :=
  {| Transfer.tr := Transfer.initial; Transfer.sam := SAM.initial |}.

Definition slices : list Id := ["slice_0001"; "slice_0002"].

(** The application on the second slice, nothing clicked yet. *)
Definition desk (w : Transfer.hooks) : App.state :=
  {| App.selectedImageId := Some "slice_0002";
     App.images := slices;
     App.points := [];
     App.store := busy;
     App.hooks := w;
     App.clock := 0;
     App.timers := [];
     App.nextTimerId := 0;
     App.debounceTimer := None |}.

Definition click (n : Z) : point := {| x := n; y := n; is_positive := true |}.

End Examples.

(** ** The forward operations of the store, as one family *)

Module Forward.

Import Annotations.

(** The four forward operations of the store. *)
Inductive operation :=
| Create (seg : option polygon_set) (box : list Z) (ar : Z)
    (classId : Z) (className : string)
| Delete (annotationId : Id)
| Update (annotationId : Id) (data : payload)
| Merge (annotationIds : list Id) (classId : Z) (className : string).

Section WithApi.

Variable api : collaborator.
Variable imageId : option Id.

(** Calling the operation; [deleteAnnotation] returns nothing. *)
Definition perform (o : operation) : async state (option annotation) :=
  match o with
  | Create seg box ar classId className =>
    saveAnnotation api imageId seg box ar classId className
  | Delete annotationId => deleteAnnotation api annotationId ;; ret None
  | Update annotationId data => updateAnnotation api annotationId data
  | Merge annotationIds classId className =>
    mergeAnnotations api imageId annotationIds classId className
  end.

(** The operation gets past its guard and calls the collaborator. *)
Definition delegates (o : operation) (s : state) : bool :=
  match o with
  | Create _ _ _ _ _ => negb (falsy imageId)
  | Delete annotationId | Update annotationId _ =>
    match find (has_id annotationId) (annotations s) with
    | Some _ => true
    | None => false
    end
  | Merge annotationIds _ _ =>
    negb (falsy imageId) && (2 <=? List.length annotationIds)
  end.

(** What the collaborator answers to the operation's call after [h]. *)
Definition answer (o : operation) (h : history) : result (option annotation) :=
  match o with
  | Create seg box ar classId className =>
    match createAnnotation api h imageId
            {| p_class_id := Some classId; p_class_name := Some className;
               p_segmentation := seg; p_bbox := Some box; p_area := Some ar |} with
    | Ok a => Ok (Some a)
    | Err e => Err e
    end
  | Delete annotationId =>
    match deleteAnnotationApi api h annotationId with
    | Ok _ => Ok None
    | Err e => Err e
    end
  | Update annotationId data =>
    match updateAnnotationApi api h annotationId data with
    | Ok a => Ok (Some a)
    | Err e => Err e
    end
  | Merge annotationIds classId className =>
    match mergeAnnotationsApi api h annotationIds classId className with
    | Ok a => Ok (Some a)
    | Err e => Err e
    end
  end.

Definition failure_text (o : operation) : string :=
  match o with
  | Create _ _ _ _ _ => "Failed to save annotation"
  | Delete _ => "Failed to delete annotation"
  | Update _ _ => "Failed to update annotation"
  | Merge _ _ _ => "Failed to merge annotations"
  end.

End WithApi.

End Forward.

(** ** The transfer workflow *)

(** What [generateAndSegment] leaves alone in the state of the hook. *)
Definition same_progress (a b : Transfer.state) : Prop :=
  Transfer.settings a = Transfer.settings b /\
  Transfer.isActive a = Transfer.isActive b /\
  Transfer.sourceAnnotations a = Transfer.sourceAnnotations b /\
  Transfer.currentIndex a = Transfer.currentIndex b /\
  Transfer.confirmedPreviews a = Transfer.confirmedPreviews b.


(** ** The timeouts of the segment effect *)

(** Every pending timeout is the one the clean-up of the segment effect
    holds.  It is so when the component mounts (nothing is pending), and
    the segment effect and the passing of time keep it so. *)
Definition tidy (s : App.state) : bool :=
  forallb (fun t =>
             match App.debounceTimer s with
             | Some i => App.timerId t =? i
             | None => false
             end) (App.timers s).

(** ** The batch commit of a transfer *)

(** The request [saveAnnotation] sends for a confirmed preview. *)
Definition commit_request (imageId : option Id) (c : Transfer.confirmed)
  : request :=
  ReqCreateAnnotation imageId
    {| p_class_id := Some (Transfer.classId c);
       p_class_name := Some (Transfer.className c);
       p_segmentation := polygon (Transfer.fields c);
       p_bbox := Some (pv_bbox (Transfer.fields c));
       p_area := Some (pv_area (Transfer.fields c)) |}.

(** Two application states with the same slice selected, the same points
    clicked and the same state of the transfer. *)
Definition same_session (a b : App.state) : Prop :=
  App.selectedImageId a = App.selectedImageId b /\
  App.points a = App.points b /\
  Transfer.tr (App.hooks a) = Transfer.tr (App.hooks b).

(** The state of [useSAM] with the preview cleared. *)
Definition cleared (m : SAM.state) : SAM.state :=
  {| SAM.isEncoding := SAM.isEncoding m; SAM.isSegmenting := SAM.isSegmenting m;
     SAM.preview := None; SAM.error := SAM.error m;
     SAM.encodedImageRef := SAM.encodedImageRef m |}.

(** The state of the oracle hook after [n] saves of the batch: the first
    render after a save runs the segment effect, which, no point being
    clicked, clears the preview. *)
Definition after_saves (n : nat) (s : App.state) : SAM.state :=
  match n with
  | 0 => Transfer.sam (App.hooks s)
  | S _ =>
    if List.length (App.points s) =? 0 then cleared (Transfer.sam (App.hooks s))
    else Transfer.sam (App.hooks s)
  end.

(** A request that is a [segmentImage] call. *)
Definition isSegmentImage (rq : request) : bool :=
  match rq with
  | ReqSegmentImage _ _ _ => true
  | _ => false
  end.

(** ** Auxiliary definitions for the further properties *)

(** The store after the record on top of the undo stack is taken off. *)
Definition popped_undo (s : Annotations.state) : Annotations.state :=
  {| Annotations.annotations := Annotations.annotations s;
     Annotations.isLoading := Annotations.isLoading s;
     Annotations.error := Annotations.error s;
     Annotations.undoStack := removelast (Annotations.undoStack s);
     Annotations.redoStack := Annotations.redoStack s |}.

(** The store after the record on top of the redo stack is taken off. *)
Definition popped_redo (s : Annotations.state) : Annotations.state :=
  {| Annotations.annotations := Annotations.annotations s;
     Annotations.isLoading := Annotations.isLoading s;
     Annotations.error := Annotations.error s;
     Annotations.undoStack := Annotations.undoStack s;
     Annotations.redoStack := removelast (Annotations.redoStack s) |}.

(** The three ways to move through the source annotations of a transfer. *)
Inductive navigation := Confirm | Skip | Previous.

Definition navigate (api : collaborator) (currentImageId : option Id)
    (existingAnnotations : option (list annotation)) (n : navigation)
  : async Transfer.hooks unit :=
  match n with
  | Confirm => Transfer.confirmCurrent api currentImageId existingAnnotations
  | Skip => Transfer.skipCurrent api currentImageId existingAnnotations
  | Previous => Transfer.prevAnnotation api currentImageId existingAnnotations
  end.

(** One step after the other. *)
Fixpoint navigate_all (api : collaborator) (currentImageId : option Id)
    (existingAnnotations : option (list annotation)) (l : list navigation)
  : async Transfer.hooks unit :=
  match l with
  | [] => ret tt
  | n :: rest =>
    navigate api currentImageId existingAnnotations n ;;
    navigate_all api currentImageId existingAnnotations rest
  end.

(** What the user can do to the selection, the mode and the brush. *)
Inductive ui_event :=
| SelectAnnotation (annotationId : option Id) (shiftKey : bool)
| ToggleMode
| ToggleBrush
| ToggleBrushMode
| IncreaseBrushSize
| DecreaseBrushSize.

Definition ui_step (e : ui_event) : async Handlers.state unit :=
  match e with
  | SelectAnnotation annotationId shiftKey =>
    Handlers.handleSelectAnnotation annotationId shiftKey
  | ToggleMode => Handlers.handleToggleMode
  | ToggleBrush => Handlers.handleToggleBrush
  | ToggleBrushMode => Handlers.handleToggleBrushMode
  | IncreaseBrushSize => Handlers.handleIncreaseBrushSize
  | DecreaseBrushSize => Handlers.handleDecreaseBrushSize
  end.

Fixpoint ui_run (l : list ui_event) : async Handlers.state unit :=
  match l with
  | [] => ret tt
  | e :: rest => ui_step e ;; ui_run rest
  end.

(** What holds of the selection, the mode and the brush all along. *)
Definition ui_ok (s : Handlers.state) : Prop :=
  (5 <= Handlers.brushSize s <= 100)%Z /\
  (Handlers.mode s = Handlers.SegmentMode ->
   Handlers.tool s = Handlers.Pointer) /\
  NoDup (Handlers.selectedAnnotations s).

(** The application as it starts, around the given hooks. *)
Definition started (c : App.state) : Handlers.state :=
  {| Handlers.core := c;
     Handlers.selectedClass := 1;
     Handlers.selectedAnnotations := [];
     Handlers.mode := Handlers.SegmentMode;
     Handlers.tool := Handlers.Pointer;
     Handlers.brushMode := Handlers.AddMode;
     Handlers.brushSize := 20 |}.

(** The classes of the plan, for the examples. *)
Definition classes : list Handlers.class_info :=
  [{| Handlers.c_id := 1; Handlers.c_name := "Transfusion tracheid" |};
   {| Handlers.c_id := 2; Handlers.c_name := "Transfusion parenchyma cell" |};
   {| Handlers.c_id := 3; Handlers.c_name := "Endodermis cell" |};
   {| Handlers.c_id := 4; Handlers.c_name := "Artefact" |};
   {| Handlers.c_id := 5; Handlers.c_name := "Other" |}].

(** States for the examples of the further properties. *)
Module MoreExamples.

Import Examples.

(** The second slice with one point clicked and its preview on screen: the
    timeout of the click has run, and the clean-up still holds its id. *)
Definition clicked : App.state :=
  {| App.selectedImageId := Some "slice_0002";
     App.images := slices;
     App.points := [click 1];
     App.store := busy;
     App.hooks := {| Transfer.tr := Transfer.initial; Transfer.sam := withPreview |};
     App.clock := 100;
     App.timers := [];
     App.nextTimerId := 1;
     App.debounceTimer := Some 0 |}.


Definition keyT : Keyboard.event :=
  {| Keyboard.key := "T"; Keyboard.ctrlKey := false; Keyboard.metaKey := false;
     Keyboard.shiftKey := true; Keyboard.tagName := "CANVAS";
     Keyboard.isContentEditable := false |}.

(** The canvas with the brush on the first cell, and no stroke begun. *)
Definition brushing : ImageCanvas.props :=
  {| ImageCanvas.mode := Handlers.SelectMode;
     ImageCanvas.tool := Handlers.Brush;
     ImageCanvas.selectedAnnotations := ["a"];
     ImageCanvas.showAnnotations := true;
     ImageCanvas.annotations := [cellA; cellB];
     ImageCanvas.brushMode := Handlers.AddMode;
     ImageCanvas.brushSize := 20 |}.

Definition resting : ImageCanvas.state :=
  {| ImageCanvas.isDrawing := false; ImageCanvas.brushPath := [];
     ImageCanvas.mousePos := None |}.

End MoreExamples.

(** ** Mouse gestures on the canvas *)

Inductive mouse_event :=
| MouseDown (position : option ImageCanvas.coords) (button : Z) (shiftKey : bool)
| MouseMove (position : option ImageCanvas.coords)
| MouseUp
| MouseLeave.

Definition mouse_step (inside : Z -> Z -> polygon_t -> bool)
    (p : ImageCanvas.props) (e : mouse_event) (s : ImageCanvas.state)
  : ImageCanvas.state * list ImageCanvas.call :=
  match e with
  | MouseDown position button shiftKey =>
    ImageCanvas.handleMouseDown inside p position button shiftKey s
  | MouseMove position => ImageCanvas.handleMouseMove p position s
  | MouseUp => ImageCanvas.handleMouseUp p s
  | MouseLeave => ImageCanvas.handleMouseLeave p s
  end.

(** The events one after the other, with the calls they make in order. *)
Fixpoint mouse_run (inside : Z -> Z -> polygon_t -> bool)
    (p : ImageCanvas.props) (l : list mouse_event) (s : ImageCanvas.state)
  : ImageCanvas.state * list ImageCanvas.call :=
  match l with
  | [] => (s, [])
  | e :: rest =>
    let (s1, calls1) := mouse_step inside p e s in
    let (s2, calls2) := mouse_run inside p rest s1 in
    (s2, calls1 ++ calls2)
  end.

(** The positions inside the image among those of a mouse trail. *)
Definition inside_image (trail : list (option ImageCanvas.coords))
  : list ImageCanvas.coords :=
  flat_map (fun o => match o with Some c => [c] | None => [] end) trail.

(** * Properties *)

(** ** Tactics for running asynchronous functions *)

Ltac unfold_async :=
  cbv [bind ret throw try_catch try_finally modify gets await zoom] in *.

Ltac unfold_annotations :=
  unfold Annotations.setAnnotations, Annotations.setIsLoading,
    Annotations.setError, Annotations.setUndoStack, Annotations.setRedoStack in *.


Import Forward.

(** ** The action log *)

Section ActionLog.

Import Annotations Forward.

Variable api : collaborator.
Variable imageId : option Id.

Lemma merge_guard (ids : list Id) :
  negb (falsy imageId) && (2 <=? List.length ids) = true ->
  falsy imageId || (List.length ids <? 2) = false.
Proof.
  intros H. apply andb_true_iff in H as [H1 H2].
  apply negb_true_iff in H1. rewrite H1, orb_false_l.
  apply Nat.leb_le in H2. apply Nat.ltb_ge. exact H2.
Qed.

(** C2: a forward operation whose collaborator call succeeds empties the
    redo stack, whatever it held, and puts exactly one record on top of the
    undo stack, leaving the records below untouched. *)
Theorem success_logs_one_record (o : operation) (s : state) (h : history)
    (v : option annotation) :
  delegates imageId o s = true ->
  answer api imageId o h = Ok v ->
  res (perform api imageId o s h) = Returned v /\
  redoStack (st (perform api imageId o s h)) = [] /\
  exists record, undoStack (st (perform api imageId o s h)) = undoStack s ++ [record].
Proof.
  intros Hd Ha. destruct o; cbn in Hd, Ha |- *.
  - unfold saveAnnotation. apply negb_true_iff in Hd. rewrite Hd.
    unfold_annotations. unfold_async.
    destruct (createAnnotation api h imageId _) as [a|e]; [|discriminate].
    inversion Ha; subst. cbn. repeat split. now exists (ACreate a).
  - unfold deleteAnnotation. unfold_annotations. unfold_async. cbn.
    destruct (find (has_id annotationId) (annotations s)) as [a|]; [|discriminate].
    destruct (deleteAnnotationApi api h annotationId) as [u|e]; [|discriminate].
    inversion Ha; subst. cbn. repeat split. now exists (ADelete a).
  - unfold updateAnnotation. unfold_annotations. unfold_async. cbn.
    destruct (find (has_id annotationId) (annotations s)) as [a|]; [|discriminate].
    destruct (updateAnnotationApi api h annotationId data) as [u|e]; [|discriminate].
    inversion Ha; subst. cbn. repeat split. now exists (AUpdate a u).
  - unfold mergeAnnotations. rewrite (merge_guard _ Hd).
    unfold_annotations. unfold_async. cbn.
    destruct (mergeAnnotationsApi api h annotationIds classId className) as [m|e];
      [|discriminate].
    inversion Ha; subst. cbn. repeat split.
    now exists (AMerge (filter (includes annotationIds) (annotations s)) m).
Qed.

(** C4: when the collaborator call of a forward operation fails, the error
    is thrown to the caller and set as the message of the store, and the
    list of annotations and both stacks are as before. *)
Theorem failure_leaves_store (o : operation) (s : state) (h : history)
    (e : jserror) :
  delegates imageId o s = true ->
  answer api imageId o h = Err e ->
  res (perform api imageId o s h) = Threw e /\
  annotations (st (perform api imageId o s h)) = annotations s /\
  undoStack (st (perform api imageId o s h)) = undoStack s /\
  redoStack (st (perform api imageId o s h)) = redoStack s /\
  error (st (perform api imageId o s h)) = Some (or_default (message e) (failure_text o)).
Proof.
  intros Hd Ha. destruct o; cbn in Hd, Ha |- *.
  - unfold saveAnnotation. apply negb_true_iff in Hd. rewrite Hd.
    unfold_annotations. unfold_async.
    destruct (createAnnotation api h imageId _) as [a|e']; [discriminate|].
    inversion Ha; subst. cbn. repeat split.
  - unfold deleteAnnotation. unfold_annotations. unfold_async. cbn.
    destruct (find (has_id annotationId) (annotations s)) as [a|]; [|discriminate].
    destruct (deleteAnnotationApi api h annotationId) as [u|e']; [discriminate|].
    inversion Ha; subst. cbn. repeat split.
  - unfold updateAnnotation. unfold_annotations. unfold_async. cbn.
    destruct (find (has_id annotationId) (annotations s)) as [a|]; [|discriminate].
    destruct (updateAnnotationApi api h annotationId data) as [u|e']; [discriminate|].
    inversion Ha; subst. cbn. repeat split.
  - unfold mergeAnnotations. rewrite (merge_guard _ Hd).
    unfold_annotations. unfold_async. cbn.
    destruct (mergeAnnotationsApi api h annotationIds classId className) as [m|e'];
      [discriminate|].
    inversion Ha; subst. cbn. repeat split.
Qed.

(** C5, as the code has it: with no image selected [saveAnnotation] returns
    [null] to the caller; nothing is thrown, no request is sent and the
    store is as before. *)
Theorem save_without_image_returns_null (seg : option polygon_set)
    (box : list Z) (ar classId : Z) (className : string)
    (s : state) (h : history) :
  falsy imageId = true ->
  saveAnnotation api imageId seg box ar classId className s h
  = Ran (Returned None) s h.
Proof.
  intros Hf. unfold saveAnnotation. rewrite Hf. reflexivity.
Qed.

End ActionLog.

(** A successful delete on the store of the examples. *)
Lemma success_logs_one_record_witness :
  let o := Delete "b" in
  delegates None o Examples.busy = true /\
  answer Examples.steady None o [] = Ok None /\
  res (perform Examples.steady None o Examples.busy []) = Returned None /\
  Annotations.redoStack (st (perform Examples.steady None o Examples.busy [])) = [] /\
  exists record,
    Annotations.undoStack (st (perform Examples.steady None o Examples.busy []))
    = Annotations.undoStack Examples.busy ++ [record].
Proof.
  split; [reflexivity|]. split; [reflexivity|].
  apply (success_logs_one_record Examples.steady None (Delete "b")
           Examples.busy [] None); reflexivity.
Defined.

(** A merge that the backend refuses. *)
Lemma failure_leaves_store_witness :
  let o := Merge ["a"; "b"] 1 "Cell" in
  let r := perform Examples.unreachable (Some "slice_0001") o Examples.busy [] in
  delegates (Some "slice_0001") o Examples.busy = true /\
  answer Examples.unreachable (Some "slice_0001") o [] = Err Examples.down /\
  res r = Threw Examples.down /\
  Annotations.annotations (st r) = Annotations.annotations Examples.busy /\
  Annotations.undoStack (st r) = Annotations.undoStack Examples.busy /\
  Annotations.redoStack (st r) = Annotations.redoStack Examples.busy /\
  Annotations.error (st r)
  = Some (or_default (message Examples.down) (failure_text o)).
Proof.
  split; [reflexivity|]. split; [reflexivity|].
  apply (failure_leaves_store Examples.unreachable (Some "slice_0001")
           (Merge ["a"; "b"] 1 "Cell") Examples.busy [] Examples.down);
    reflexivity.
Defined.

Lemma save_without_image_returns_null_witness :
  falsy None = true /\
  Annotations.saveAnnotation Examples.steady None (Some Examples.square)
    [0; 0; 10; 10]%Z 100 1 "Cell" Examples.busy []
  = Ran (Returned None) Examples.busy [].
Proof.
  split; [reflexivity|].
  apply (save_without_image_returns_null Examples.steady None); reflexivity.
Defined.

(** C5 as stated fails: with no image selected the call does not throw. *)
Lemma save_without_image_does_not_throw :
  falsy None = true /\
  ~ exists e,
      res (Annotations.saveAnnotation Examples.steady None (Some Examples.square)
             [0; 0; 10; 10]%Z 100 1 "Cell" Examples.busy [])
      = Threw e.
Proof.
  split; [reflexivity|]. intros [e H]. cbn in H. discriminate H.
Qed.

(** ** Undo and redo of an update *)


(** C1 at a failing input: undoing an update of the geometry sends only
    [class_id] and [class_name] of the old annotation.  The request carries
    no segmentation, bounding box or area, the store keeps the new geometry,
    and the record moves to the redo stack as if the update were undone. *)
Theorem undo_update_sends_class_only :
  let r := Annotations.undo Examples.patching (Some "slice_0001")
             Examples.updated [] in
  sent r
  = [ReqUpdateAnnotation "a"
       {| p_class_id := Some 1%Z; p_class_name := Some "Cell";
          p_segmentation := None; p_bbox := None; p_area := None |}] /\
  Annotations.annotations (st r) = [Examples.cellA'] /\
  Annotations.annotations (st r) <> [Examples.cellA] /\
  Annotations.undoStack (st r) = [] /\
  Annotations.redoStack (st r)
  = [Annotations.AUpdate Examples.cellA Examples.cellA'] /\
  Annotations.error (st r) = None.
Proof.
  cbn. repeat split. intros H. discriminate H.
Qed.

(** The requests of [undo] and [redo] for an update record, in general. *)
Lemma undo_update_request (api : collaborator) (imageId : option Id)
    (s : Annotations.state) (h : history) (below : list Annotations.action)
    (old new : annotation) :
  Annotations.undoStack s = below ++ [Annotations.AUpdate old new] ->
  sent (Annotations.undo api imageId s h)
  = h ++ [ReqUpdateAnnotation (id new) (Annotations.class_of old)].
Proof.
  intros Hs. unfold Annotations.undo. unfold_async.
  rewrite Hs, rev_app_distr. cbn [rev app].
  unfold Annotations.undo_action. unfold_annotations. unfold_async.
  destruct (updateAnnotationApi api h (id new) (Annotations.class_of old));
    reflexivity.
Qed.

Lemma redo_update_request (api : collaborator) (imageId : option Id)
    (s : Annotations.state) (h : history) (below : list Annotations.action)
    (old new : annotation) :
  Annotations.redoStack s = below ++ [Annotations.AUpdate old new] ->
  sent (Annotations.redo api imageId s h)
  = h ++ [ReqUpdateAnnotation (id old) (Annotations.class_of new)].
Proof.
  intros Hs. unfold Annotations.redo. unfold_async.
  rewrite Hs, rev_app_distr. cbn [rev app].
  unfold Annotations.redo_action. unfold_annotations. unfold_async.
  destruct (updateAnnotationApi api h (id old) (Annotations.class_of new));
    reflexivity.
Qed.

(** ** Loading a slice *)

(** When the annotations of the new slice arrive, both stacks are emptied. *)
Lemma load_success_resets (api : collaborator) (imageId : option Id)
    (s : Annotations.state) (h : history) (data : list annotation) :
  falsy imageId = false ->
  fetchAnnotations api h imageId = Ok data ->
  Annotations.annotations (st (Annotations.loadAnnotations api imageId s h)) = data /\
  Annotations.undoStack (st (Annotations.loadAnnotations api imageId s h)) = [] /\
  Annotations.redoStack (st (Annotations.loadAnnotations api imageId s h)) = [].
Proof.
  intros Hf Hd. unfold Annotations.loadAnnotations. rewrite Hf.
  unfold_annotations. unfold_async. cbn. rewrite Hd. cbn. repeat split.
Qed.

(** C3 at two failing inputs: going from a slice to no slice, and going to
    a slice whose annotations cannot be loaded, both leave the records of
    the slice before on the two stacks. *)
Theorem slice_change_keeps_stacks :
  let gone := Annotations.loadAnnotations Examples.steady None Examples.busy [] in
  let failed := Annotations.loadAnnotations Examples.unreachable
                  (Some "slice_0002") Examples.busy [] in
  Annotations.undoStack (st gone) = [Annotations.ACreate Examples.cellA] /\
  Annotations.redoStack (st gone) = [Annotations.ADelete Examples.cellB] /\
  Annotations.annotations (st gone) = [] /\
  res failed = Returned tt /\
  Annotations.undoStack (st failed) = [Annotations.ACreate Examples.cellA] /\
  Annotations.redoStack (st failed) = [Annotations.ADelete Examples.cellB] /\
  Annotations.error (st failed) = Some "Network Error".
Proof.
  cbn. repeat split.
Qed.

(** ** The transfer workflow *)

Ltac unfold_sam :=
  unfold SAM.clearPreview, SAM.resetEncoder, SAM.setIsEncoding,
    SAM.setIsSegmenting, SAM.setPreview, SAM.setError,
    SAM.setEncodedImageRef in *.

Ltac unfold_transfer :=
  unfold Transfer.setSettings, Transfer.setIsActive,
    Transfer.setSourceAnnotations, Transfer.setCurrentIndex,
    Transfer.setConfirmedPreviews, Transfer.setIsLoading, Transfer.setError,
    Transfer.setTransferPoints, Transfer.on_tr, Transfer.on_sam in *.

Section TransferWorkflow.

Import Transfer.

Variable api : collaborator.
Variable currentImageId : option Id.
Variable existingAnnotations : option (list annotation).

Lemma generateAndSegment_progress (sets : settings_t)
    (confirmed : list confirmed) (ann : option annotation)
    (w : hooks) (h : history) :
  same_progress
    (tr (st (generateAndSegment api currentImageId sets existingAnnotations
               confirmed ann w h)))
    (tr w).
Proof.
  unfold generateAndSegment, same_progress.
  destruct ann as [a|]; [|cbn; tauto].
  destruct (falsy currentImageId); [cbn; tauto|].
  unfold_transfer. unfold_async.
  destruct (generateTransferPoints api h _ _ _ _) as [pd|e]; [|cbn; tauto].
  cbn.
  destruct (SAM.segment api currentImageId _ _ _ _) as [[v|e] s' h']; cbn; tauto.
Qed.

(** C6, as the code has it: with a preview and a current source annotation,
    [confirmCurrent] appends one entry made of the preview and of the class
    and id of the current source annotation.  The index moves on by one
    when a later source annotation remains; at the last one the index
    stays, the preview and the prompt points are cleared, no request is
    sent and the workflow reports all processed.  Without a preview nothing
    happens. *)
Theorem confirm_appends_and_steps (w : hooks) (h : history) :
  (SAM.preview (sam w) = None ->
   confirmCurrent api currentImageId existingAnnotations w h
   = Ran (Returned tt) w h) /\
  (forall p cur,
     SAM.preview (sam w) = Some p ->
     currentAnnotation (tr w) = Some cur ->
     let r := confirmCurrent api currentImageId existingAnnotations w h in
     confirmedPreviews (tr (st r))
     = confirmedPreviews (tr w)
       ++ [{| fields := p; classId := class_id cur;
              className := class_name cur; sourceId := id cur |}] /\
     sourceAnnotations (tr (st r)) = sourceAnnotations (tr w) /\
     isActive (tr (st r)) = true /\
     (hasMoreAnnotations (tr w) = true ->
      currentIndex (tr (st r)) = currentIndex (tr w) + 1) /\
     (hasMoreAnnotations (tr w) = false ->
      currentIndex (tr (st r)) = currentIndex (tr w) /\
      SAM.preview (sam (st r)) = None /\
      transferPoints (tr (st r)) = None /\
      allProcessed (st r) = true /\
      sent r = h)).
Proof.
  split.
  - intros Hp. unfold confirmCurrent. unfold_async. rewrite Hp.
    destruct w; reflexivity.
  - intros p cur Hp Hc r. subst r.
    assert (Ha : isActive (tr w) = true).
    { unfold currentAnnotation in Hc.
      destruct (isActive (tr w)); [reflexivity|discriminate]. }
    assert (Hi : currentIndex (tr w) < List.length (sourceAnnotations (tr w))).
    { unfold currentAnnotation in Hc.
      destruct (negb (isActive (tr w))
                || (List.length (sourceAnnotations (tr w)) =? 0));
        [discriminate|].
      apply nth_error_Some. rewrite Hc. discriminate. }
    unfold confirmCurrent, advance, hasMoreAnnotations. unfold_async.
    rewrite Hp, Hc.
    destruct (currentIndex (tr w) <? List.length (sourceAnnotations (tr w)) - 1)
      eqn:Hmore.
    + unfold_transfer. unfold_async. cbn [tr sam].
      match goal with
      | |- context [generateAndSegment ?a ?b ?c ?d ?e ?f ?x ?y] =>
        pose proof (generateAndSegment_progress c e f x y) as Hg;
        destruct (generateAndSegment a b c d e f x y) as [[v|e'] s' h']
      end;
        cbn in Hg |- *; destruct Hg as (_ & Hg2 & Hg3 & Hg4 & Hg5);
        rewrite Hg2, Hg3, Hg4, Hg5;
        repeat split; auto; discriminate.
    + unfold_transfer. unfold_sam. unfold_async. cbn.
      repeat split; auto; try discriminate.
      unfold allProcessed. cbn. rewrite Ha. cbn.
      rewrite andb_true_r. apply Nat.leb_le. apply Nat.ltb_ge in Hmore. lia.
Qed.

End TransferWorkflow.

(** A confirmation at the first of two source annotations. *)
Lemma confirm_appends_and_steps_witness :
  SAM.preview (Transfer.sam Examples.firstStep) = Some Examples.shown /\
  Transfer.currentAnnotation (Transfer.tr Examples.firstStep)
  = Some Examples.cellA /\
  let r := Transfer.confirmCurrent Examples.steady (Some "slice_0002")
             (Some []) Examples.firstStep [] in
  Transfer.confirmedPreviews (Transfer.tr (st r)) = [Examples.confirmedA] /\
  Transfer.currentIndex (Transfer.tr (st r)) = 1.
Proof.
  split; [reflexivity|]. split; [reflexivity|].
  destruct (confirm_appends_and_steps Examples.steady (Some "slice_0002")
              (Some []) Examples.firstStep []) as [_ H].
  destruct (H Examples.shown Examples.cellA eq_refl eq_refl)
    as (H1 & _ & _ & H4 & _).
  split; [exact H1 | exact (H4 eq_refl)].
Defined.

(** C6 as stated fails at the last source annotation: the entry is
    appended but the index is not advanced. *)
Lemma confirm_at_last_keeps_index :
  SAM.preview (Transfer.sam Examples.lastStep) = Some Examples.shown /\
  Transfer.currentAnnotation (Transfer.tr Examples.lastStep)
  = Some Examples.cellB /\
  let r := Transfer.confirmCurrent Examples.steady (Some "slice_0002")
             (Some []) Examples.lastStep [] in
  Transfer.confirmedPreviews (Transfer.tr (st r))
  = [Examples.confirmedA; Examples.confirmedB] /\
  Transfer.currentIndex (Transfer.tr (st r)) = 1 /\
  Transfer.currentIndex (Transfer.tr (st r))
  <> Transfer.currentIndex (Transfer.tr Examples.lastStep) + 1.
Proof.
  cbn. repeat split. intros H. discriminate H.
Qed.

Section StartTransfer.

Import Transfer.

Variable api : collaborator.
Variable currentImageId : option Id.
Variable images : list Id.
Variable existingAnnotations : option (list annotation).

(** C7, as the code has it: the flag [canStartTransfer] is the gate, true
    exactly when a previous slice exists and the workflow is not active;
    [startTransfer] itself checks the previous slice only, and without one
    it sets its error and changes nothing else, so an idle workflow stays
    idle. *)
Theorem start_gate (w : hooks) (h : history) :
  (canStartTransfer currentImageId images (tr w) = true <->
   falsy (previousImageId currentImageId images) = false /\
   isActive (tr w) = false) /\
  (falsy (previousImageId currentImageId images) = true ->
   let r := startTransfer api currentImageId images existingAnnotations w h in
   res r = Returned tt /\
   error (tr (st r)) = Some "No previous slice available" /\
   isActive (tr (st r)) = isActive (tr w) /\
   sourceAnnotations (tr (st r)) = sourceAnnotations (tr w) /\
   currentIndex (tr (st r)) = currentIndex (tr w) /\
   confirmedPreviews (tr (st r)) = confirmedPreviews (tr w) /\
   sam (st r) = sam w /\
   sent r = h).
Proof.
  split.
  - unfold canStartTransfer. rewrite andb_true_iff, !negb_true_iff. tauto.
  - intros Hf r. subst r. unfold startTransfer. unfold_async. rewrite Hf.
    unfold_transfer. unfold_async. cbn. repeat split.
Qed.

End StartTransfer.

(** On the first slice there is no previous slice. *)
Lemma start_gate_witness :
  falsy (Transfer.previousImageId (Some "slice_0001") Examples.slices) = true /\
  let r := Transfer.startTransfer Examples.steady (Some "slice_0001")
             Examples.slices (Some []) Examples.idle [] in
  Transfer.error (Transfer.tr (st r)) = Some "No previous slice available" /\
  Transfer.isActive (Transfer.tr (st r)) = false /\
  sent r = [].
Proof.
  split; [reflexivity|].
  destruct (start_gate Examples.steady (Some "slice_0001") Examples.slices
              (Some []) Examples.idle []) as [_ H].
  destruct (H eq_refl) as (_ & H2 & H3 & _ & _ & _ & _ & H8).
  split; [exact H2|]. split; [exact H3 | exact H8].
Defined.

(** C7 as stated fails: called on an active workflow, [startTransfer] loads
    the previous slice again, goes back to the first source annotation and
    drops the confirmed previews. *)
Lemma start_while_active_restarts :
  Transfer.isActive (Transfer.tr Examples.lastStep) = true /\
  let r := Transfer.startTransfer Examples.steady (Some "slice_0002")
             Examples.slices (Some []) Examples.lastStep [] in
  Transfer.currentIndex (Transfer.tr (st r)) = 0 /\
  Transfer.confirmedPreviews (Transfer.tr (st r)) = [] /\
  ~ (Transfer.sourceAnnotations (Transfer.tr (st r))
     = Transfer.sourceAnnotations (Transfer.tr Examples.lastStep) /\
     Transfer.currentIndex (Transfer.tr (st r))
     = Transfer.currentIndex (Transfer.tr Examples.lastStep) /\
     Transfer.confirmedPreviews (Transfer.tr (st r))
     = Transfer.confirmedPreviews (Transfer.tr Examples.lastStep)).
Proof.
  cbn. repeat split. intros (_ & H & _). discriminate H.
Qed.

(** ** The polygons excluded from a transfer step *)

Lemma same_image_eq (a b : option Id) : SAM.same_image a b = true <-> a = b.
Proof.
  destruct a as [i|], b as [j|]; cbn; split; intros H;
    try discriminate; try reflexivity.
  - apply String.eqb_eq in H. now subst.
  - inversion H. apply String.eqb_refl.
Qed.

(** The requests of [sam.segment] for a set of points that is not empty,
    when the image is encoded already or can be encoded. *)
Lemma segment_sent (api : collaborator) (imageId : option Id)
    (pts : list point) (ex : option (list polygon_set))
    (s : SAM.state) (h : history) :
  pts <> [] ->
  SAM.encodedImageRef s = imageId \/ encodeImage api h imageId = Ok tt ->
  exists prep,
    (prep = [] \/ prep = [ReqEncodeImage imageId]) /\
    sent (SAM.segment api imageId pts ex s h)
    = h ++ prep ++ [ReqSegmentImage imageId pts ex].
Proof.
  intros Hp He. unfold SAM.segment.
  destruct pts as [|p pts]; [congruence|]. cbn [List.length Nat.eqb].
  unfold SAM.encode. unfold_sam. unfold_async. simpl.
  destruct (SAM.same_image (SAM.encodedImageRef s) imageId) eqn:Hs.
  - exists []. split; [now left|].
    destruct (segmentImage api h imageId (p :: pts) ex); reflexivity.
  - destruct He as [He|He].
    { apply same_image_eq in He. congruence. }
    simpl. rewrite Hs, He. exists [ReqEncodeImage imageId]. split; [now right|].
    destruct (segmentImage api (h ++ [ReqEncodeImage imageId]) imageId (p :: pts) ex);
      cbn; now rewrite <- app_assoc.
Qed.

(** When the image is not encoded and cannot be, [sam.segment] stops after
    the request that should encode it. *)
Lemma segment_unencoded (api : collaborator) (imageId : option Id)
    (pts : list point) (ex : option (list polygon_set))
    (s : SAM.state) (h : history) (e : jserror) :
  pts <> [] ->
  SAM.encodedImageRef s <> imageId ->
  encodeImage api h imageId = Err e ->
  sent (SAM.segment api imageId pts ex s h) = h ++ [ReqEncodeImage imageId].
Proof.
  intros Hp Hn He. unfold SAM.segment.
  destruct pts as [|p pts]; [congruence|]. cbn [List.length Nat.eqb].
  unfold SAM.encode. unfold_sam. unfold_async. simpl.
  destruct (SAM.same_image (SAM.encodedImageRef s) imageId) eqn:Hs.
  - apply same_image_eq in Hs. contradiction.
  - simpl. rewrite Hs, He. reflexivity.
Qed.



Section Exclusion.

Import Transfer.

Variable api : collaborator.
Variable currentImageId : option Id.
Variable existingAnnotations : option (list annotation).



End Exclusion.



(** ** The debounced segmentation request *)

Ltac unfold_app :=
  unfold App.handleAddPoint, App.segmentEffect, App.elapse, App.fire,
    App.swallow, App.setTimeout, App.clearTimeout, App.setPoints,
    App.setTimers, App.setNextTimerId, App.setDebounceTimer, App.setClock,
    App.on_sam, App.on_hooks, App.on_store, Transfer.on_sam in *.

Ltac unfold_app_state :=
  unfold App.setPoints, App.setTimers, App.setNextTimerId,
    App.setDebounceTimer, App.setClock, App.on_sam, App.on_hooks,
    App.on_store, Transfer.on_sam in *.

Lemma bind_assoc {S A B C} (m : async S A) (f : A -> async S B)
    (g : B -> async S C) (s : S) (h : history) :
  bind (bind m f) g s h = bind m (fun a => bind (f a) g) s h.
Proof.
  unfold bind. destruct (m s h) as [[a|e] s' h']; reflexivity.
Qed.

Section Debounce.

Import App.

Variable api : collaborator.

(** The timeouts the clean-up of the segment effect leaves pending. *)
Lemma tidy_cleared (s : state) :
  tidy s = true ->
  match debounceTimer s with
  | Some i => filter (fun t => negb (timerId t =? i)) (timers s)
  | None => timers s
  end = [].
Proof.
  unfold tidy. destruct (debounceTimer s) as [i|].
  - induction (timers s) as [|t l IH]; [reflexivity|].
    cbn. intros H. apply andb_true_iff in H as [Ht Hl].
    rewrite Ht. cbn. exact (IH Hl).
  - destruct (timers s); [reflexivity|discriminate].
Qed.

(** One run of the segment effect: the timeout of the run before is
    cleared; then, without a slice or without points, the preview is
    cleared, and otherwise a timeout is set for the points as they are. *)
Lemma segmentEffect_run (s : state) (h : history) :
  let kept :=
    match debounceTimer s with
    | Some i => filter (fun t => negb (timerId t =? i)) (timers s)
    | None => timers s
    end in
  segmentEffect s h
  = Ran (Returned tt)
      (if falsy (selectedImageId s) || (List.length (points s) =? 0) then
         {| selectedImageId := selectedImageId s; images := images s;
            points := points s; store := store s;
            hooks := {| Transfer.tr := Transfer.tr (hooks s);
                        Transfer.sam := cleared (Transfer.sam (hooks s)) |};
            clock := clock s; timers := kept; nextTimerId := nextTimerId s;
            debounceTimer := None |}
       else
         {| selectedImageId := selectedImageId s; images := images s;
            points := points s; store := store s; hooks := hooks s;
            clock := clock s;
            timers :=
              kept ++ [{| timerId := nextTimerId s;
                          due := clock s + DEBOUNCE;
                          t_imageId := selectedImageId s;
                          t_points := points s;
                          t_existingPolygons :=
                            Some (map segmentation
                                    (Annotations.annotations (store s))) |}];
            nextTimerId := S (nextTimerId s);
            debounceTimer := Some (nextTimerId s) |})
      h.
Proof.
  unfold segmentEffect, SAM.clearPreview, cleared.
  unfold_app. unfold_sam. unfold_async.
  destruct (debounceTimer s) as [i|]; cbn;
    destruct (falsy (selectedImageId s) || (List.length (points s) =? 0));
    reflexivity.
Qed.

(** A point added and less than the quiet window waited: the points grow by
    one, the timeout that was pending is cleared, a new one is pending from
    the time of the addition, and no request goes out. *)
Lemma add_restarts_timer (p : point) (d : nat) (s : state) (h : history) :
  falsy (selectedImageId s) = false ->
  tidy s = true ->
  d < DEBOUNCE ->
  (handleAddPoint p ;; elapse api d) s h
  = Ran (Returned tt)
      {| selectedImageId := selectedImageId s; images := images s;
         points := points s ++ [p]; store := store s; hooks := hooks s;
         clock := clock s + d;
         timers :=
           [{| timerId := nextTimerId s;
               due := clock s + DEBOUNCE;
               t_imageId := selectedImageId s;
               t_points := points s ++ [p];
               t_existingPolygons :=
                 Some (map segmentation
                         (Annotations.annotations (store s))) |}];
         nextTimerId := S (nextTimerId s);
         debounceTimer := Some (nextTimerId s) |}
      h.
Proof.
  intros Hf Ht Hd. unfold handleAddPoint.
  rewrite bind_assoc. unfold bind at 1. unfold setPoints, modify.
  unfold bind at 1. rewrite segmentEffect_run.
  cbn [selectedImageId points debounceTimer timers nextTimerId clock store
       hooks images].
  rewrite (tidy_cleared s Ht), Hf, length_app, Nat.add_1_r. cbn [orb Nat.eqb app].
  unfold elapse. unfold_app. unfold_async. cbn.
  replace (clock s + DEBOUNCE <=? clock s + d) with false
    by (symmetry; apply Nat.leb_gt; lia).
  reflexivity.
Qed.

(** A point added and a full quiet window waited: the timeout runs, and
    what it does is one call of [sam.segment] with the points as they
    are. *)
Lemma add_then_quiet (p : point) (d : nat) (s : state) (h : history) :
  falsy (selectedImageId s) = false ->
  tidy s = true ->
  DEBOUNCE <= d ->
  let call := SAM.segment api (selectedImageId s) (points s ++ [p])
                (Some (map segmentation (Annotations.annotations (store s))))
                (Transfer.sam (hooks s)) h in
  (handleAddPoint p ;; elapse api d) s h
  = Ran (Returned tt)
      {| selectedImageId := selectedImageId s; images := images s;
         points := points s ++ [p]; store := store s;
         hooks := {| Transfer.tr := Transfer.tr (hooks s);
                     Transfer.sam := st call |};
         clock := clock s + d;
         timers := [];
         nextTimerId := S (nextTimerId s);
         debounceTimer := Some (nextTimerId s) |}
      (sent call).
Proof.
  intros Hf Ht Hd call. subst call. unfold handleAddPoint.
  rewrite bind_assoc. unfold bind at 1. unfold setPoints, modify.
  unfold bind at 1. rewrite segmentEffect_run.
  cbn [selectedImageId points debounceTimer timers nextTimerId clock store
       hooks images].
  rewrite (tidy_cleared s Ht), Hf, length_app, Nat.add_1_r. cbn [orb Nat.eqb app].
  unfold elapse. unfold_app. unfold_async. cbn.
  replace (clock s + DEBOUNCE <=? clock s + d) with true
    by (symmetry; apply Nat.leb_le; lia).
  cbn. unfold_app. unfold_async. cbn.
  destruct (SAM.segment api (selectedImageId s) (points s ++ [p]) _ _ h)
    as [[v|e] s' h']; reflexivity.
Qed.

(** The callback of a timeout leaves the timeouts alone. *)
Lemma fireAll_keeps_timers (l : list timer) (s : state) (h : history) :
  timers (st (fireAll api l s h)) = timers s /\
  debounceTimer (st (fireAll api l s h)) = debounceTimer s.
Proof.
  revert s h. induction l as [|t rest IH]; intros s h; [split; reflexivity|].
  cbn [fireAll]. unfold bind.
  assert (Hfire : timers (st (fire api t s h)) = timers s /\
                  debounceTimer (st (fire api t s h)) = debounceTimer s).
  { unfold fire. unfold_app. unfold_async.
    destruct (SAM.segment api _ _ _ _ h) as [[v|e] s' h']; split; reflexivity. }
  destruct Hfire as [H1 H2].
  destruct (fire api t s h) as [[v|e] s1 h1]; cbn in H1, H2 |- *.
  - destruct (IH s1 h1) as [H3 H4]. split; congruence.
  - split; assumption.
Qed.

Lemma forallb_filter {A} (f g : A -> bool) (l : list A) :
  forallb f l = true -> forallb f (filter g l) = true.
Proof.
  induction l as [|a l IH]; [reflexivity|]. cbn. intros H.
  apply andb_true_iff in H as [Ha Hl].
  destruct (g a); cbn; [rewrite Ha|]; auto.
Qed.

(** No timeout but the one the segment effect holds is pending: this is so
    when nothing is pending, and the segment effect, a point addition and
    the passing of time keep it so. *)
Lemma tidy_kept (s : state) (h : history) (p : point) (d : nat) :
  tidy s = true ->
  tidy (st (segmentEffect s h)) = true /\
  tidy (st (handleAddPoint p s h)) = true /\
  tidy (st (elapse api d s h)) = true.
Proof.
  intros Ht.
  assert (He : forall s0, tidy s0 = true -> tidy (st (segmentEffect s0 h)) = true).
  { intros s0 H0. rewrite segmentEffect_run, (tidy_cleared s0 H0).
    destruct (falsy (selectedImageId s0) || _); unfold tidy; cbn;
      [reflexivity | now rewrite Nat.eqb_refl]. }
  split; [exact (He s Ht)|]. split.
  - unfold handleAddPoint. unfold bind at 1. unfold setPoints, modify.
    apply He. exact Ht.
  - unfold elapse. unfold_app. unfold_async.
    match goal with
    | |- context [fireAll api ?l ?x h] =>
      destruct (fireAll_keeps_timers l x h) as [H1 H2]
    end.
    unfold tidy. rewrite H1, H2. cbn [timers debounceTimer].
    apply forallb_filter. exact Ht.
Qed.

(** C8, as the code has it: with a slice selected, point additions that
    follow one another within the quiet window, the last one followed by a
    full quiet window, make one call of [sam.segment]: the requests sent
    and the state of the oracle hook are those of that one call, made with
    every point, those that were there before and those of the burst in
    the order they were added, and no timeout is left pending.  When the
    image is encoded already or can be encoded, this is exactly one
    [segmentImage] request, after the request that encodes the image if
    there is one; when it cannot be encoded, the request to encode it is
    the only one and no [segmentImage] request is sent.  An addition that
    is followed by less than the quiet window leaves one timeout pending,
    set anew at the time of the addition for the points as they then are,
    and sends nothing. *)
Theorem burst_issues_one_call (burst : list (point * nat)) (p : point)
    (d : nat) (s : state) (h : history) :
  falsy (selectedImageId s) = false ->
  tidy s = true ->
  Forall (fun a => snd a < DEBOUNCE) burst ->
  DEBOUNCE <= d ->
  let allPoints := points s ++ map fst burst ++ [p] in
  let existing := Some (map segmentation (Annotations.annotations (store s))) in
  let call := SAM.segment api (selectedImageId s) allPoints existing
                (Transfer.sam (hooks s)) h in
  let r := additions api (burst ++ [(p, d)]) s h in
  res r = Returned tt /\
  points (st r) = allPoints /\
  timers (st r) = [] /\
  sent r = sent call /\
  Transfer.sam (hooks (st r)) = st call /\
  (SAM.encodedImageRef (Transfer.sam (hooks s)) = selectedImageId s \/
   encodeImage api h (selectedImageId s) = Ok tt ->
   exists prep,
     (prep = [] \/ prep = [ReqEncodeImage (selectedImageId s)]) /\
     sent r
     = h ++ prep ++ [ReqSegmentImage (selectedImageId s) allPoints existing]) /\
  (SAM.encodedImageRef (Transfer.sam (hooks s)) <> selectedImageId s ->
   forall e, encodeImage api h (selectedImageId s) = Err e ->
   sent r = h ++ [ReqEncodeImage (selectedImageId s)]) /\
  (forall q g, g < DEBOUNCE ->
   let early := (handleAddPoint q ;; elapse api g) s h in
   sent early = h /\
   exists t,
     timers (st early) = [t] /\ due t = clock s + DEBOUNCE /\
     t_points t = points s ++ [q]).
Proof.
  intros Hf Ht Hb Hd allPoints existing call r.
  assert (Hrun : res r = Returned tt /\ points (st r) = allPoints /\
                 timers (st r) = [] /\ sent r = sent call /\
                 Transfer.sam (hooks (st r)) = st call).
  { subst r call allPoints existing.
    revert s Hf Ht. induction Hb as [|[q g] rest Hg Hrest IH]; intros s Hf Ht.
    - assert (Heq : additions api ([] ++ [(p, d)]) s h
                    = (handleAddPoint p ;; elapse api d) s h).
      { cbn [app additions]. rewrite <- bind_assoc. unfold bind at 1.
        destruct ((handleAddPoint p ;; elapse api d) s h) as [[[]|e] s' h'];
          reflexivity. }
      rewrite Heq, (add_then_quiet p d s h Hf Ht Hd). cbn.
      repeat split.
    - cbn in Hg.
      assert (Heq : additions api (((q, g) :: rest) ++ [(p, d)]) s h
                    = bind (handleAddPoint q ;; elapse api g)
                        (fun _ => additions api (rest ++ [(p, d)])) s h).
      { cbn [app additions]. now rewrite <- bind_assoc. }
      rewrite Heq. unfold bind at 1 3 5 7 9.
      rewrite (add_restarts_timer q g s h Hf Ht Hg).
      match goal with |- context [additions api _ ?s2 h] =>
        specialize (IH s2 Hf)
      end.
      cbn [selectedImageId points store hooks map fst] in IH |- *.
      rewrite <- !app_assoc in IH. apply IH.
      unfold tidy. cbn. now rewrite Nat.eqb_refl. }
  destruct Hrun as (H1 & H2 & H3 & H4 & H5).
  assert (Hne : allPoints <> []).
  { subst allPoints. destruct (points s); [destruct (map fst burst)|];
      discriminate. }
  split; [exact H1|]. split; [exact H2|]. split; [exact H3|].
  split; [exact H4|]. split; [exact H5|]. split; [|split].
  - intros He. rewrite H4.
    exact (segment_sent api (selectedImageId s) allPoints existing _ h Hne He).
  - intros Hn e He. rewrite H4.
    exact (segment_unencoded api (selectedImageId s) allPoints existing _ h e
             Hne Hn He).
  - intros q g Hg early. subst early.
    rewrite (add_restarts_timer q g s h Hf Ht Hg). cbn.
    split; [reflexivity|]. eexists. repeat split.
Qed.

End Debounce.

(** Five clicks, 30 ms apart, then quiet. *)
Lemma burst_issues_one_call_witness :
  let s := Examples.desk Examples.idle in
  let burst := [(Examples.click 1, 30); (Examples.click 2, 30);
                (Examples.click 3, 30); (Examples.click 4, 30)] in
  let r := App.additions Examples.steady (burst ++ [(Examples.click 5, 100)]) s [] in
  App.timers (st r) = [] /\
  exists prep,
    (prep = [] \/ prep = [ReqEncodeImage (Some "slice_0002")]) /\
    sent r
    = [] ++ prep
        ++ [ReqSegmentImage (Some "slice_0002")
              ([] ++ map fst burst ++ [Examples.click 5])
              (Some (map segmentation [Examples.cellA; Examples.cellB]))].
Proof.
  destruct (burst_issues_one_call Examples.steady
              [(Examples.click 1, 30); (Examples.click 2, 30);
               (Examples.click 3, 30); (Examples.click 4, 30)]
              (Examples.click 5) 100 (Examples.desk Examples.idle) [])
    as (_ & _ & H3 & _ & _ & H6 & _).
  - reflexivity.
  - reflexivity.
  - repeat constructor; cbn; unfold App.DEBOUNCE; lia.
  - unfold App.DEBOUNCE; lia.
  - split; [exact H3|]. apply H6. right. reflexivity.
Defined.

(** C8 as stated fails: when the image cannot be encoded, the five clicks
    end in the one request to encode it, and no [segmentImage] request is
    sent. *)
Lemma burst_without_encoding :
  let s := Examples.desk Examples.idle in
  let burst := [(Examples.click 1, 30); (Examples.click 2, 30);
                (Examples.click 3, 30); (Examples.click 4, 30);
                (Examples.click 5, 100)] in
  let r := App.additions Examples.encoderDown burst s [] in
  App.points (st r) = map fst burst /\
  sent r = [ReqEncodeImage (Some "slice_0002")] /\
  filter isSegmentImage (sent r) = [].
Proof.
  vm_compute. repeat split.
Qed.

(** ** The batch commit of a transfer *)

Section Commit.

Import App.

Variable api : collaborator.

Lemma saveEach_without_image (l : list Transfer.confirmed) (s : state)
    (h : history) :
  falsy (selectedImageId s) = true ->
  res (saveEach api l s h) = Returned tt.
Proof.
  intros Hf. revert s h Hf.
  induction l as [|c rest IH]; intros s h Hf; [reflexivity|].
  cbn [saveEach]. unfold saveAnnotation, Annotations.saveAnnotation.
  unfold_app. unfold_async. rewrite Hf. apply IH. exact Hf.
Qed.

(** One round of the loop with a slice selected: the call of
    [saveAnnotation] and, when it succeeds, the segment effect. *)
Lemma save_step (c : Transfer.confirmed) (s : state) (h : history) :
  falsy (selectedImageId s) = false ->
  let r := (saved <- saveAnnotation api (polygon (Transfer.fields c))
                       (pv_bbox (Transfer.fields c))
                       (pv_area (Transfer.fields c))
                       (Transfer.classId c) (Transfer.className c) ;;
            match saved with
            | Some _ => segmentEffect
            | None => ret tt
            end) s h in
  sent r = h ++ [commit_request (selectedImageId s) c] /\
  same_session (st r) s /\
  ((exists a, res r = Returned tt /\
              Annotations.annotations (store (st r))
              = Annotations.annotations (store s) ++ [a] /\
              Transfer.sam (hooks (st r)) = after_saves 1 s) \/
   (exists e, res r = Threw e /\
              Annotations.annotations (store (st r))
              = Annotations.annotations (store s) /\
              hooks (st r) = hooks s)).
Proof.
  intros Hf r. subst r.
  unfold bind at 1.
  unfold saveAnnotation, Annotations.saveAnnotation, on_store, same_session,
    commit_request, after_saves.
  unfold_annotations. unfold_async. rewrite Hf.
  destruct (createAnnotation api h (selectedImageId s) _) as [a|e];
    cbn -[segmentEffect].
  - rewrite segmentEffect_run.
    cbn [selectedImageId points store hooks debounceTimer timers].
    rewrite Hf. cbn [orb].
    destruct (List.length (points s) =? 0); cbn;
      (split; [reflexivity|]; split; [repeat split|]; left; exists a;
       repeat split).
  - split; [reflexivity|]. split; [repeat split|]. right. exists e.
    repeat split.
Qed.

Lemma after_saves_again (n : nat) (s s1 : state) :
  points s1 = points s ->
  Transfer.sam (hooks s1) = after_saves 1 s ->
  after_saves n s1 = match n with 0 => after_saves 1 s | S _ => after_saves 1 s end.
Proof.
  intros Hp Hs. unfold after_saves. rewrite Hp, Hs. unfold after_saves.
  destruct n; [reflexivity|].
  destruct (List.length (points s) =? 0); reflexivity.
Qed.

(** The loop of the commit: it sends the requests of the first [k] entries
    and stops at the first one that fails; the annotations created before
    that are in the store, the transfer is as it was, and the preview is
    cleared once an annotation has been created. *)
Lemma saveEach_run (l : list Transfer.confirmed) (s : state) (h : history) :
  falsy (selectedImageId s) = false ->
  let r := saveEach api l s h in
  same_session (st r) s /\
  exists k created,
    sent r = h ++ map (commit_request (selectedImageId s)) (firstn k l) /\
    Annotations.annotations (store (st r))
    = Annotations.annotations (store s) ++ created /\
    Transfer.sam (hooks (st r)) = after_saves (List.length created) s /\
    ((res r = Returned tt /\ k = List.length l /\ List.length created = k) \/
     (exists e, res r = Threw e /\ 1 <= k <= List.length l /\
                List.length created = k - 1)).
Proof.
  revert s h. induction l as [|c rest IH]; intros s h Hf r; subst r.
  - cbn. split; [repeat split|]. exists 0, [].
    rewrite !app_nil_r. repeat split. left. repeat split.
  - cbn [saveEach]. rewrite <- bind_assoc.
    destruct (save_step c s h Hf) as (Hsent & (Hsel & Hpts & Htr) & Hres).
    match type of Hsent with
    | sent (?m s h) = _ => set (round := m) in *
    end.
    unfold bind.
    destruct (round s h) as [[v|e] s1 h1];
      cbn in Hsent, Hsel, Hpts, Htr, Hres |- *; subst h1.
    + destruct Hres as [(a & Ha & Hanns & Hsam)|(e & He & _)]; [|discriminate].
      assert (Hf1 : falsy (selectedImageId s1) = false) by now rewrite Hsel.
      destruct (IH s1 (h ++ [commit_request (selectedImageId s) c]) Hf1)
        as ((Hsel' & Hpts' & Htr') & k & created & Hs & Hc & Hm & Hk).
      split; [repeat split; congruence|].
      exists (S k), (a :: created). cbn [firstn map].
      rewrite Hs, Hc, Hanns, Hsel, <- !app_assoc. cbn [app].
      split; [reflexivity|]. split; [reflexivity|]. split.
      * rewrite Hm, (after_saves_again _ s s1 Hpts Hsam).
        cbn [List.length]. destruct (List.length created); reflexivity.
      * destruct Hk as [(H1 & H2 & H3)|(e & H1 & H2 & H3)].
        -- left. cbn [List.length]. repeat split; auto; lia.
        -- right. exists e. cbn [List.length]. repeat split; auto; lia.
    + destruct Hres as [(a & Ha & _)|(e' & He & Hanns & Hhooks)];
        [discriminate|].
      split; [repeat split; assumption|].
      exists 1, []. cbn [firstn map]. rewrite Hanns, app_nil_r.
      split; [reflexivity|]. split; [reflexivity|]. split.
      * cbn. now rewrite Hhooks.
      * right. exists e. cbn [List.length]. repeat split; auto; lia.
Qed.

(** C9: when a create of the batch fails, [handleSaveAllTransfers] ends
    without an error and without calling [cancelTransfer]: the state of
    the transfer is untouched, so the workflow is as active as before and
    every confirmed preview is still listed, while the annotations created
    before the failure are in the store.  The preview on screen is kept
    when the first create fails; once an annotation has been created, the
    render that shows it has run the segment effect, which clears the
    preview when no point is clicked.  A second run starts from the first
    preview again and adds its annotations after those of the first run. *)
Theorem failed_commit_keeps_previews (s : state) (h : history) (e : jserror) :
  let confirmed := Transfer.confirmedPreviews (Transfer.tr (hooks s)) in
  let commit := map (commit_request (selectedImageId s)) in
  res (saveEach api confirmed s h) = Threw e ->
  let r := handleSaveAllTransfers api s h in
  res r = Returned tt /\
  Transfer.tr (hooks (st r)) = Transfer.tr (hooks s) /\
  exists k created,
    k < List.length confirmed /\
    List.length created = k /\
    Annotations.annotations (store (st r))
    = Annotations.annotations (store s) ++ created /\
    sent r = h ++ commit (firstn (S k) confirmed) /\
    (k = 0 -> Transfer.sam (hooks (st r)) = Transfer.sam (hooks s)) /\
    (0 < k -> points s = [] ->
     Transfer.sam (hooks (st r)) = cleared (Transfer.sam (hooks s))) /\
    let retry := handleSaveAllTransfers api (st r) (sent r) in
    exists m again,
      1 <= m <= List.length confirmed /\
      sent retry = sent r ++ commit (firstn m confirmed) /\
      Annotations.annotations (store (st retry))
      = Annotations.annotations (store s) ++ created ++ again /\
      (res (saveEach api confirmed (st r) (sent r)) = Returned tt ->
       m = List.length confirmed /\
       List.length again = List.length confirmed /\
       Transfer.isActive (Transfer.tr (hooks (st retry))) = false).
Proof.
  intros confirmed commit Hfail r.
  assert (Hf : falsy (selectedImageId s) = false).
  { destruct (falsy (selectedImageId s)) eqn:Hf; [|reflexivity].
    rewrite (saveEach_without_image confirmed s h Hf) in Hfail. discriminate. }
  assert (Hne : (List.length confirmed =? 0) = false).
  { destruct confirmed; [cbn in Hfail; discriminate|reflexivity]. }
  destruct (saveEach_run confirmed s h Hf)
    as ((Hsel & Hpts & Htr) & k & created & Hsent & Hanns & Hsam & Hk).
  destruct Hk as [(H1 & _)|(e1 & He1 & Hk1 & Hlen)]; [congruence|].
  assert (Hr : res r = Returned tt /\ st r = st (saveEach api confirmed s h)
               /\ sent r = sent (saveEach api confirmed s h)).
  { subst r. unfold handleSaveAllTransfers. unfold_async.
    fold confirmed. rewrite Hne.
    destruct (saveEach api confirmed s h) as [[v|e'] s' h'];
      [discriminate|]. repeat split. }
  destruct Hr as (Hr1 & Hr2 & Hr3). clearbody r.
  split; [exact Hr1|]. split; [now rewrite Hr2|].
  exists (k - 1), created.
  replace (S (k - 1)) with k by lia.
  split; [lia|]. split; [exact Hlen|].
  split; [now rewrite Hr2|]. split; [now rewrite Hr3|].
  assert (Hsam' : Transfer.sam (hooks (st r)) = after_saves (k - 1) s)
    by now rewrite Hr2, Hsam, Hlen.
  unfold after_saves in Hsam'.
  split; [intros H0; now rewrite Hsam', H0|].
  split.
  { intros Hpos Hnil. rewrite Hsam'. destruct (k - 1); [lia|].
    now rewrite Hnil. }
  intros retry.
  assert (Hf2 : falsy (selectedImageId (st r)) = false)
    by now rewrite Hr2, Hsel.
  assert (Hc2 : Transfer.confirmedPreviews (Transfer.tr (hooks (st r)))
                = confirmed) by now rewrite Hr2, Htr.
  destruct (saveEach_run confirmed (st r) (sent r) Hf2)
    as ((Hsel2 & Hpts2 & Htr2) & m & again & Hsent2 & Hanns2 & _ & Hm).
  assert (Hsame : selectedImageId (st r) = selectedImageId s)
    by now rewrite Hr2.
  assert (Hstore : Annotations.annotations (store (st r))
                   = Annotations.annotations (store s) ++ created)
    by now rewrite Hr2.
  exists m, again.
  subst retry. unfold handleSaveAllTransfers. unfold_async.
  rewrite Hc2, Hne.
  destruct (saveEach api confirmed (st r) (sent r)) as [[v|e'] s2 h2];
    cbn in Hsel2, Hpts2, Htr2, Hsent2, Hanns2, Hm |- *.
  - destruct Hm as [(_ & Hm1 & Hm2)|(e2 & He2 & _)]; [|discriminate].
    unfold Transfer.cancelTransfer. unfold_app. unfold_transfer. unfold_sam.
    unfold_async. cbn.
    rewrite Hanns2, Hstore, Hsent2, Hsame, <- app_assoc.
    assert (0 < List.length confirmed)
      by (destruct confirmed; [discriminate|cbn; lia]).
    repeat split; auto; lia.
  - destruct Hm as [(Hm0 & _)|(e2 & _ & Hm1 & Hm2)]; [discriminate|].
    rewrite Hanns2, Hstore, Hsent2, Hsame, <- app_assoc.
    repeat split; auto; try lia; discriminate.
Qed.

End Commit.

(** Two previews confirmed, the third on screen, and a backend that fails
    at the second create: the transfer is as it was and the preview on
    screen is gone. *)
Lemma failed_commit_keeps_previews_witness :
  let s := Examples.desk Examples.thirdStep in
  let r := App.handleSaveAllTransfers (Examples.failing_after 1) s [] in
  res (App.saveEach (Examples.failing_after 1)
         (Transfer.confirmedPreviews (Transfer.tr (App.hooks s))) s [])
  = Threw Examples.down /\
  res r = Returned tt /\
  Transfer.tr (App.hooks (st r)) = Transfer.tr Examples.thirdStep /\
  SAM.preview (Transfer.sam (App.hooks s)) = Some Examples.shown /\
  SAM.preview (Transfer.sam (App.hooks (st r))) = None.
Proof.
  split; [reflexivity|].
  destruct (failed_commit_keeps_previews (Examples.failing_after 1)
              (Examples.desk Examples.thirdStep) [] Examples.down eq_refl)
    as (H1 & H2 & k & created & _ & Hlen & Hanns & _ & _ & Hpos & _).
  split; [exact H1|]. split; [exact H2|]. split; [reflexivity|].
  vm_compute in Hanns. inversion Hanns; subst created. cbn in Hlen. subst k.
  rewrite (Hpos ltac:(lia) eq_refl). reflexivity.
Defined.

(** The same run, computed: the first preview is saved, the second is not,
    both are still listed in an active transfer, and the preview that was
    on screen is cleared. *)
Example failed_commit_run :
  let s := Examples.desk Examples.thirdStep in
  let r := App.handleSaveAllTransfers (Examples.failing_after 1) s [] in
  Annotations.annotations (App.store (st r))
  = [Examples.cellA; Examples.cellB; Examples.cellA] /\
  Transfer.isActive (Transfer.tr (App.hooks (st r))) = true /\
  Transfer.confirmedPreviews (Transfer.tr (App.hooks (st r)))
  = [Examples.confirmedA; Examples.confirmedB] /\
  SAM.preview (Transfer.sam (App.hooks s)) = Some Examples.shown /\
  SAM.preview (Transfer.sam (App.hooks (st r))) = None /\
  sent r
  = [commit_request (Some "slice_0002") Examples.confirmedA;
     commit_request (Some "slice_0002") Examples.confirmedB].
Proof.
  cbn. repeat split.
Qed.

(** * Further properties of the hooks *)

(** ** Undo and redo *)

Section UndoRedo.

Import Annotations.

Variable api : collaborator.
Variable imageId : option Id.

(** Re-creating annotations sends requests and touches no state. *)
Lemma recreate_all_state (anns : list annotation) (s : state) (h : history) :
  st (recreate_all api imageId anns s h) = s.
Proof.
  revert h. induction anns as [|a rest IH]; intros h; [reflexivity|].
  cbn [recreate_all]. unfold_async.
  destruct (createAnnotation api h imageId (fields_of a)); [|reflexivity].
  specialize (IH (h ++ [ReqCreateAnnotation imageId (fields_of a)])).
  destruct (recreate_all api imageId rest s _) as [[v|e] s' h']; cbn in IH |- *;
    exact IH.
Qed.

Lemma recreate_all_any_state (anns : list annotation) (s1 s2 : state)
    (h : history) :
  res (recreate_all api imageId anns s1 h) = res (recreate_all api imageId anns s2 h) /\
  sent (recreate_all api imageId anns s1 h) = sent (recreate_all api imageId anns s2 h).
Proof.
  revert h. induction anns as [|a rest IH]; intros h; [split; reflexivity|].
  cbn [recreate_all]. unfold_async.
  destruct (createAnnotation api h imageId (fields_of a)); [|split; reflexivity].
  specialize (IH (h ++ [ReqCreateAnnotation imageId (fields_of a)])).
  destruct (recreate_all api imageId rest s1 _) as [[v1|e1] s1' h1'],
           (recreate_all api imageId rest s2 _) as [[v2|e2] s2' h2'];
    cbn in IH |- *; destruct IH as [IH1 IH2]; inversion IH1; subst; split; reflexivity.
Qed.

(** What the collaborator calls of one undo or redo step give does not
    depend on the state of the store. *)
Lemma undo_action_any_state (act : action) (s1 s2 : state) (h : history) :
  res (undo_action api imageId act s1 h) = res (undo_action api imageId act s2 h) /\
  sent (undo_action api imageId act s1 h) = sent (undo_action api imageId act s2 h).
Proof.
  destruct act as [a|a|old new|merged new]; cbn [undo_action];
    unfold_annotations; unfold_async.
  - destruct (deleteAnnotationApi api h (id a)); split; reflexivity.
  - destruct (createAnnotation api h imageId (fields_of a)); split; reflexivity.
  - destruct (updateAnnotationApi api h (id new) (class_of old)); split; reflexivity.
  - destruct (deleteAnnotationApi api h (id new)); [|split; reflexivity].
    pose proof (recreate_all_any_state merged s1 s2
                  (h ++ [ReqDeleteAnnotation (id new)])) as [H1 H2].
    destruct (recreate_all api imageId merged s1 _) as [[v1|e1] s1' h1'],
             (recreate_all api imageId merged s2 _) as [[v2|e2] s2' h2'];
      cbn in H1, H2 |- *; inversion H1; subst; split; reflexivity.
Qed.

Lemma redo_action_any_state (act : action) (s1 s2 : state) (h : history) :
  res (redo_action api imageId act s1 h) = res (redo_action api imageId act s2 h) /\
  sent (redo_action api imageId act s1 h) = sent (redo_action api imageId act s2 h).
Proof.
  destruct act as [a|a|old new|merged new]; cbn [redo_action];
    unfold_annotations; unfold_async.
  - destruct (createAnnotation api h imageId (fields_of a)); split; reflexivity.
  - destruct (deleteAnnotationApi api h (id a)); split; reflexivity.
  - destruct (updateAnnotationApi api h (id old) (class_of new)); split; reflexivity.
  - destruct (mergeAnnotationsApi api h _ _ _); split; reflexivity.
Qed.

(** A step that throws has not touched the store. *)
Lemma undo_action_throw_state (act : action) (s : state) (h : history)
    (e : jserror) :
  res (undo_action api imageId act s h) = Threw e ->
  st (undo_action api imageId act s h) = s.
Proof.
  destruct act as [a|a|old new|merged new]; cbn [undo_action];
    unfold_annotations; unfold_async.
  - destruct (deleteAnnotationApi api h (id a)); [discriminate|reflexivity].
  - destruct (createAnnotation api h imageId (fields_of a)); [discriminate|reflexivity].
  - destruct (updateAnnotationApi api h (id new) (class_of old));
      [discriminate|reflexivity].
  - destruct (deleteAnnotationApi api h (id new)); [|reflexivity].
    pose proof (recreate_all_state merged s (h ++ [ReqDeleteAnnotation (id new)])) as Hs.
    destruct (recreate_all api imageId merged s _) as [[v|e'] s' h'];
      cbn in Hs |- *; [discriminate|]. intros _. exact Hs.
Qed.

Lemma redo_action_throw_state (act : action) (s : state) (h : history)
    (e : jserror) :
  res (redo_action api imageId act s h) = Threw e ->
  st (redo_action api imageId act s h) = s.
Proof.
  destruct act as [a|a|old new|merged new]; cbn [redo_action];
    unfold_annotations; unfold_async.
  - destruct (createAnnotation api h imageId (fields_of a)); [discriminate|reflexivity].
  - destruct (deleteAnnotationApi api h (id a)); [discriminate|reflexivity].
  - destruct (updateAnnotationApi api h (id old) (class_of new));
      [discriminate|reflexivity].
  - destruct (mergeAnnotationsApi api h _ _ _); [discriminate|reflexivity].
Qed.

(** A step never changes the stacks, the error or the loading flag. *)
Lemma undo_action_stacks (act : action) (s : state) (h : history) :
  undoStack (st (undo_action api imageId act s h)) = undoStack s /\
  redoStack (st (undo_action api imageId act s h)) = redoStack s /\
  error (st (undo_action api imageId act s h)) = error s.
Proof.
  destruct act as [a|a|old new|merged new]; cbn [undo_action];
    unfold_annotations; unfold_async.
  - destruct (deleteAnnotationApi api h (id a)); repeat split.
  - destruct (createAnnotation api h imageId (fields_of a)); repeat split.
  - destruct (updateAnnotationApi api h (id new) (class_of old)); repeat split.
  - destruct (deleteAnnotationApi api h (id new)); [|repeat split].
    pose proof (recreate_all_state merged s (h ++ [ReqDeleteAnnotation (id new)])) as Hs.
    destruct (recreate_all api imageId merged s _) as [[v|e'] s' h'];
      cbn in Hs |- *; subst s'; repeat split.
Qed.

Lemma redo_action_stacks (act : action) (s : state) (h : history) :
  undoStack (st (redo_action api imageId act s h)) = undoStack s /\
  redoStack (st (redo_action api imageId act s h)) = redoStack s /\
  error (st (redo_action api imageId act s h)) = error s.
Proof.
  destruct act as [a|a|old new|merged new]; cbn [redo_action];
    unfold_annotations; unfold_async.
  - destruct (createAnnotation api h imageId (fields_of a)); repeat split.
  - destruct (deleteAnnotationApi api h (id a)); repeat split.
  - destruct (updateAnnotationApi api h (id old) (class_of new)); repeat split.
  - destruct (mergeAnnotationsApi api h _ _ _); repeat split.
Qed.

(** X1: when a collaborator call of an undo fails, nothing is thrown, the
    error is set, the list of annotations is as before, and the record that
    was taken off the undo stack is on neither stack.  The same holds for a
    failing redo and the redo stack. *)
Theorem failed_step_loses_record (s : state) (h : history)
    (below : list action) (act : action) (e : jserror) :
  (undoStack s = below ++ [act] ->
   res (undo_action api imageId act s h) = Threw e ->
   let r := undo api imageId s h in
   res r = Returned tt /\
   undoStack (st r) = below /\
   redoStack (st r) = redoStack s /\
   annotations (st r) = annotations s /\
   error (st r) = Some (or_default (message e) "Failed to undo")) /\
  (redoStack s = below ++ [act] ->
   res (redo_action api imageId act s h) = Threw e ->
   let r := redo api imageId s h in
   res r = Returned tt /\
   redoStack (st r) = below /\
   undoStack (st r) = undoStack s /\
   annotations (st r) = annotations s /\
   error (st r) = Some (or_default (message e) "Failed to redo")).
Proof.
  split; intros Hs Hres r; subst r.
  - destruct (undo_action_any_state act s (popped_undo s) h) as [Hany _].
    rewrite Hres in Hany. symmetry in Hany.
    pose proof (undo_action_throw_state act (popped_undo s) h e Hany) as Hst.
    unfold undo. unfold_async. rewrite Hs, rev_app_distr. cbn [rev app].
    unfold setUndoStack, setError. unfold_async. fold (popped_undo s).
    destruct (undo_action api imageId act (popped_undo s) h) as [[v|e'] s' h'];
      cbn in Hany, Hst |- *; [discriminate|].
    inversion Hany; subst. cbn. rewrite Hs, removelast_last. repeat split.
  - destruct (redo_action_any_state act s (popped_redo s) h) as [Hany _].
    rewrite Hres in Hany. symmetry in Hany.
    pose proof (redo_action_throw_state act (popped_redo s) h e Hany) as Hst.
    unfold redo. unfold_async. rewrite Hs, rev_app_distr. cbn [rev app].
    unfold setRedoStack, setError. unfold_async. fold (popped_redo s).
    destruct (redo_action api imageId act (popped_redo s) h) as [[v|e'] s' h'];
      cbn in Hany, Hst |- *; [discriminate|].
    inversion Hany; subst. cbn. rewrite Hs, removelast_last. repeat split.
Qed.

(** X2: an undo whose collaborator calls succeed takes the record off the
    undo stack and puts the record the step gives back on top of the redo
    stack; the records below and the error are untouched.  A successful
    redo does the same in the other direction. *)
Theorem step_moves_record (s : state) (h : history)
    (below : list action) (act act' : action) :
  (undoStack s = below ++ [act] ->
   res (undo_action api imageId act s h) = Returned act' ->
   let r := undo api imageId s h in
   res r = Returned tt /\
   undoStack (st r) = below /\
   redoStack (st r) = redoStack s ++ [act'] /\
   error (st r) = error s /\
   sent r = sent (undo_action api imageId act s h)) /\
  (redoStack s = below ++ [act] ->
   res (redo_action api imageId act s h) = Returned act' ->
   let r := redo api imageId s h in
   res r = Returned tt /\
   redoStack (st r) = below /\
   undoStack (st r) = undoStack s ++ [act'] /\
   error (st r) = error s /\
   sent r = sent (redo_action api imageId act s h)).
Proof.
  split; intros Hs Hres r; subst r.
  - destruct (undo_action_any_state act s (popped_undo s) h) as [Hany Hsent].
    rewrite Hres in Hany. rewrite Hsent. symmetry in Hany.
    pose proof (undo_action_stacks act (popped_undo s) h) as (Hu & Hr & He).
    unfold undo. unfold_async. rewrite Hs, rev_app_distr. cbn [rev app].
    unfold setUndoStack, setRedoStack, setError. unfold_async.
    fold (popped_undo s).
    destruct (undo_action api imageId act (popped_undo s) h) as [[v|e'] s' h'];
      cbn in Hany, Hu, Hr, He |- *; [|discriminate].
    inversion Hany; subst. rewrite Hu, Hr, He, Hs, removelast_last.
    repeat split.
  - destruct (redo_action_any_state act s (popped_redo s) h) as [Hany Hsent].
    rewrite Hres in Hany. rewrite Hsent. symmetry in Hany.
    pose proof (redo_action_stacks act (popped_redo s) h) as (Hu & Hr & He).
    unfold redo. unfold_async. rewrite Hs, rev_app_distr. cbn [rev app].
    unfold setUndoStack, setRedoStack, setError. unfold_async.
    fold (popped_redo s).
    destruct (redo_action api imageId act (popped_redo s) h) as [[v|e'] s' h'];
      cbn in Hany, Hu, Hr, He |- *; [|discriminate].
    inversion Hany; subst. rewrite Hu, Hr, He, Hs, removelast_last.
    repeat split.
Qed.

(** X3: with nothing to undo, [undo] sends no request and leaves the store
    as it is, and so does [redo] with nothing to redo. *)
Theorem nothing_to_step (s : state) (h : history) :
  (canUndo s = false -> undo api imageId s h = Ran (Returned tt) s h) /\
  (canRedo s = false -> redo api imageId s h = Ran (Returned tt) s h).
Proof.
  unfold canUndo, canRedo, undo, redo. unfold_async.
  split; intros H; apply negb_false_iff, Nat.eqb_eq, length_zero_iff_nil in H;
    rewrite H; reflexivity.
Qed.

End UndoRedo.

(** ** Round trips through the action log *)

Section RoundTrips.

Import Annotations.

Variable api : collaborator.
Variable imageId : option Id.

Lemma filter_fresh (i : Id) (l : list annotation) :
  forallb (fun a => negb (has_id i a)) l = true ->
  filter (fun a => negb (has_id i a)) l = l.
Proof.
  induction l as [|a l IH]; cbn; [reflexivity|].
  intros H. apply andb_true_iff in H as [Ha Hl]. rewrite Ha, (IH Hl). reflexivity.
Qed.

Lemma has_own_id (a : annotation) : has_id (id a) a = true.
Proof. apply String.eqb_refl. Qed.

(** X4: creating an annotation and undoing it gives back the list of
    annotations and the undo stack there were, when the id the backend
    gave is not the id of an annotation in the list; the record waits on
    the redo stack, which held nothing else after the create. *)
Theorem create_then_undo (seg : option polygon_set) (box : list Z)
    (ar classId : Z) (className : string) (s : state) (h : history)
    (a : annotation) :
  let data :=
    {| p_class_id := Some classId; p_class_name := Some className;
       p_segmentation := seg; p_bbox := Some box; p_area := Some ar |} in
  falsy imageId = false ->
  createAnnotation api h imageId data = Ok a ->
  forallb (fun x => negb (has_id (id a) x)) (annotations s) = true ->
  deleteAnnotationApi api (h ++ [ReqCreateAnnotation imageId data]) (id a) = Ok tt ->
  let r := (saveAnnotation api imageId seg box ar classId className ;;
            undo api imageId) s h in
  res r = Returned tt /\
  annotations (st r) = annotations s /\
  undoStack (st r) = undoStack s /\
  redoStack (st r) = [ACreate a] /\
  sent r = h ++ [ReqCreateAnnotation imageId data; ReqDeleteAnnotation (id a)].
Proof.
  intros data Hf Hc Hfresh Hd r. subst r.
  unfold saveAnnotation, undo. rewrite Hf.
  unfold_annotations. unfold_async. fold data. rewrite Hc. cbn.
  rewrite rev_app_distr. cbn [rev app].
  unfold undo_action. unfold_annotations. unfold_async. rewrite Hd. cbn.
  rewrite removelast_last, filter_app, (filter_fresh _ _ Hfresh). cbn.
  rewrite has_own_id. cbn. rewrite app_nil_r, <- app_assoc. repeat split.
Qed.

(** X5: after a delete is undone the record on the redo stack holds the
    annotation as it was created again, so a redo deletes the new id and
    not the id that no longer exists. *)
Theorem redo_deletes_recreated (annotationId : Id) (s : state) (h : history)
    (a b : annotation) :
  let h1 := h ++ [ReqDeleteAnnotation annotationId] in
  let h2 := h1 ++ [ReqCreateAnnotation imageId (fields_of a)] in
  find (has_id annotationId) (annotations s) = Some a ->
  deleteAnnotationApi api h annotationId = Ok tt ->
  createAnnotation api h1 imageId (fields_of a) = Ok b ->
  deleteAnnotationApi api h2 (id b) = Ok tt ->
  let undone := (deleteAnnotation api annotationId ;; undo api imageId) s h in
  let r := redo api imageId (st undone) (sent undone) in
  redoStack (st undone) = [ADelete b] /\
  annotations (st undone)
  = filter (fun x => negb (has_id annotationId x)) (annotations s) ++ [b] /\
  sent r = h2 ++ [ReqDeleteAnnotation (id b)] /\
  undoStack (st r) = undoStack s ++ [ADelete b] /\
  redoStack (st r) = [] /\
  forallb (fun x => negb (has_id (id b) x)) (annotations (st r)) = true.
Proof.
  intros h1 h2 Hfind Hd Hc Hd2 undone r. subst r undone h2 h1.
  unfold deleteAnnotation, undo. unfold_annotations. unfold_async.
  rewrite Hfind, Hd. cbn. rewrite rev_app_distr. cbn [rev app].
  unfold undo_action. unfold_annotations. unfold_async. rewrite Hc. cbn.
  rewrite removelast_last.
  unfold redo. unfold_annotations. unfold_async. cbn.
  rewrite Hd2. cbn. repeat split.
  apply forallb_forall. intros x Hx. apply filter_In in Hx as [_ Hx]. exact Hx.
Qed.

End RoundTrips.

(** ** Loading and merging *)

Section LoadAndMerge.

Import Annotations.

Variable api : collaborator.
Variable imageId : option Id.

(** X6: loading the annotations of a slice sends one request, never throws
    and always ends with the loading flag down.  When the request fails
    the error is set and the annotations of the slice before stay in the
    list; when it succeeds the list is the answer and the error is
    cleared. *)
Theorem load_outcomes (s : state) (h : history) :
  falsy imageId = false ->
  let r := loadAnnotations api imageId s h in
  res r = Returned tt /\
  isLoading (st r) = false /\
  sent r = h ++ [ReqFetchAnnotations imageId] /\
  (forall e, fetchAnnotations api h imageId = Err e ->
     annotations (st r) = annotations s /\
     error (st r) = Some (or_default (message e) "Failed to load annotations")) /\
  (forall data, fetchAnnotations api h imageId = Ok data ->
     annotations (st r) = data /\ error (st r) = None).
Proof.
  intros Hf r. subst r. unfold loadAnnotations. rewrite Hf.
  unfold_annotations. unfold_async.
  destruct (fetchAnnotations api h imageId) as [data|e]; cbn;
    (split; [reflexivity|]); (split; [reflexivity|]); (split; [reflexivity|]);
    split; intros x Hx; inversion Hx; subst; split; reflexivity.
Qed.

Lemma filter_split_length {A} (f : A -> bool) (l : list A) :
  List.length (filter f l) + List.length (filter (fun a => negb (f a)) l)
  = List.length l.
Proof.
  induction l as [|a l IH]; cbn; [reflexivity|].
  destruct (f a); cbn; lia.
Qed.

(** X7: a successful merge takes every annotation with one of the given
    ids out of the list and puts the merged annotation at its end; the
    record on the undo stack holds exactly the annotations taken out, so
    the list grows shorter by their number less one. *)
Theorem merge_swaps_sources (annotationIds : list Id) (classId : Z)
    (className : string) (s : state) (h : history) (merged : annotation) :
  falsy imageId = false ->
  2 <= List.length annotationIds ->
  mergeAnnotationsApi api h annotationIds classId className = Ok merged ->
  let r := mergeAnnotations api imageId annotationIds classId className s h in
  let taken := filter (includes annotationIds) (annotations s) in
  let kept := filter (fun a => negb (includes annotationIds a)) (annotations s) in
  res r = Returned (Some merged) /\
  annotations (st r) = kept ++ [merged] /\
  undoStack (st r) = undoStack s ++ [AMerge taken merged] /\
  Forall (fun a => In (id a) annotationIds) taken /\
  Forall (fun a => ~ In (id a) annotationIds) kept /\
  List.length (annotations (st r)) + List.length taken
  = List.length (annotations s) + 1.
Proof.
  intros Hf Hn Hm r taken kept. subst r.
  unfold mergeAnnotations. rewrite Hf.
  replace (List.length annotationIds <? 2) with false
    by (symmetry; apply Nat.ltb_ge; exact Hn).
  cbn [orb]. unfold_annotations. unfold_async. rewrite Hm. cbn.
  fold taken kept. repeat split.
  - apply Forall_forall. intros a Ha. apply filter_In in Ha as [_ Ha].
    unfold includes in Ha. apply existsb_exists in Ha as (i & Hi & Heq).
    apply String.eqb_eq in Heq. now subst.
  - apply Forall_forall. intros a Ha Hin. apply filter_In in Ha as [_ Ha].
    apply negb_true_iff in Ha. unfold includes in Ha.
    assert (Ht : existsb (String.eqb (id a)) annotationIds = true).
    { apply existsb_exists. exists (id a). split; [exact Hin|apply String.eqb_refl]. }
    congruence.
  - rewrite length_app. cbn. subst taken kept.
    pose proof (filter_split_length (includes annotationIds) (annotations s)). lia.
Qed.

End LoadAndMerge.

(** ** The embedding cache of the oracle *)

Section Oracle.

Import SAM.

Variable api : collaborator.

(** X8: the embedding cache.  Encoding the image that is encoded already
    sends nothing and changes nothing.  For another image [encode] sends
    one request: when the backend answers, the image is the encoded one
    and a second [encode] of it sends nothing; when the backend fails, the
    cache is left as it was, so a second [encode], made after the error of
    the first is caught, sends the request again. *)
Theorem encode_once (imageId : option Id) (s : state) (h : history) :
  (encodedImageRef s = imageId -> encode api imageId s h = Ran (Returned tt) s h) /\
  (encodedImageRef s <> imageId ->
   encodeImage api h imageId = Ok tt ->
   let twice := (encode api imageId ;; encode api imageId) s h in
   res twice = Returned tt /\
   encodedImageRef (st twice) = imageId /\
   sent twice = h ++ [ReqEncodeImage imageId]) /\
  (encodedImageRef s <> imageId ->
   forall e, encodeImage api h imageId = Err e ->
   let once := encode api imageId s h in
   let twice := (App.swallow (encode api imageId) ;; encode api imageId) s h in
   res once = Threw e /\
   encodedImageRef (st once) = encodedImageRef s /\
   sent once = h ++ [ReqEncodeImage imageId] /\
   sent twice = h ++ [ReqEncodeImage imageId; ReqEncodeImage imageId]).
Proof.
  split; [|split].
  - intros H. apply same_image_eq in H. unfold encode. unfold_async.
    rewrite H. reflexivity.
  - intros Hn Hok.
    assert (Hs : same_image (encodedImageRef s) imageId = false).
    { destruct (same_image (encodedImageRef s) imageId) eqn:Hs;
        [apply same_image_eq in Hs; contradiction|reflexivity]. }
    unfold encode. unfold_sam. unfold_async. rewrite Hs, Hok. cbn.
    replace (same_image imageId imageId) with true
      by (symmetry; now apply same_image_eq).
    repeat split.
  - intros Hn e He.
    assert (Hs : same_image (encodedImageRef s) imageId = false).
    { destruct (same_image (encodedImageRef s) imageId) eqn:Hs;
        [apply same_image_eq in Hs; contradiction|reflexivity]. }
    unfold App.swallow, encode. unfold_sam. unfold_async. rewrite Hs, He. cbn.
    rewrite Hs. split; [reflexivity|]. split; [reflexivity|].
    split; [reflexivity|].
    destruct (encodeImage api (h ++ [ReqEncodeImage imageId]) imageId); cbn;
      now rewrite <- app_assoc.
Qed.

(** [segment] with no points asks the oracle nothing: it clears the
    preview, returns [null] and leaves the rest of the state alone, the
    encoded image included. *)
Lemma segment_without_points (imageId : option Id)
    (ex : option (list polygon_set)) (s : state) (h : history) :
  let r := segment api imageId [] ex s h in
  res r = Returned None /\
  sent r = h /\
  preview (st r) = None /\
  encodedImageRef (st r) = encodedImageRef s /\
  error (st r) = error s /\
  isSegmenting (st r) = isSegmenting s.
Proof.
  cbn. repeat split.
Qed.

(** X9: a [segment] with points ends with the segmenting flag down.  When
    it returns, what it returns is the new preview and the error is
    cleared; when it throws, the preview of before is kept and the error
    is set.  In both cases the image is the encoded one if a
    [segmentImage] request was sent. *)
Theorem segment_outcomes (imageId : option Id) (pts : list point)
    (ex : option (list polygon_set)) (s : state) (h : history) :
  pts <> [] ->
  let r := segment api imageId pts ex s h in
  isSegmenting (st r) = false /\
  (forall v, res r = Returned v ->
     v <> None /\ preview (st r) = v /\ error (st r) = None /\
     encodedImageRef (st r) = imageId) /\
  (forall e, res r = Threw e ->
     preview (st r) = preview s /\
     error (st r) = Some (or_default (message e) "Failed to segment")) /\
  (In (ReqSegmentImage imageId pts ex) (sent r) ->
   In (ReqSegmentImage imageId pts ex) h \/ encodedImageRef (st r) = imageId).
Proof.
  intros Hp r. subst r. unfold segment.
  destruct pts as [|p pts]; [congruence|]. cbn [List.length Nat.eqb].
  unfold encode. unfold_sam. unfold_async. simpl.
  assert (Hcase : forall (X : ran state (option preview_t)),
            isSegmenting (st X) = false ->
            (forall v, res X = Returned v ->
               v <> None /\ preview (st X) = v /\ error (st X) = None /\
               encodedImageRef (st X) = imageId) ->
            (forall e, res X = Threw e ->
               preview (st X) = preview s /\
               error (st X) = Some (or_default (message e) "Failed to segment")) ->
            (In (ReqSegmentImage imageId (p :: pts) ex) (sent X) ->
             In (ReqSegmentImage imageId (p :: pts) ex) h \/
             encodedImageRef (st X) = imageId) ->
            isSegmenting (st X) = false /\
            (forall v, res X = Returned v ->
               v <> None /\ preview (st X) = v /\ error (st X) = None /\
               encodedImageRef (st X) = imageId) /\
            (forall e, res X = Threw e ->
               preview (st X) = preview s /\
               error (st X) = Some (or_default (message e) "Failed to segment")) /\
            (In (ReqSegmentImage imageId (p :: pts) ex) (sent X) ->
             In (ReqSegmentImage imageId (p :: pts) ex) h \/
             encodedImageRef (st X) = imageId)) by (intros; tauto).
  destruct (same_image (encodedImageRef s) imageId) eqn:Hs.
  - apply same_image_eq in Hs.
    destruct (segmentImage api h imageId (p :: pts) ex); apply Hcase; cbn;
      try reflexivity; try (intros x Hx; inversion Hx; subst);
      try (intros _; now right); repeat split; auto; discriminate.
  - simpl. rewrite Hs.
    destruct (encodeImage api h imageId); cbn.
    + destruct (segmentImage api _ imageId (p :: pts) ex); apply Hcase; cbn;
        try reflexivity; try (intros x Hx; inversion Hx; subst);
        try (intros _; now right); repeat split; auto; discriminate.
    + split; [reflexivity|]. split; [intros v Hv; discriminate Hv|].
      split; [intros e' He'; inversion He'; subst; split; reflexivity|].
      intros Hin. left. apply in_app_or in Hin as [Hin|[Hin|[]]];
        [exact Hin|discriminate].
Qed.

(** X10: when the image is not the encoded one and encoding it fails,
    [segment] throws the error of the encoder after that one request: no
    [segmentImage] request is sent and the preview is not touched. *)
Theorem segment_needs_encoding (imageId : option Id) (pts : list point)
    (ex : option (list polygon_set)) (s : state) (h : history) (e : jserror) :
  pts <> [] ->
  encodedImageRef s <> imageId ->
  encodeImage api h imageId = Err e ->
  let r := segment api imageId pts ex s h in
  res r = Threw e /\
  sent r = h ++ [ReqEncodeImage imageId] /\
  preview (st r) = preview s /\
  encodedImageRef (st r) = encodedImageRef s /\
  isEncoding (st r) = false /\
  isSegmenting (st r) = false.
Proof.
  intros Hp Hne He r. subst r. unfold segment.
  destruct pts as [|p pts]; [congruence|]. cbn [List.length Nat.eqb].
  assert (Hs : same_image (encodedImageRef s) imageId = false).
  { destruct (same_image (encodedImageRef s) imageId) eqn:Hs; [|reflexivity].
    apply same_image_eq in Hs. contradiction. }
  unfold encode. unfold_sam. unfold_async. simpl. rewrite Hs. simpl.
  rewrite Hs, He. cbn. repeat split.
Qed.

(** X11: after [resetEncoder] the next [segment] of an image starts by
    encoding it again, whatever was encoded before. *)
Theorem reset_forces_encoding (img : Id) (pts : list point)
    (ex : option (list polygon_set)) (s : state) (h : history) :
  pts <> [] ->
  let r := (resetEncoder ;; segment api (Some img) pts ex) s h in
  exists rest, sent r = h ++ ReqEncodeImage (Some img) :: rest.
Proof.
  intros Hp r. subst r. unfold resetEncoder, segment.
  destruct pts as [|p pts]; [congruence|]. cbn [List.length Nat.eqb].
  unfold encode. unfold_sam. unfold_async. simpl.
  destruct (encodeImage api h (Some img)); cbn.
  - destruct (segmentImage api _ (Some img) (p :: pts) ex); cbn;
      rewrite <- app_assoc; eexists; reflexivity.
  - exists []. reflexivity.
Qed.

End Oracle.

(** ** Moving through a transfer *)

Section Navigation.

Import Transfer.

Variable api : collaborator.
Variable currentImageId : option Id.
Variable existingAnnotations : option (list annotation).

(** X12: [generateAndSegment] never throws, whatever the backend answers:
    a failure ends up in the error of the hook.  With an annotation and a
    slice it ends with the loading flag down, and when the prompt points
    cannot be generated nothing is asked of the oracle and no points are
    kept. *)
Theorem generate_never_throws (sets : settings_t) (confirmed : list confirmed)
    (ann : option annotation) (w : hooks) (h : history) :
  let r := generateAndSegment api currentImageId sets existingAnnotations
             confirmed ann w h in
  res r = Returned tt /\
  (forall a, ann = Some a -> falsy currentImageId = false ->
     isLoading (tr (st r)) = false /\
     forall e,
       generateTransferPoints api h (segmentation a) (bbox a)
         (positivePoints sets) (negativePoints sets) = Err e ->
       sent r = h ++ [ReqGenerateTransferPoints (segmentation a) (bbox a)
                        (positivePoints sets) (negativePoints sets)] /\
       transferPoints (tr (st r)) = None /\
       error (tr (st r))
       = Some (or_default (message e) "Failed to generate segmentation") /\
       sam (st r) = sam w).
Proof.
  intros r. subst r. unfold generateAndSegment.
  destruct ann as [a|]; [|split; [reflexivity|intros a Ha; discriminate Ha]].
  destruct (falsy currentImageId);
    [split; [reflexivity|intros a' _ Hf; discriminate Hf]|].
  unfold_transfer. unfold_async.
  destruct (generateTransferPoints api h _ _ _ _) as [pd|e] eqn:Hgen.
  - cbn [tr sam].
    destruct (SAM.segment api currentImageId _ _ _ _) as [[v|e] s' h']; cbn;
      (split; [reflexivity|]); intros a' Ha _; inversion Ha; subst;
      (split; [reflexivity|]); intros e' He'; congruence.
  - cbn. split; [reflexivity|]. intros a' Ha _. inversion Ha; subst.
    split; [reflexivity|]. intros e' He'. rewrite Hgen in He'.
    inversion He'; subst. repeat split.
Qed.

Lemma generateAndSegment_returns (sets : settings_t) (confirmed : list confirmed)
    (ann : option annotation) (w : hooks) (h : history) :
  res (generateAndSegment api currentImageId sets existingAnnotations
         confirmed ann w h) = Returned tt.
Proof.
  unfold generateAndSegment.
  destruct ann as [a|]; [|reflexivity].
  destruct (falsy currentImageId); [reflexivity|].
  unfold_transfer. unfold_async.
  destruct (generateTransferPoints api h _ _ _ _) as [pd|e]; [|reflexivity].
  cbn [tr sam].
  destruct (SAM.segment api currentImageId _ _ _ _) as [[v|e] s' h']; reflexivity.
Qed.

(** One step of navigation: it returns, it keeps the source annotations
    and the active flag, and it keeps the index inside the list. *)
Lemma navigate_step (n : navigation) (w : hooks) (h : history) :
  currentIndex (tr w) < List.length (sourceAnnotations (tr w)) ->
  let r := navigate api currentImageId existingAnnotations n w h in
  res r = Returned tt /\
  sourceAnnotations (tr (st r)) = sourceAnnotations (tr w) /\
  isActive (tr (st r)) = isActive (tr w) /\
  settings (tr (st r)) = settings (tr w) /\
  currentIndex (tr (st r)) < List.length (sourceAnnotations (tr w)) /\
  (n <> Confirm -> confirmedPreviews (tr (st r)) = confirmedPreviews (tr w)) /\
  List.length (confirmedPreviews (tr (st r)))
  <= S (List.length (confirmedPreviews (tr w))).
Proof.
  intros Hi r. subst r.
  assert (Hadv : forall (render : state) (w0 : hooks) (h0 : history),
            currentIndex render < List.length (sourceAnnotations render) ->
            let r := advance api currentImageId existingAnnotations render w0 h0 in
            res r = Returned tt /\
            sourceAnnotations (tr (st r)) = sourceAnnotations (tr w0) /\
            isActive (tr (st r)) = isActive (tr w0) /\
            settings (tr (st r)) = settings (tr w0) /\
            confirmedPreviews (tr (st r)) = confirmedPreviews (tr w0) /\
            (currentIndex (tr (st r)) = currentIndex (tr w0) \/
             currentIndex (tr (st r)) < List.length (sourceAnnotations render))).
  { intros render w0 h0 Hr. unfold advance.
    destruct (currentIndex render <? List.length (sourceAnnotations render) - 1)
      eqn:Hmore.
    - unfold_transfer. unfold_async. cbn [tr sam].
      match goal with
      | |- context [generateAndSegment ?a ?b ?c ?d ?e ?f ?x ?y] =>
        pose proof (generateAndSegment_progress a b d c e f x y) as Hg;
        pose proof (generateAndSegment_returns c e f x y) as Hret;
        destruct (generateAndSegment a b c d e f x y) as [[v|e'] s' h']
      end; cbn in Hg, Hret |- *; [|discriminate].
      destruct Hg as (Hg1 & Hg2 & Hg3 & Hg4 & Hg5).
      rewrite Hg1, Hg2, Hg3, Hg4, Hg5. cbn. repeat split; [exact Hret|].
      right. apply Nat.ltb_lt in Hmore. lia.
    - unfold_transfer. unfold_sam. unfold_async. cbn. repeat split. now left. }
  destruct n; cbn [navigate].
  - unfold confirmCurrent. unfold_async.
    destruct (SAM.preview (sam w)) as [p|];
      [|cbn; repeat split; auto; lia].
    destruct (currentAnnotation (tr w)) as [cur|];
      [|cbn; repeat split; auto; lia].
    unfold_transfer. unfold_async. cbn [tr sam].
    match goal with
    | |- context [advance _ _ _ ?rd ?x ?y] =>
      destruct (Hadv rd x y Hi) as (H1 & H2 & H3 & H4 & H5 & H6);
      destruct (advance api currentImageId existingAnnotations rd x y)
        as [[v|e'] s' h']
    end; cbn in H1, H2, H3, H4, H5, H6 |- *; [|discriminate].
    rewrite H2, H3, H4, H5, length_app. cbn.
    repeat split; try congruence; try lia.
  - unfold skipCurrent. unfold_async.
    destruct (Hadv (tr w) w h Hi) as (H1 & H2 & H3 & H4 & H5 & H6).
    destruct (advance api currentImageId existingAnnotations (tr w) w h)
      as [[v|e'] s' h']; cbn in H1, H2, H3, H4, H5, H6 |- *; [|discriminate].
    rewrite H2, H3, H4, H5. repeat split; try lia; exact H1.
  - unfold prevAnnotation. unfold_async.
    destruct (0 <? currentIndex (tr w)) eqn:Hpos;
      [|cbn; repeat split; auto; lia].
    unfold_transfer. unfold_async. cbn [tr sam].
    match goal with
    | |- context [generateAndSegment ?a ?b ?c ?d ?e ?f ?x ?y] =>
      pose proof (generateAndSegment_progress a b d c e f x y) as Hg;
      pose proof (generateAndSegment_returns c e f x y) as Hret;
      destruct (generateAndSegment a b c d e f x y) as [[v|e'] s' h']
    end; cbn in Hg, Hret |- *; [|discriminate].
    destruct Hg as (Hg1 & Hg2 & Hg3 & Hg4 & Hg5).
    rewrite Hg1, Hg2, Hg3, Hg4, Hg5. cbn. repeat split; try lia; exact Hret.
Qed.

(** X13: however confirm, skip and previous follow one another, the index
    stays inside the list of source annotations, the list itself and the
    active flag do not change, and the confirmed previews grow by at most
    one entry for every confirm. *)
Theorem navigation_keeps_index (l : list navigation) (w : hooks) (h : history) :
  currentIndex (tr w) < List.length (sourceAnnotations (tr w)) ->
  let r := navigate_all api currentImageId existingAnnotations l w h in
  res r = Returned tt /\
  sourceAnnotations (tr (st r)) = sourceAnnotations (tr w) /\
  isActive (tr (st r)) = isActive (tr w) /\
  currentIndex (tr (st r)) < List.length (sourceAnnotations (tr w)) /\
  List.length (confirmedPreviews (tr (st r)))
  <= List.length (confirmedPreviews (tr w))
     + List.length (filter (fun n => match n with Confirm => true | _ => false end) l).
Proof.
  revert w h. induction l as [|n rest IH]; intros w h Hi r; subst r.
  - cbn. repeat split; auto; lia.
  - cbn [navigate_all]. unfold bind.
    destruct (navigate_step n w h Hi) as (H1 & H2 & H3 & _ & H5 & H6 & H7).
    destruct (navigate api currentImageId existingAnnotations n w h)
      as [[v|e'] w1 h1]; cbn in H1, H2, H3, H5, H6, H7 |- *; [|discriminate].
    rewrite <- H2 in H5.
    destruct (IH w1 h1 H5) as (I1 & I2 & I3 & I4 & I5).
    rewrite I1, I2, I3, H2, H3. rewrite H2 in I4.
    repeat split; auto.
    destruct n; cbn [filter List.length].
    + lia.
    + rewrite H6 in I5 by discriminate. lia.
    + rewrite H6 in I5 by discriminate. lia.
Qed.

End Navigation.

(** ** The previous slice *)

Lemma findIndex_first (cur : Id) (pre post : list Id) :
  ~ In cur pre ->
  Transfer.findIndex cur (pre ++ cur :: post) = Some (List.length pre).
Proof.
  induction pre as [|i pre IH]; intros Hn; cbn.
  - now rewrite String.eqb_refl.
  - destruct (String.eqb i cur) eqn:He.
    + apply String.eqb_eq in He. exfalso. apply Hn. now left.
    + rewrite IH; [reflexivity|]. intros Hin. apply Hn. now right.
Qed.

Lemma findIndex_absent (cur : Id) (images : list Id) :
  ~ In cur images -> Transfer.findIndex cur images = None.
Proof.
  induction images as [|i images IH]; intros Hn; cbn; [reflexivity|].
  destruct (String.eqb i cur) eqn:He.
  - apply String.eqb_eq in He. exfalso. apply Hn. now left.
  - rewrite IH; [reflexivity|]. intros Hin. apply Hn. now right.
Qed.

(** X14: the previous slice of the current image is the image right before
    its first occurrence in the list; the first image of the list, an image
    that is not in the list and no image at all have no previous slice. *)
Theorem previous_slice (cur : Id) (images : list Id) :
  (forall pre p post,
     cur <> "" -> ~ In cur pre -> p <> cur ->
     images = pre ++ p :: cur :: post ->
     Transfer.previousImageId (Some cur) images = Some p) /\
  (forall rest, images = cur :: rest ->
     Transfer.previousImageId (Some cur) images = None) /\
  (~ In cur images -> Transfer.previousImageId (Some cur) images = None) /\
  Transfer.previousImageId None images = None.
Proof.
  unfold Transfer.previousImageId. repeat split.
  - intros pre p post Hc Hpre Hp Hi. subst images.
    replace (falsy (Some cur)) with false
      by (symmetry; cbn; now apply String.eqb_neq).
    rewrite length_app. cbn [List.length].
    replace (List.length pre + S (S (List.length post)) =? 0) with false
      by (symmetry; apply Nat.eqb_neq; lia).
    cbn [orb].
    replace (pre ++ p :: cur :: post) with ((pre ++ [p]) ++ cur :: post)
      by (rewrite <- app_assoc; reflexivity).
    rewrite findIndex_first.
    + rewrite length_app, Nat.add_1_r, <- app_assoc. cbn [app].
      rewrite nth_error_app2 by lia. rewrite Nat.sub_diag. reflexivity.
    + intros Hin. apply in_app_or in Hin as [Hin|[Hin|[]]]; auto.
  - intros rest Hi. subst images.
    destruct (falsy (Some cur) || (List.length (cur :: rest) =? 0));
      [reflexivity|]. cbn. now rewrite String.eqb_refl.
  - intros Hn.
    destruct (falsy (Some cur) || (List.length images =? 0)); [reflexivity|].
    now rewrite findIndex_absent.
Qed.

(** ** Steps of the transfer *)

(** With the image encoded, [segment] sends the one request. *)
Lemma segment_sent_cached (api : collaborator) (imageId : option Id)
    (pts : list point) (ex : option (list polygon_set))
    (s : SAM.state) (h : history) :
  pts <> [] ->
  SAM.encodedImageRef s = imageId ->
  sent (SAM.segment api imageId pts ex s h)
  = h ++ [ReqSegmentImage imageId pts ex].
Proof.
  intros Hp He. apply same_image_eq in He. unfold SAM.segment.
  destruct pts as [|p pts]; [congruence|]. cbn [List.length Nat.eqb].
  unfold_sam. unfold_async. simpl. rewrite He.
  destruct (segmentImage api h imageId (p :: pts) ex); reflexivity.
Qed.

Section Steps.

Import Transfer.

Variable api : collaborator.
Variable currentImageId : option Id.
Variable existingAnnotations : option (list annotation).

(** With the image encoded and the prompt points generated,
    [generateAndSegment] sends two requests. *)
Lemma generateAndSegment_sent_cached (sets : settings_t)
    (confirmed : list confirmed) (a : annotation) (w : hooks) (h : history)
    (pd : points_data) :
  falsy currentImageId = false ->
  generateTransferPoints api h (segmentation a) (bbox a)
    (positivePoints sets) (negativePoints sets) = Ok pd ->
  positive_points pd ++ negative_points pd <> [] ->
  SAM.encodedImageRef (sam w) = currentImageId ->
  sent (generateAndSegment api currentImageId sets existingAnnotations
          confirmed (Some a) w h)
  = h ++ [ReqGenerateTransferPoints (segmentation a) (bbox a)
            (positivePoints sets) (negativePoints sets);
          ReqSegmentImage currentImageId
            (positive_points pd ++ negative_points pd)
            (exclusion existingAnnotations confirmed)].
Proof.
  intros Hf Hg Hne He.
  unfold generateAndSegment. rewrite Hf.
  unfold_transfer. unfold_async. rewrite Hg. cbn [tr sam].
  pose proof (segment_sent_cached api currentImageId
                (positive_points pd ++ negative_points pd)
                (exclusion existingAnnotations confirmed)
                (sam w) (h ++ [ReqGenerateTransferPoints (segmentation a) (bbox a)
                                 (positivePoints sets) (negativePoints sets)])
                Hne He) as Hs.
  destruct (SAM.segment api currentImageId _ _ (sam w) _) as [[v|e'] s' h'];
    cbn in Hs |- *; rewrite Hs, <- app_assoc; reflexivity.
Qed.

(** X15: at the last source annotation a second confirmation is ignored:
    the first one clears the preview, so the preview is recorded once. *)
Theorem confirm_twice_at_last (w : hooks) (h : history) (p : preview_t)
    (cur : annotation) :
  SAM.preview (sam w) = Some p ->
  currentAnnotation (tr w) = Some cur ->
  hasMoreAnnotations (tr w) = false ->
  let once := confirmCurrent api currentImageId existingAnnotations w h in
  let twice := (confirmCurrent api currentImageId existingAnnotations ;;
                confirmCurrent api currentImageId existingAnnotations) w h in
  twice = once /\
  confirmedPreviews (tr (st twice))
  = confirmedPreviews (tr w)
    ++ [{| fields := p; classId := class_id cur;
           className := class_name cur; sourceId := id cur |}].
Proof.
  intros Hp Hc Hm once twice. subst once twice.
  unfold hasMoreAnnotations in Hm.
  unfold confirmCurrent, advance, bind at 1. unfold_async.
  rewrite Hp, Hc, Hm. unfold_transfer. unfold_sam. unfold_async. cbn.
  split; reflexivity.
Qed.

(** X16: the request for the next source annotation that [confirmCurrent]
    sends excludes the polygons of the previews confirmed before this
    confirmation: the callback works on the list of the render it was made
    in, in which the preview that is being confirmed is not yet. *)
Theorem confirm_excludes_earlier_only (w : hooks) (h : history)
    (p : preview_t) (cur next : annotation) (pd : points_data) :
  let generate :=
    ReqGenerateTransferPoints (segmentation next) (bbox next)
      (positivePoints (settings (tr w))) (negativePoints (settings (tr w))) in
  let allPoints := positive_points pd ++ negative_points pd in
  SAM.preview (sam w) = Some p ->
  currentAnnotation (tr w) = Some cur ->
  nth_error (sourceAnnotations (tr w)) (currentIndex (tr w) + 1) = Some next ->
  falsy currentImageId = false ->
  generateTransferPoints api h (segmentation next) (bbox next)
    (positivePoints (settings (tr w))) (negativePoints (settings (tr w)))
  = Ok pd ->
  allPoints <> [] ->
  SAM.encodedImageRef (sam w) = currentImageId ->
  let r := confirmCurrent api currentImageId existingAnnotations w h in
  sent r
  = h ++ [generate;
          ReqSegmentImage currentImageId allPoints
            (exclusion existingAnnotations (confirmedPreviews (tr w)))] /\
  confirmedPreviews (tr (st r))
  = confirmedPreviews (tr w)
    ++ [{| fields := p; classId := class_id cur;
           className := class_name cur; sourceId := id cur |}].
Proof.
  intros generate allPoints Hp Hc Hn Hf Hg Hne He r. subst r.
  assert (Hmore : (currentIndex (tr w) <? List.length (sourceAnnotations (tr w)) - 1)
                  = true).
  { apply Nat.ltb_lt.
    assert (currentIndex (tr w) + 1 < List.length (sourceAnnotations (tr w)))
      by (apply nth_error_Some; rewrite Hn; discriminate).
    lia. }
  unfold confirmCurrent, advance. unfold_async.
  rewrite Hp, Hc, Hmore. unfold_transfer. unfold_async. cbn [tr sam].
  rewrite Hn.
  match goal with
  | |- context [generateAndSegment ?a ?b ?c ?d ?e ?f ?x ?y] =>
    pose proof (generateAndSegment_progress a b d c e f x y) as Hprog;
    pose proof (generateAndSegment_sent_cached c e next x y pd Hf Hg Hne He)
      as Hsent;
    destruct (generateAndSegment a b c d e f x y) as [[v|e'] s' h']
  end;
    cbn in Hprog, Hsent |- *; destruct Hprog as (_ & _ & _ & _ & H5);
    rewrite H5, Hsent; split; reflexivity.
Qed.

(** X17: [prevAnnotation] steps the index back by one and stops at the
    first source annotation, where it does nothing at all; it never drops
    a confirmed preview, also not the one of the step it goes back to. *)
Theorem previous_keeps_confirmed (w : hooks) (h : history) :
  let r := prevAnnotation api currentImageId existingAnnotations w h in
  currentIndex (tr (st r)) = Nat.pred (currentIndex (tr w)) /\
  confirmedPreviews (tr (st r)) = confirmedPreviews (tr w) /\
  (currentIndex (tr w) = 0 -> r = Ran (Returned tt) w h).
Proof.
  intros r. subst r. unfold prevAnnotation. unfold_async.
  destruct (currentIndex (tr w)) as [|k] eqn:Hk; cbn [Nat.ltb Nat.leb].
  - cbn. rewrite Hk. repeat split.
  - unfold_transfer. unfold_async. cbn [tr sam].
    match goal with
    | |- context [generateAndSegment ?a ?b ?c ?d ?e ?f ?x ?y] =>
      pose proof (generateAndSegment_progress a b d c e f x y) as Hg;
      destruct (generateAndSegment a b c d e f x y) as [[v|e'] s' h']
    end; cbn in Hg |- *; destruct Hg as (_ & _ & _ & Hg4 & Hg5);
      cbn in Hg4, Hg5; rewrite Hg4, Hg5; (split; [lia|]);
      (split; [reflexivity|]); intros Hx; discriminate Hx.
Qed.

(** X18: what [startTransfer] does with the answer for the previous slice.
    Annotations start the workflow at the first of them with no confirmed
    previews; an empty answer and a failed request set an error and leave
    the workflow as it was.  In every case the function returns and the
    loading flag is down. *)
Theorem start_outcomes (images : list Id) (w : hooks) (h : history) :
  let prevId := previousImageId currentImageId images in
  let r := startTransfer api currentImageId images existingAnnotations w h in
  falsy prevId = false ->
  res r = Returned tt /\
  isLoading (tr (st r)) = false /\
  (forall a rest, fetchAnnotations api h prevId = Ok (a :: rest) ->
     isActive (tr (st r)) = true /\
     sourceAnnotations (tr (st r)) = a :: rest /\
     currentIndex (tr (st r)) = 0 /\
     confirmedPreviews (tr (st r)) = []) /\
  (fetchAnnotations api h prevId = Ok [] ->
     error (tr (st r)) = Some "Previous slice has no annotations" /\
     sent r = h ++ [ReqFetchAnnotations prevId] /\
     same_progress (tr (st r)) (tr w) /\ sam (st r) = sam w) /\
  (forall e, fetchAnnotations api h prevId = Err e ->
     error (tr (st r)) = Some (or_default (message e) "Failed to start transfer") /\
     sent r = h ++ [ReqFetchAnnotations prevId] /\
     same_progress (tr (st r)) (tr w) /\ sam (st r) = sam w).
Proof.
  intros prevId r Hf. subst r. unfold startTransfer. unfold_async.
  fold prevId. rewrite Hf. unfold_transfer. unfold_async.
  destruct (fetchAnnotations api h prevId) as [[|a rest]|e] eqn:Hfetch.
  - cbn. unfold same_progress. cbn.
    split; [reflexivity|]. split; [reflexivity|].
    split; [intros a rest Ha; discriminate Ha|].
    split; [intros _; repeat split|]. intros e He. discriminate He.
  - cbn [List.length Nat.eqb tr sam nth_error].
    match goal with
    | |- context [generateAndSegment ?a ?b ?c ?d ?e ?f ?x ?y] =>
      pose proof (generateAndSegment_progress a b d c e f x y) as Hg;
      pose proof (generateAndSegment_returns a b d c e f x y) as Hret;
      destruct (generateAndSegment a b c d e f x y) as [[v|e'] s' h']
    end; cbn in Hg, Hret |- *; [|discriminate].
    destruct Hg as (_ & Hg2 & Hg3 & Hg4 & Hg5).
    split; [exact Hret|]. split; [reflexivity|].
    split; [intros a' rest' Ha; inversion Ha; subst; repeat split; assumption|].
    split; [intros Hx; discriminate Hx|]. intros e He. discriminate He.
  - cbn. unfold same_progress. cbn.
    split; [reflexivity|]. split; [reflexivity|].
    split; [intros a rest Ha; discriminate Ha|].
    split; [intros Hx; discriminate Hx|].
    intros e' He. inversion He; subst. repeat split.
Qed.

End Steps.

(** X19: [removeConfirmed] takes out the entry at the given position and
    keeps the others in their order; a position past the end changes
    nothing. *)
Theorem remove_confirmed_at (index : nat) (w : Transfer.hooks) (h : history) :
  let r := Transfer.removeConfirmed index w h in
  let before := Transfer.confirmedPreviews (Transfer.tr w) in
  Transfer.confirmedPreviews (Transfer.tr (st r))
  = firstn index before ++ skipn (S index) before /\
  (List.length before <= index ->
   Transfer.confirmedPreviews (Transfer.tr (st r)) = before) /\
  (index < List.length before ->
   S (List.length (Transfer.confirmedPreviews (Transfer.tr (st r))))
   = List.length before) /\
  Transfer.currentIndex (Transfer.tr (st r)) = Transfer.currentIndex (Transfer.tr w) /\
  sent r = h.
Proof.
  intros r before. subst r. unfold Transfer.removeConfirmed.
  unfold_transfer. unfold_async. cbn. fold before.
  assert (Heq : forall (l : list Transfer.confirmed) i,
            Transfer.remove_at i l = firstn i l ++ skipn (S i) l).
  { induction l as [|c l IH]; intros [|i]; cbn; try reflexivity.
    now rewrite IH. }
  rewrite Heq. repeat split.
  - intros Hle. rewrite firstn_all2 by exact Hle.
    rewrite skipn_all2 by lia. now rewrite app_nil_r.
  - intros Hlt. rewrite length_app, length_firstn, length_skipn. lia.
Qed.

(** ** The end of a transfer *)

Section EndOfTransfer.

Import App.

Variable api : collaborator.

(** A save that returns an annotation has put one record on the undo stack
    and emptied the redo stack. *)
Lemma save_step_stacks (c : Transfer.confirmed) (s : state) (h : history)
    (a : annotation) :
  let r := saveAnnotation api (polygon (Transfer.fields c))
             (pv_bbox (Transfer.fields c)) (pv_area (Transfer.fields c))
             (Transfer.classId c) (Transfer.className c) s h in
  res r = Returned (Some a) ->
  Annotations.undoStack (store (st r))
  = Annotations.undoStack (store s) ++ [Annotations.ACreate a] /\
  Annotations.redoStack (store (st r)) = [].
Proof.
  intros r. subst r.
  unfold saveAnnotation, Annotations.saveAnnotation.
  unfold_app. unfold_annotations. unfold_async.
  destruct (falsy (selectedImageId s)); [cbn; discriminate|].
  destruct (createAnnotation api h (selectedImageId s) _) as [a'|e]; cbn;
    [|discriminate].
  intros H. inversion H; subst. split; reflexivity.
Qed.

(** The same after one round of the loop, the save and the segment effect
    of the render that follows it. *)
Lemma save_round_stacks (c : Transfer.confirmed) (s : state) (h : history) :
  falsy (selectedImageId s) = false ->
  let r := (saved <- saveAnnotation api (polygon (Transfer.fields c))
                       (pv_bbox (Transfer.fields c))
                       (pv_area (Transfer.fields c))
                       (Transfer.classId c) (Transfer.className c) ;;
            match saved with
            | Some _ => segmentEffect
            | None => ret tt
            end) s h in
  res r = Returned tt ->
  exists a,
    Annotations.annotations (store (st r))
    = Annotations.annotations (store s) ++ [a] /\
    Annotations.undoStack (store (st r))
    = Annotations.undoStack (store s) ++ [Annotations.ACreate a] /\
    Annotations.redoStack (store (st r)) = [].
Proof.
  intros Hf r. subst r. unfold bind at 1.
  unfold saveAnnotation, Annotations.saveAnnotation, on_store.
  unfold_annotations. unfold_async. rewrite Hf.
  destruct (createAnnotation api h (selectedImageId s) _) as [a|e];
    cbn -[segmentEffect]; [|discriminate].
  rewrite segmentEffect_run. intros _. exists a.
  cbn [selectedImageId points store].
  destruct (falsy (selectedImageId s) || _); cbn; repeat split.
Qed.

(** The loop of the commit when every create succeeds. *)
Lemma saveEach_all (l : list Transfer.confirmed) (s : state) (h : history) :
  falsy (selectedImageId s) = false ->
  l <> [] ->
  let r := saveEach api l s h in
  res r = Returned tt ->
  same_session (st r) s /\
  sent r = h ++ map (commit_request (selectedImageId s)) l /\
  Annotations.redoStack (store (st r)) = [] /\
  exists created,
    List.length created = List.length l /\
    Annotations.annotations (store (st r))
    = Annotations.annotations (store s) ++ created /\
    Annotations.undoStack (store (st r))
    = Annotations.undoStack (store s) ++ map Annotations.ACreate created.
Proof.
  revert s h. induction l as [|c rest IH]; intros s h Hf Hne r; subst r;
    [congruence|].
  cbn [saveEach]. rewrite <- bind_assoc.
  destruct (save_step api c s h Hf) as (Hsent & (Hsel & Hpts & Htr) & _).
  pose proof (save_round_stacks c s h Hf) as Hst. cbv zeta in Hst.
  match type of Hsent with
  | sent (?m s h) = _ => set (round := m) in *
  end.
  unfold bind.
  destruct (round s h) as [[[]|e] s1 h1];
    cbn in Hsent, Hsel, Hpts, Htr, Hst |- *; subst h1; [|discriminate].
  destruct (Hst eq_refl) as (a & Hanns & Hu & Hr).
  assert (Hf1 : falsy (selectedImageId s1) = false) by now rewrite Hsel.
  destruct rest as [|c' rest'].
  - cbn. intros _. split; [repeat split; assumption|].
    split; [reflexivity|]. split; [exact Hr|].
    exists [a]. repeat split; assumption.
  - intros Hret.
    destruct (IH s1 (h ++ [commit_request (selectedImageId s) c]) Hf1
                ltac:(discriminate) Hret)
      as ((Hsel' & Hpts' & Htr') & Hs' & Hr' & created & Hlen & Hc & Hu').
    split; [repeat split; congruence|].
    split; [rewrite Hs', Hsel, <- app_assoc; reflexivity|].
    split; [exact Hr'|].
    exists (a :: created). cbn [List.length map].
    rewrite Hc, Hanns, Hu', Hu, <- !app_assoc. repeat split. now rewrite Hlen.
Qed.

(** X20: when every create of the batch succeeds, the commit adds one
    annotation for every confirmed preview, in their order, each with a
    record of its own on the undo stack, sends one request for each with
    the class of the preview, and ends the transfer: the workflow is idle
    again with nothing confirmed and no preview. *)
Theorem commit_creates_all (s : state) (h : history) :
  let confirmed := Transfer.confirmedPreviews (Transfer.tr (hooks s)) in
  falsy (selectedImageId s) = false ->
  confirmed <> [] ->
  res (saveEach api confirmed s h) = Returned tt ->
  let r := handleSaveAllTransfers api s h in
  res r = Returned tt /\
  sent r = h ++ map (commit_request (selectedImageId s)) confirmed /\
  Transfer.isActive (Transfer.tr (hooks (st r))) = false /\
  Transfer.confirmedPreviews (Transfer.tr (hooks (st r))) = [] /\
  Transfer.sourceAnnotations (Transfer.tr (hooks (st r))) = [] /\
  SAM.preview (Transfer.sam (hooks (st r))) = None /\
  Annotations.redoStack (store (st r)) = [] /\
  exists created,
    List.length created = List.length confirmed /\
    Annotations.annotations (store (st r))
    = Annotations.annotations (store s) ++ created /\
    Annotations.undoStack (store (st r))
    = Annotations.undoStack (store s) ++ map Annotations.ACreate created.
Proof.
  intros confirmed Hf Hne Hret r. subst r.
  destruct (saveEach_all confirmed s h Hf Hne Hret)
    as (_ & Hsent & Hredo & created & Hlen & Hanns & Hundo).
  unfold handleSaveAllTransfers. unfold_async. fold confirmed.
  replace (List.length confirmed =? 0) with false
    by (destruct confirmed; [congruence|reflexivity]).
  destruct (saveEach api confirmed s h) as [[v|e] s1 h1];
    cbn in Hret, Hsent, Hredo, Hanns, Hundo |- *; [|discriminate].
  unfold Transfer.cancelTransfer. unfold_app. unfold_transfer. unfold_sam.
  unfold_async. cbn.
  repeat split; try assumption.
  exists created. repeat split; assumption.
Qed.

(** X21: after [cancelTransfer] a commit has nothing to commit: it sends no
    request and the store is as it was, so a cancelled transfer never
    creates an annotation. *)
Theorem cancel_commits_nothing (s : state) (h : history) :
  let r := (on_hooks Transfer.cancelTransfer ;; handleSaveAllTransfers api) s h in
  res r = Returned tt /\
  sent r = h /\
  store (st r) = store s /\
  Transfer.isActive (Transfer.tr (hooks (st r))) = false /\
  Transfer.settings (Transfer.tr (hooks (st r)))
  = Transfer.settings (Transfer.tr (hooks s)).
Proof.
  destruct s as [img imgs pts sto [t m] clk tms nxt tm]. destruct t, m.
  cbv. repeat split.
Qed.

End EndOfTransfer.

(** ** Points, preview and the pending request *)

Section Points.

Import App.

Variable api : collaborator.

(** The segment effect on a state without points, and any time after it:
    the timeout the effect held is cleared and nothing is sent. *)
Lemma effect_without_points (s : state) (h : history) (d : nat) :
  tidy s = true ->
  points s = [] ->
  (segmentEffect ;; elapse api d) s h
  = Ran (Returned tt)
      {| selectedImageId := selectedImageId s; images := images s;
         points := []; store := store s;
         hooks := {| Transfer.tr := Transfer.tr (hooks s);
                     Transfer.sam := cleared (Transfer.sam (hooks s)) |};
         clock := clock s + d; timers := []; nextTimerId := nextTimerId s;
         debounceTimer := None |}
      h.
Proof.
  intros Ht Hp. unfold bind at 1. rewrite segmentEffect_run.
  rewrite (tidy_cleared s Ht), Hp. cbn [List.length Nat.eqb].
  rewrite orb_true_r. unfold elapse. unfold_app. unfold_async. reflexivity.
Qed.

(** Taking away the last point drops the pending request. *)
Lemma remove_last_cancels (s : state) (h : history) (d : nat) :
  tidy s = true ->
  List.length (points s) <= 1 ->
  let r := (Handlers.handleRemoveLastPoint ;; elapse api d) s h in
  sent r = h /\ points (st r) = [] /\ debounceTimer (st r) = None /\
  timers (st r) = [] /\
  SAM.preview (Transfer.sam (hooks (st r))) = None.
Proof.
  intros Ht Hl r.
  assert (Hr : removelast (points s) = []).
  { destruct (points s) as [|p [|q l]]; cbn in Hl |- *; try reflexivity. lia. }
  assert (Heq : exists s', r = Ran (Returned tt) s' h /\ points s' = [] /\
                           debounceTimer s' = None /\ timers s' = [] /\
                           SAM.preview (Transfer.sam (hooks s')) = None).
  { subst r. unfold Handlers.handleRemoveLastPoint.
    rewrite bind_assoc. unfold bind at 1. unfold setPoints, modify.
    rewrite effect_without_points; [|exact Ht|exact Hr].
    eexists. split; [reflexivity|]. repeat split. }
  destruct Heq as (s' & Heq & H1 & H2 & H3 & H4). rewrite Heq. cbn.
  repeat split; assumption.
Qed.

(** X22: when the points are cleared, or the last point is taken away, the
    request that was waiting for the quiet window is dropped and the
    preview is cleared: however long one waits, nothing is sent.  So a
    click that is taken back within the quiet window never reaches the
    oracle.  The state is one in which no timeout is pending but the one
    the segment effect holds. *)
Theorem emptied_points_cancel_request (s : state) (h : history) (d : nat) :
  tidy s = true ->
  (let r := (Handlers.handleClearPoints ;; elapse api d) s h in
   sent r = h /\ points (st r) = [] /\ debounceTimer (st r) = None /\
   timers (st r) = [] /\
   SAM.preview (Transfer.sam (hooks (st r))) = None) /\
  (List.length (points s) <= 1 ->
   let r := (Handlers.handleRemoveLastPoint ;; elapse api d) s h in
   sent r = h /\ points (st r) = [] /\ debounceTimer (st r) = None /\
   timers (st r) = [] /\
   SAM.preview (Transfer.sam (hooks (st r))) = None) /\
  (forall p d',
     points s = [] -> falsy (selectedImageId s) = false -> d' < DEBOUNCE ->
     sent ((handleAddPoint p ;; elapse api d' ;;
            Handlers.handleRemoveLastPoint ;; elapse api d) s h) = h).
Proof.
  intros Ht. split; [|split].
  - intros r.
    assert (Heq : exists s', r = Ran (Returned tt) s' h /\ points s' = [] /\
                             debounceTimer s' = None /\ timers s' = [] /\
                             SAM.preview (Transfer.sam (hooks s')) = None).
    { subst r. unfold Handlers.handleClearPoints.
      rewrite bind_assoc. unfold bind at 1. unfold setPoints, modify.
      rewrite bind_assoc. unfold bind at 1.
      unfold on_sam, on_hooks, Transfer.on_sam, SAM.clearPreview.
      unfold_sam. unfold_async.
      match goal with
      | |- context [segmentEffect ?x h] =>
        pose proof (effect_without_points x h d Ht eq_refl) as He
      end.
      unfold bind in He. rewrite He.
      eexists. split; [reflexivity|]. repeat split. }
    destruct Heq as (s' & Heq & H1 & H2 & H3 & H4). rewrite Heq. cbn.
    repeat split; assumption.
  - apply remove_last_cancels. exact Ht.
  - intros p d' Hp Hf Hd.
    assert (Heq : (handleAddPoint p ;; elapse api d' ;;
                   Handlers.handleRemoveLastPoint ;; elapse api d) s h
                  = bind (handleAddPoint p ;; elapse api d')
                      (fun _ => Handlers.handleRemoveLastPoint ;; elapse api d)
                      s h).
    { now rewrite <- bind_assoc. }
    rewrite Heq. unfold bind at 1.
    rewrite (add_restarts_timer api p d' s h Hf Ht Hd).
    match goal with
    | |- sent (_ ?x h) = h =>
      destruct (remove_last_cancels x h d) as [H _]
    end.
    + unfold tidy. cbn. now rewrite Nat.eqb_refl.
    + cbn. rewrite Hp. cbn. lia.
    + exact H.
Qed.

End Points.

(** ** Selection, mode and brush *)

Lemma includes_In (i : Id) (l : list Id) :
  existsb (String.eqb i) l = true <-> In i l.
Proof.
  rewrite existsb_exists. split.
  - intros (x & Hx & He). apply String.eqb_eq in He. now subst.
  - intros H. exists i. split; [exact H|apply String.eqb_refl].
Qed.

Lemma filter_other (i : Id) (l : list Id) :
  ~ In i l -> filter (fun x => negb (String.eqb x i)) l = l.
Proof.
  induction l as [|j l IH]; intros Hn; cbn; [reflexivity|].
  destruct (String.eqb j i) eqn:He.
  - apply String.eqb_eq in He. exfalso. apply Hn. now left.
  - cbn. rewrite IH; [reflexivity|]. intros H. apply Hn. now right.
Qed.

Lemma selection_NoDup (a : option Id) (shift : bool) (prev : list Id) :
  NoDup prev -> NoDup (Handlers.selection a shift prev).
Proof.
  intros Hnd. destruct a as [a|]; [|constructor]. cbn.
  destruct shift.
  - destruct (existsb (String.eqb a) prev) eqn:He.
    + now apply NoDup_filter.
    + apply NoDup_app; [exact Hnd|repeat constructor; intros []|].
      intros x Hx [Hx'|[]]. subst x.
      apply includes_In in Hx. congruence.
  - destruct prev as [|j [|k l]]; try (repeat constructor; intros []).
    destruct (String.eqb j a); repeat constructor; intros [].
Qed.

(** X23: a click without shift leaves at most one annotation selected and
    a click on nothing leaves none.  A click with shift toggles the
    annotation: one that is selected is taken out and the others stay, one
    that is not selected is added at the end, so that two such clicks give
    the selection back.  A selection without repetitions stays so. *)
Theorem selection_toggles (i : Id) (prev : list Id) :
  (forall shift, Handlers.selection None shift prev = []) /\
  List.length (Handlers.selection (Some i) false prev) <= 1 /\
  (In i prev ->
   ~ In i (Handlers.selection (Some i) true prev) /\
   forall j, j <> i ->
     (In j (Handlers.selection (Some i) true prev) <-> In j prev)) /\
  (~ In i prev ->
   Handlers.selection (Some i) true prev = prev ++ [i] /\
   Handlers.selection (Some i) true (Handlers.selection (Some i) true prev)
   = prev) /\
  (forall a shift, NoDup prev -> NoDup (Handlers.selection a shift prev)).
Proof.
  repeat split.
  - cbn. destruct prev as [|j [|k l]]; cbn; try lia.
    destruct (String.eqb j i); cbn; lia.
  - apply includes_In in H. cbn. rewrite H.
    intros Hin. apply filter_In in Hin as [_ Hin].
    now rewrite String.eqb_refl in Hin.
  - apply includes_In in H. cbn. rewrite H.
    intros Hin. now apply filter_In in Hin as [Hin _].
  - apply includes_In in H. cbn. rewrite H.
    intros Hin. apply filter_In. split; [exact Hin|].
    apply negb_true_iff. now apply String.eqb_neq.
  - cbn. destruct (existsb (String.eqb i) prev) eqn:He; [|reflexivity].
    apply includes_In in He. contradiction.
  - assert (He : existsb (String.eqb i) prev = false).
    { destruct (existsb (String.eqb i) prev) eqn:He; [|reflexivity].
      apply includes_In in He. contradiction. }
    cbn. rewrite He. cbn.
    replace (existsb (String.eqb i) (prev ++ [i])) with true
      by (symmetry; apply includes_In, in_or_app; right; now left).
    rewrite filter_app, filter_other by exact H. cbn.
    rewrite String.eqb_refl. cbn. apply app_nil_r.
  - intros a shift. apply selection_NoDup.
Qed.

Section Interface.

Lemma ui_step_ok (e : ui_event) (s : Handlers.state) (h : history) :
  ui_ok s ->
  res (ui_step e s h) = Returned tt /\
  sent (ui_step e s h) = h /\
  ui_ok (st (ui_step e s h)).
Proof.
  intros (Hb & Hm & Hn). unfold ui_ok.
  destruct e; cbn [ui_step].
  - unfold Handlers.handleSelectAnnotation, Handlers.setSelectedAnnotations.
    unfold_async. cbn. repeat split; try lia; try assumption.
    now apply selection_NoDup.
  - unfold Handlers.handleToggleMode. unfold_async.
    destruct (Handlers.mode s) eqn:Hmode.
    + unfold Handlers.setMode, Handlers.on_core. unfold_app. unfold_sam.
      unfold_async. cbn.
      destruct (App.debounceTimer (Handlers.core s)); cbn;
        rewrite orb_true_r; cbn;
        (repeat split; try lia; try assumption; discriminate).
    + unfold Handlers.setMode, Handlers.setTool, Handlers.setSelectedAnnotations.
      unfold_async. cbn. repeat split; try lia. constructor.
  - unfold Handlers.handleToggleBrush. unfold_async.
    destruct (Handlers.mode s) eqn:Hmode.
    + cbn. rewrite Hmode. repeat split; try lia; assumption.
    + destruct (List.length (Handlers.selectedAnnotations s) =? 1);
        unfold Handlers.setTool; unfold_async; cbn; rewrite ?Hmode;
        repeat split; try lia; try assumption; discriminate.
  - unfold Handlers.handleToggleBrushMode, Handlers.setBrushMode.
    unfold_async. cbn. repeat split; try lia; assumption.
  - unfold Handlers.handleIncreaseBrushSize, Handlers.setBrushSize.
    unfold_async. cbn. repeat split; try lia; assumption.
  - unfold Handlers.handleDecreaseBrushSize, Handlers.setBrushSize.
    unfold_async. cbn. repeat split; try lia; assumption.
Qed.

(** X24: whatever the user does with the selection, the mode key and the
    brush keys, and in whatever order, no request is sent, the brush size
    stays between 5 and 100, the brush is never the tool in segment mode,
    and no annotation is selected twice. *)
Theorem interface_invariants (l : list ui_event) (s : Handlers.state)
    (h : history) :
  ui_ok s ->
  res (ui_run l s h) = Returned tt /\
  sent (ui_run l s h) = h /\
  ui_ok (st (ui_run l s h)).
Proof.
  revert s h. induction l as [|e rest IH]; intros s h Hok.
  - cbn. repeat split; apply Hok.
  - cbn [ui_run]. unfold bind.
    destruct (ui_step_ok e s h Hok) as (H1 & H2 & H3).
    destruct (ui_step e s h) as [[v|x] s1 h1]; cbn in H1, H2, H3;
      [|discriminate].
    subst h1. apply IH. exact H3.
Qed.

End Interface.

(** ** The keyboard *)

(** X25: the key handler calls nothing when it is disabled or the focus is
    in a text field.  It starts a transfer and clears the points only
    while no transfer is active, it cancels and skips only while one is,
    and the class it selects is one of 1 to 9. *)
Theorem keyboard_gates (enabled isTransferActive : bool)
    (e : Keyboard.event) (c : Keyboard.command) :
  Keyboard.handleKeyDown enabled isTransferActive e = Some c ->
  enabled = true /\
  Keyboard.tagName e <> "INPUT" /\
  Keyboard.tagName e <> "TEXTAREA" /\
  Keyboard.isContentEditable e = false /\
  (c = Keyboard.OnStartTransfer \/ c = Keyboard.OnClear ->
   isTransferActive = false) /\
  (c = Keyboard.OnCancelTransfer \/ c = Keyboard.OnSkipTransfer ->
   isTransferActive = true) /\
  (forall n, c = Keyboard.OnSelectClass n -> (1 <= n <= 9)%Z).
Proof.
  unfold Keyboard.handleKeyDown. intros H.
  destruct enabled; [|discriminate]. cbn [negb] in H.
  destruct (String.eqb (Keyboard.tagName e) "INPUT") eqn:Hi; [discriminate|].
  destruct (String.eqb (Keyboard.tagName e) "TEXTAREA") eqn:Ht; [discriminate|].
  destruct (Keyboard.isContentEditable e) eqn:Hc; [discriminate|].
  cbn [orb] in H.
  apply String.eqb_neq in Hi, Ht.
  split; [reflexivity|]. split; [exact Hi|]. split; [exact Ht|].
  split; [reflexivity|]. cbv zeta in H.
  repeat match type of H with
         | (if ?b then _ else _) = _ =>
           let Hb := fresh "Hb" in
           destruct b eqn:Hb;
           [inversion H; subst;
            repeat rewrite andb_true_iff in Hb;
            repeat rewrite negb_true_iff in Hb;
            (split; [|split];
             [intros [Hx|Hx]; try discriminate Hx; tauto
             |intros [Hx|Hx]; try discriminate Hx; tauto
             |intros n Hx; discriminate Hx])
           |]
         end.
  unfold Keyboard.digit in H.
  destruct (Keyboard.toLowerCase (Keyboard.key e)) as [|ch [|? ?]];
    try discriminate.
  destruct ((49 <=? Ascii.nat_of_ascii ch) && (Ascii.nat_of_ascii ch <=? 57))
    eqn:Hd; [|discriminate].
  destruct (negb (Keyboard.ctrlKey e || Keyboard.metaKey e)
            && negb (Keyboard.shiftKey e)); [|discriminate].
  inversion H; subst.
  apply andb_true_iff in Hd as [Hd1 Hd2].
  apply Nat.leb_le in Hd1, Hd2.
  split; [|split]; try (intros [Hx|Hx]; discriminate Hx).
  intros n Hx. inversion Hx; subst. lia.
Qed.

(** ** The colour of a class *)

(** X26: among the class ids that a JS number holds exactly, every one
    from 1 on has a colour, the same as the class five further on; class
    id 0 has none, and neither has any id below 0, except those that are
    1 modulo 5. *)
Theorem class_colour (classId : Canvas.safe_integer) :
  let n := Canvas.value classId in
  ((1 <= n)%Z ->
   exists colour,
     In colour Canvas.colors /\
     Canvas.getClassColor classId = Some colour /\
     forall next,
       Canvas.value next = (n + 5)%Z ->
       Canvas.getClassColor next = Some colour) /\
  (n = 0%Z -> Canvas.getClassColor classId = None) /\
  ((n <= 0)%Z -> Z.rem (n - 1) 5 <> 0%Z ->
   Canvas.getClassColor classId = None).
Proof.
  intros n. split; [|split].
  - intros Hc. unfold Canvas.getClassColor. fold n.
    cbn [List.length Canvas.colors Z.of_nat].
    change (Z.pos (Pos.of_succ_nat 4)) with 5%Z.
    rewrite Z.rem_mod_nonneg by lia.
    pose proof (Z.mod_pos_bound (n - 1) 5 ltac:(lia)) as Hb.
    replace ((n - 1) mod 5 <? 0)%Z with false
      by (symmetry; apply Z.ltb_ge; lia).
    destruct (nth_error Canvas.colors (Z.to_nat ((n - 1) mod 5))) as [col|]
      eqn:Hn.
    + exists col. split; [eapply nth_error_In; exact Hn|].
      split; [reflexivity|].
      intros next Hnext. rewrite Hnext.
      rewrite Z.rem_mod_nonneg by lia.
      replace (n + 5 - 1)%Z with (n - 1 + 1 * 5)%Z by lia.
      rewrite Z.mod_add by lia.
      replace ((n - 1) mod 5 <? 0)%Z with false
        by (symmetry; apply Z.ltb_ge; lia).
      exact Hn.
    + apply nth_error_None in Hn. cbn in Hn. lia.
  - intros H0. unfold Canvas.getClassColor. fold n. rewrite H0. reflexivity.
  - intros Hc Hr. unfold Canvas.getClassColor. fold n.
    cbn [List.length Canvas.colors Z.of_nat].
    change (Z.pos (Pos.of_succ_nat 4)) with 5%Z.
    pose proof (Z.rem_nonpos (n - 1) 5 ltac:(lia) ltac:(lia)) as Hn.
    replace (Z.rem (n - 1) 5 <? 0)%Z with true
      by (symmetry; apply Z.ltb_lt; lia).
    reflexivity.
Qed.

(** ** Saving and merging from the interface *)

Section SaveAndMerge.

Import Handlers.

Variable api : collaborator.
Variable DEFAULT_CLASSES : list class_info.

(** The two results of [saveAnnotation] on the state of the application. *)
Lemma app_save_result (c : App.state) (h : history)
    (seg : option polygon_set) (box : list Z) (ar classId : Z)
    (className : string) :
  let img := App.selectedImageId c in
  let data :=
    {| p_class_id := Some classId; p_class_name := Some className;
       p_segmentation := seg; p_bbox := Some box; p_area := Some ar |} in
  let r := App.saveAnnotation api seg box ar classId className c h in
  falsy img = false ->
  sent r = h ++ [ReqCreateAnnotation img data] /\
  App.points (st r) = App.points c /\
  App.hooks (st r) = App.hooks c /\
  App.selectedImageId (st r) = App.selectedImageId c /\
  App.debounceTimer (st r) = App.debounceTimer c /\
  App.timers (st r) = App.timers c /\
  (forall a, createAnnotation api h img data = Ok a ->
     res r = Returned (Some a) /\
     Annotations.annotations (App.store (st r))
     = Annotations.annotations (App.store c) ++ [a]) /\
  (forall e, createAnnotation api h img data = Err e ->
     res r = Threw e /\
     Annotations.annotations (App.store (st r))
     = Annotations.annotations (App.store c) /\
     Annotations.error (App.store (st r))
     = Some (or_default (message e) "Failed to save annotation")).
Proof.
  intros img data r Hf. subst r.
  unfold App.saveAnnotation, Annotations.saveAnnotation.
  unfold_app. unfold_annotations. unfold_async.
  fold img. rewrite Hf. fold data.
  destruct (createAnnotation api h img data) as [a|e]; cbn;
    (split; [reflexivity|]); (split; [reflexivity|]); (split; [reflexivity|]);
    (split; [reflexivity|]); (split; [reflexivity|]); (split; [reflexivity|]);
    split;
    intros x Hx; inversion Hx; subst; repeat split.
Qed.

(** X27: [handleSave] with a preview, points and a slice sends one create
    request with the selected class and its name and never throws.  When
    the create succeeds the annotation is in the list and the points, the
    preview and the pending request are gone; when it fails the points and
    the preview stay for another try and the store holds the error. *)
Theorem save_outcomes (s : state) (h : history) (pv : preview_t) :
  let img := App.selectedImageId (core s) in
  let data :=
    {| p_class_id := Some (selectedClass s);
       p_class_name := Some (classNameOf DEFAULT_CLASSES (selectedClass s));
       p_segmentation := polygon pv; p_bbox := Some (pv_bbox pv);
       p_area := Some (pv_area pv) |} in
  SAM.preview (Transfer.sam (App.hooks (core s))) = Some pv ->
  App.points (core s) <> [] ->
  falsy img = false ->
  let r := handleSave api DEFAULT_CLASSES s h in
  res r = Returned tt /\
  sent r = h ++ [ReqCreateAnnotation img data] /\
  (forall a, createAnnotation api h img data = Ok a ->
     Annotations.annotations (App.store (core (st r)))
     = Annotations.annotations (App.store (core s)) ++ [a] /\
     App.points (core (st r)) = [] /\
     SAM.preview (Transfer.sam (App.hooks (core (st r)))) = None /\
     App.debounceTimer (core (st r)) = None /\
     (tidy (core s) = true -> App.timers (core (st r)) = [])) /\
  (forall e, createAnnotation api h img data = Err e ->
     Annotations.annotations (App.store (core (st r)))
     = Annotations.annotations (App.store (core s)) /\
     App.points (core (st r)) = App.points (core s) /\
     SAM.preview (Transfer.sam (App.hooks (core (st r)))) = Some pv /\
     App.debounceTimer (core (st r)) = App.debounceTimer (core s) /\
     App.timers (core (st r)) = App.timers (core s) /\
     Annotations.error (App.store (core (st r)))
     = Some (or_default (message e) "Failed to save annotation")).
Proof.
  intros img data Hpv Hpts Hf r. subst r.
  unfold handleSave. unfold_async. rewrite Hpv.
  replace (List.length (App.points (core s)) =? 0) with false
    by (destruct (App.points (core s)); [congruence|reflexivity]).
  unfold on_core. unfold_async.
  destruct (app_save_result (core s) h (polygon pv) (pv_bbox pv) (pv_area pv)
              (selectedClass s) (classNameOf DEFAULT_CLASSES (selectedClass s)) Hf)
    as (Hsent & Hp & Hh & Hi & Ht & Htm & Hok & Herr).
  fold img data in Hsent, Hok, Herr.
  destruct (App.saveAnnotation api _ _ _ _ _ (core s) h) as [[v|e] c1 h1];
    cbn in Hsent, Hp, Hh, Hi, Ht, Htm, Hok, Herr; cbn -[App.segmentEffect];
    subst h1.
  - unfold SAM.clearPreview. unfold_app_state. unfold_sam. unfold_async.
    rewrite segmentEffect_run. cbn. rewrite orb_true_r. cbn.
    split; [reflexivity|]. split; [reflexivity|]. split.
    + intros a Ha. destruct (Hok a Ha) as [_ Hann].
      split; [exact Hann|]. split; [reflexivity|]. split; [reflexivity|].
      split; [reflexivity|].
      intros Htidy. rewrite Ht, Htm. apply tidy_cleared. exact Htidy.
    + intros e He. destruct (Herr e He) as [Hx _]. discriminate Hx.
  - split; [reflexivity|]. split; [reflexivity|]. split.
    + intros a Ha. destruct (Hok a Ha) as [Hx _]. discriminate Hx.
    + intros e' He. destruct (Herr e' He) as (_ & Hann & Herror).
      rewrite Hh. repeat split; assumption.
Qed.


End SaveAndMerge.

(** ** Settings of a transfer *)

(** [segment] only adds to the requests sent so far. *)
Lemma segment_extends (api : collaborator) (imageId : option Id)
    (pts : list point) (ex : option (list polygon_set))
    (s : SAM.state) (h : history) :
  exists more, sent (SAM.segment api imageId pts ex s h) = h ++ more.
Proof.
  unfold SAM.segment, SAM.encode.
  destruct pts as [|p pts]; [exists []; cbn; now rewrite app_nil_r|].
  cbn [List.length Nat.eqb]. unfold_sam. unfold_async. simpl.
  destruct (SAM.same_image (SAM.encodedImageRef s) imageId) eqn:Hs.
  - destruct (segmentImage api h imageId (p :: pts) ex); eexists; reflexivity.
  - simpl. rewrite Hs. destruct (encodeImage api h imageId); cbn.
    + destruct (segmentImage api _ imageId (p :: pts) ex); cbn;
        rewrite <- app_assoc; eexists; reflexivity.
    + eexists; reflexivity.
Qed.

Section Settings.

Import Transfer.

Variable api : collaborator.
Variable currentImageId : option Id.
Variable existingAnnotations : option (list annotation).

(** X29: a change of one of the two point counts during a transfer asks
    for the prompt points of the current source annotation again, with the
    new counts; a count that is not given keeps its value.  A call that
    leaves both counts as they are runs no effect: it does what
    [updateSettings] alone does and sends nothing.  While a generation is
    running, or with no transfer or no current annotation, a change of the
    counts sends nothing either. *)
Theorem settings_regenerate (positive negative : option Z) (w : hooks)
    (h : history) :
  let changed := updateSettings positive negative w h in
  let r := onSettingsChange api currentImageId existingAnnotations
             positive negative w h in
  let p := match positive with
           | Some n => n
           | None => positivePoints (settings (tr w))
           end in
  let n := match negative with
           | Some n => n
           | None => negativePoints (settings (tr w))
           end in
  settings (tr (st changed)) = {| positivePoints := p; negativePoints := n |} /\
  sent changed = h /\
  (p = positivePoints (settings (tr w)) ->
   n = negativePoints (settings (tr w)) -> r = changed) /\
  (isLoading (tr w) = true \/ isActive (tr w) = false \/
   currentAnnotation (tr w) = None -> sent r = h) /\
  (forall cur,
     p <> positivePoints (settings (tr w)) \/
     n <> negativePoints (settings (tr w)) ->
     isLoading (tr w) = false -> isActive (tr w) = true ->
     currentAnnotation (tr w) = Some cur -> falsy currentImageId = false ->
     exists rest,
       sent r = h ++ ReqGenerateTransferPoints (segmentation cur) (bbox cur) p n
                  :: rest).
Proof.
  intros changed r p n. subst changed r.
  unfold onSettingsChange, updateSettings, settingsEffect.
  unfold_transfer. unfold_async.
  cbn [tr sam settings positivePoints negativePoints]. fold p n.
  split; [reflexivity|]. split; [reflexivity|]. split; [|split].
  - intros Hp Hn. rewrite <- Hp, <- Hn, !Z.eqb_refl. reflexivity.
  - destruct ((p =? positivePoints (settings (tr w)))%Z
              && (n =? negativePoints (settings (tr w)))%Z); [reflexivity|].
    unfold currentAnnotation. cbn [isActive sourceAnnotations currentIndex isLoading].
    intros [H|[H|H]].
    + rewrite H.
      destruct (if negb (isActive (tr w)) || _ then None else _);
        [rewrite andb_false_r|]; reflexivity.
    + rewrite H. reflexivity.
    + unfold currentAnnotation in H. rewrite H. reflexivity.
  - intros cur Hch Hl Ha Hc Hf.
    replace ((p =? positivePoints (settings (tr w)))%Z
             && (n =? negativePoints (settings (tr w)))%Z) with false.
    2:{ symmetry. apply andb_false_iff.
        destruct Hch as [H|H]; [left|right]; now apply Z.eqb_neq. }
    unfold currentAnnotation in Hc |- *.
    cbn [isActive sourceAnnotations currentIndex isLoading].
    rewrite Hc, Ha, Hl. cbn [andb negb].
    unfold generateAndSegment. rewrite Hf.
    unfold_transfer. unfold_async. cbn [settings positivePoints negativePoints].
    destruct (generateTransferPoints api h _ _ _ _) as [pd|e].
    + cbn [tr sam].
      match goal with
      | |- context [SAM.segment ?a ?b ?c ?d ?x ?y] =>
        pose proof (segment_extends a b c d x y) as Hext
      end.
      destruct Hext as (more & Hext).
      destruct (SAM.segment api currentImageId _ _ _ _) as [[v|e] s' h'];
        cbn in Hext |- *; subst h'; rewrite <- app_assoc; eexists; reflexivity.
    + cbn. exists []. reflexivity.
Qed.

End Settings.

(** ** A brush stroke on the canvas *)

Section BrushStroke.

Import ImageCanvas.

Variable inside : Z -> Z -> polygon_t -> bool.

(** While the button is down the path collects the positions inside the
    image. *)
Lemma trail_collects (p : props) (trail : list (option coords)) (s : state) :
  isBrushActive p = true ->
  isDrawing s = true ->
  let moved := mouse_run inside p (map MouseMove trail) s in
  snd moved = [] /\
  isDrawing (fst moved) = true /\
  brushPath (fst moved) = brushPath s ++ inside_image trail.
Proof.
  intros Hb. revert s.
  induction trail as [|o trail IH]; intros s Hd.
  - cbn. rewrite app_nil_r. repeat split. exact Hd.
  - cbn [map mouse_run mouse_step]. unfold handleMouseMove. rewrite Hb.
    destruct o as [c|]; [rewrite Hd|];
      match goal with
      | |- context [mouse_run inside p _ ?x] =>
        destruct (IH x) as (I1 & I2 & I3); [cbn; try exact Hd; reflexivity|];
        destruct (mouse_run inside p (map MouseMove trail) x) as [s2 calls2]
      end; cbn in I1, I2, I3 |- *; subst calls2; rewrite I3;
      repeat split; try exact I2; now rewrite <- ?app_assoc.
Qed.

(** X30: with the brush active, pressing the button inside the image,
    moving and releasing gives the parent exactly one finished stroke: the
    position of the press followed by the positions of the moves that were
    inside the image, in order, with the radius and mode of the brush.
    Leaving the canvas ends the stroke in the same way.  Afterwards
    nothing is being drawn and the path is empty. *)
Theorem stroke_is_delivered_once (p : props) (start : coords)
    (trail : list (option coords)) (button : Z) (shiftKey : bool)
    (s : state) (finish : mouse_event) :
  isBrushActive p = true ->
  finish = MouseUp \/ finish = MouseLeave ->
  let r := mouse_run inside p
             (MouseDown (Some start) button shiftKey
              :: map MouseMove trail ++ [finish]) s in
  snd r = [OnBrushComplete (start :: inside_image trail)
             (brushSize p) (brushMode p)] /\
  isDrawing (fst r) = false /\
  brushPath (fst r) = [].
Proof.
  intros Hb Hfin r. subst r.
  cbn [mouse_run mouse_step]. unfold handleMouseDown. rewrite Hb.
  assert (Happ : forall l1 l2 s0,
            mouse_run inside p (l1 ++ l2) s0
            = let (s1, c1) := mouse_run inside p l1 s0 in
              let (s2, c2) := mouse_run inside p l2 s1 in
              (s2, c1 ++ c2)).
  { induction l1 as [|e l1 IH]; intros l2 s0; cbn [app mouse_run].
    - destruct (mouse_run inside p l2 s0); reflexivity.
    - destruct (mouse_step inside p e s0) as [s1 c1]. rewrite IH.
      destruct (mouse_run inside p l1 s1) as [s2 c2].
      destruct (mouse_run inside p l2 s2) as [s3 c3].
      now rewrite app_assoc. }
  rewrite Happ.
  match goal with
  | |- context [mouse_run inside p (map MouseMove trail) ?x] =>
    destruct (trail_collects p trail x Hb eq_refl) as (T1 & T2 & T3);
    destruct (mouse_run inside p (map MouseMove trail) x) as [s1 c1]
  end.
  cbn in T1, T2, T3. subst c1.
  destruct Hfin as [Hfin|Hfin]; subst finish; cbn [mouse_run mouse_step];
    unfold handleMouseUp, handleMouseLeave; rewrite T2, T3; cbn;
    repeat split.
Qed.

End BrushStroke.

(** * Examples of the further properties *)

Section Witnesses.

Import Examples MoreExamples.

(** An undo while the backend cannot be reached. *)
Lemma failed_step_loses_record_witness :
  let r := Annotations.undo unreachable None busy [] in
  Annotations.undoStack (st r) = [] /\
  Annotations.redoStack (st r) = [Annotations.ADelete cellB].
Proof.
  destruct (failed_step_loses_record unreachable None busy [] []
              (Annotations.ACreate cellA) down) as [H _].
  destruct (H eq_refl eq_refl) as (_ & H2 & H3 & _).
  split; [exact H2 | exact H3].
Defined.

Lemma step_moves_record_witness :
  let r := Annotations.undo steady None busy [] in
  Annotations.undoStack (st r) = [] /\
  Annotations.redoStack (st r)
  = [Annotations.ADelete cellB; Annotations.ACreate cellA].
Proof.
  destruct (step_moves_record steady None busy [] []
              (Annotations.ACreate cellA) (Annotations.ACreate cellA)) as [H _].
  destruct (H eq_refl eq_refl) as (_ & H2 & H3 & _).
  split; [exact H2 | exact H3].
Defined.

Lemma nothing_to_step_witness :
  Annotations.undo steady None Annotations.initial []
  = Ran (Returned tt) Annotations.initial [].
Proof.
  destruct (nothing_to_step steady None Annotations.initial []) as [H _].
  exact (H eq_refl).
Defined.

Lemma create_then_undo_witness :
  let r := (Annotations.saveAnnotation steady (Some "slice_0001") (Some square)
              [0; 0; 10; 10]%Z 100 1 "Cell" ;;
            Annotations.undo steady (Some "slice_0001"))
             Annotations.initial [] in
  Annotations.annotations (st r) = [] /\
  Annotations.redoStack (st r) = [Annotations.ACreate cellA].
Proof.
  destruct (create_then_undo steady (Some "slice_0001") (Some square)
              [0; 0; 10; 10]%Z 100 1 "Cell" Annotations.initial [] cellA
              eq_refl eq_refl eq_refl eq_refl) as (_ & H2 & _ & H4 & _).
  split; [exact H2 | exact H4].
Defined.

Lemma redo_deletes_recreated_witness :
  let undone := (Annotations.deleteAnnotation steady "b" ;;
                 Annotations.undo steady (Some "slice_0001")) busy [] in
  sent (Annotations.redo steady (Some "slice_0001") (st undone) (sent undone))
  = [ReqDeleteAnnotation "b";
     ReqCreateAnnotation (Some "slice_0001") (Annotations.fields_of cellB);
     ReqDeleteAnnotation "a"].
Proof.
  destruct (redo_deletes_recreated steady (Some "slice_0001") "b" busy []
              cellB cellA eq_refl eq_refl eq_refl eq_refl)
    as (_ & _ & H3 & _).
  exact H3.
Defined.

Lemma load_outcomes_witness :
  let r := Annotations.loadAnnotations unreachable (Some "slice_0002") busy [] in
  Annotations.isLoading (st r) = false /\
  Annotations.annotations (st r) = [cellA; cellB].
Proof.
  destruct (load_outcomes unreachable (Some "slice_0002") busy [] eq_refl)
    as (_ & H2 & _ & H4 & _).
  destruct (H4 down eq_refl) as [H5 _].
  split; [exact H2 | exact H5].
Defined.

Lemma merge_swaps_sources_witness :
  let r := Annotations.mergeAnnotations steady (Some "slice_0001") ["a"; "b"]
             1 "Cell" busy [] in
  Annotations.annotations (st r) = [cellA].
Proof.
  destruct (merge_swaps_sources steady (Some "slice_0001") ["a"; "b"] 1 "Cell"
              busy [] cellA eq_refl ltac:(cbn; lia) eq_refl)
    as (_ & H2 & _).
  exact H2.
Defined.

Lemma encode_once_witness :
  sent ((App.swallow (SAM.encode unreachable (Some "slice_0002")) ;;
         SAM.encode unreachable (Some "slice_0002")) SAM.initial [])
  = [] ++ [ReqEncodeImage (Some "slice_0002"); ReqEncodeImage (Some "slice_0002")].
Proof.
  destruct (encode_once unreachable (Some "slice_0002") SAM.initial [])
    as (_ & _ & H).
  destruct (H ltac:(discriminate) down eq_refl) as (_ & _ & _ & H4).
  exact H4.
Defined.

Lemma segment_outcomes_witness :
  SAM.isSegmenting
    (st (SAM.segment steady (Some "slice_0002") [click 1] None SAM.initial []))
  = false.
Proof.
  destruct (segment_outcomes steady (Some "slice_0002") [click 1] None
              SAM.initial [] ltac:(discriminate)) as (H & _).
  exact H.
Defined.

Lemma segment_needs_encoding_witness :
  sent (SAM.segment unreachable (Some "slice_0002") [click 1] None SAM.initial [])
  = [ReqEncodeImage (Some "slice_0002")].
Proof.
  destruct (segment_needs_encoding unreachable (Some "slice_0002") [click 1]
              None SAM.initial [] down ltac:(discriminate)
              ltac:(discriminate) eq_refl) as (_ & H & _).
  exact H.
Defined.

Lemma reset_forces_encoding_witness :
  exists rest,
    sent ((SAM.resetEncoder ;;
           SAM.segment steady (Some "slice_0002") [click 1] None) withPreview [])
    = [] ++ ReqEncodeImage (Some "slice_0002") :: rest.
Proof.
  exact (reset_forces_encoding steady "slice_0002" [click 1] None withPreview []
           ltac:(discriminate)).
Defined.

Lemma generate_never_throws_witness :
  let r := Transfer.generateAndSegment unreachable (Some "slice_0002")
             Transfer.DEFAULT_SETTINGS (Some []) [] (Some cellA) idle [] in
  res r = Returned tt /\
  Transfer.transferPoints (Transfer.tr (st r)) = None.
Proof.
  destruct (generate_never_throws unreachable (Some "slice_0002") (Some [])
              Transfer.DEFAULT_SETTINGS [] (Some cellA) idle []) as (H1 & H2).
  destruct (H2 cellA eq_refl eq_refl) as (_ & H3).
  destruct (H3 down eq_refl) as (_ & H4 & _).
  split; [exact H1 | exact H4].
Defined.

Lemma navigation_keeps_index_witness :
  let r := navigate_all steady (Some "slice_0002") (Some [])
             [Confirm; Skip; Previous; Previous; Skip; Skip] firstStep [] in
  Transfer.currentIndex (Transfer.tr (st r)) < 2.
Proof.
  destruct (navigation_keeps_index steady (Some "slice_0002") (Some [])
              [Confirm; Skip; Previous; Previous; Skip; Skip] firstStep []
              ltac:(cbn; lia)) as (_ & _ & _ & H & _).
  exact H.
Defined.

Lemma previous_slice_witness :
  Transfer.previousImageId (Some "slice_0002") slices = Some "slice_0001".
Proof.
  destruct (previous_slice "slice_0002" slices) as (H & _).
  apply (H [] "slice_0001" []).
  - discriminate.
  - intros [].
  - discriminate.
  - reflexivity.
Defined.

Lemma confirm_twice_at_last_witness :
  Transfer.confirmedPreviews
    (Transfer.tr
       (st ((Transfer.confirmCurrent steady (Some "slice_0002") (Some []) ;;
             Transfer.confirmCurrent steady (Some "slice_0002") (Some []))
              lastStep [])))
  = [confirmedA; confirmedB].
Proof.
  destruct (confirm_twice_at_last steady (Some "slice_0002") (Some [])
              lastStep [] shown cellB eq_refl eq_refl eq_refl) as (_ & H).
  exact H.
Defined.

Lemma confirm_excludes_earlier_only_witness :
  sent (Transfer.confirmCurrent steady (Some "slice_0002") (Some []) firstStep [])
  = [ReqGenerateTransferPoints half [0; 0; 5; 10]%Z 2 1;
     ReqSegmentImage (Some "slice_0002")
       [{| x := 5; y := 5; is_positive := true |};
        {| x := 20; y := 20; is_positive := false |}]%Z
       None].
Proof.
  destruct (confirm_excludes_earlier_only steady (Some "slice_0002") (Some [])
              firstStep [] shown cellA cellB
              {| positive_points := [{| x := 5; y := 5; is_positive := true |}];
                 negative_points := [{| x := 20; y := 20; is_positive := false |}] |}
              eq_refl eq_refl eq_refl eq_refl eq_refl ltac:(discriminate) eq_refl)
    as (H & _).
  exact H.
Defined.

Lemma previous_keeps_confirmed_witness :
  Transfer.prevAnnotation steady (Some "slice_0002") (Some []) firstStep []
  = Ran (Returned tt) firstStep [].
Proof.
  destruct (previous_keeps_confirmed steady (Some "slice_0002") (Some [])
              firstStep []) as (_ & _ & H).
  exact (H eq_refl).
Defined.

Lemma start_outcomes_witness :
  let r := Transfer.startTransfer steady (Some "slice_0002") slices (Some [])
             idle [] in
  Transfer.isActive (Transfer.tr (st r)) = true /\
  Transfer.sourceAnnotations (Transfer.tr (st r)) = [cellA; cellB] /\
  Transfer.isLoading (Transfer.tr (st r)) = false.
Proof.
  destruct (start_outcomes steady (Some "slice_0002") (Some []) slices idle []
              eq_refl) as (_ & H2 & H3 & _).
  destruct (H3 cellA [cellB] eq_refl) as (H4 & H5 & _).
  split; [exact H4|]. split; [exact H5 | exact H2].
Defined.

Lemma remove_confirmed_at_witness :
  Transfer.confirmedPreviews
    (Transfer.tr (st (Transfer.removeConfirmed 5 allConfirmed [])))
  = [confirmedA; confirmedB].
Proof.
  destruct (remove_confirmed_at 5 allConfirmed []) as (_ & H & _).
  exact (H ltac:(cbn; lia)).
Defined.

Lemma commit_creates_all_witness :
  let r := App.handleSaveAllTransfers steady (desk allConfirmed) [] in
  Transfer.isActive (Transfer.tr (App.hooks (st r))) = false /\
  sent r = [commit_request (Some "slice_0002") confirmedA;
            commit_request (Some "slice_0002") confirmedB].
Proof.
  destruct (commit_creates_all steady (desk allConfirmed) [] eq_refl
              ltac:(discriminate) eq_refl) as (_ & H2 & H3 & _).
  split; [exact H3 | exact H2].
Defined.

Lemma emptied_points_cancel_request_witness :
  sent ((App.handleAddPoint (click 1) ;; App.elapse steady 40 ;;
         Handlers.handleRemoveLastPoint ;; App.elapse steady 500)
          (desk idle) [])
  = [].
Proof.
  destruct (emptied_points_cancel_request steady (desk idle) [] 500 eq_refl)
    as (_ & _ & H).
  exact (H (click 1) 40 eq_refl eq_refl ltac:(unfold App.DEBOUNCE; lia)).
Defined.

Lemma selection_toggles_witness :
  Handlers.selection (Some "a") true (Handlers.selection (Some "a") true ["b"])
  = ["b"].
Proof.
  destruct (selection_toggles "a" ["b"]) as (_ & _ & _ & H & _).
  destruct (H ltac:(intros [Hx|[]]; discriminate Hx)) as [_ H2].
  exact H2.
Defined.

Lemma interface_invariants_witness :
  ui_ok (st (ui_run [ToggleMode; SelectAnnotation (Some "a") false; ToggleBrush;
                     IncreaseBrushSize; ToggleMode; DecreaseBrushSize]
               (started (desk idle)) [])).
Proof.
  destruct (interface_invariants
              [ToggleMode; SelectAnnotation (Some "a") false; ToggleBrush;
               IncreaseBrushSize; ToggleMode; DecreaseBrushSize]
              (started (desk idle)) []) as (_ & _ & H).
  - split; [cbn; lia|]. split; [reflexivity|constructor].
  - exact H.
Defined.

Lemma keyboard_gates_witness :
  Keyboard.handleKeyDown true false keyT = Some Keyboard.OnStartTransfer /\
  Keyboard.tagName keyT <> "INPUT".
Proof.
  split; [reflexivity|].
  destruct (keyboard_gates true false keyT Keyboard.OnStartTransfer eq_refl)
    as (_ & H & _).
  exact H.
Defined.

Lemma class_colour_witness :
  let three := {| Canvas.value := 3; Canvas.is_safe := eq_refl |} in
  let eight := {| Canvas.value := 8; Canvas.is_safe := eq_refl |} in
  exists colour,
    In colour Canvas.colors /\
    Canvas.getClassColor three = Some colour /\
    Canvas.getClassColor eight = Some colour.
Proof.
  destruct (class_colour {| Canvas.value := 3; Canvas.is_safe := eq_refl |})
    as (H & _).
  destruct (H ltac:(cbn; lia)) as (colour & H1 & H2 & H3).
  exists colour. split; [exact H1|]. split; [exact H2|].
  apply H3. reflexivity.
Defined.

Lemma save_outcomes_witness :
  let r := Handlers.handleSave steady classes (started clicked) [] in
  res r = Returned tt /\
  App.points (Handlers.core (st r)) = [].
Proof.
  destruct (save_outcomes steady classes (started clicked) [] shown
              eq_refl ltac:(discriminate) eq_refl) as (H1 & _ & H3 & _).
  destruct (H3 cellA eq_refl) as (_ & H4 & _).
  split; [exact H1 | exact H4].
Defined.


Lemma settings_regenerate_witness :
  exists rest,
    sent (Transfer.onSettingsChange steady (Some "slice_0002") (Some [])
            (Some 3%Z) None firstStep [])
    = [] ++ ReqGenerateTransferPoints square [0; 0; 10; 10]%Z 3 1 :: rest.
Proof.
  destruct (settings_regenerate steady (Some "slice_0002") (Some [])
              (Some 3%Z) None firstStep []) as (_ & _ & _ & _ & H).
  exact (H cellA ltac:(left; cbn; lia) eq_refl eq_refl eq_refl eq_refl).
Defined.

Lemma stroke_is_delivered_once_witness :
  snd (mouse_run (fun _ _ _ => false) brushing
         (MouseDown (Some (1, 1)%Z) 0 false
          :: map MouseMove [Some (2, 1)%Z; None; Some (3, 2)%Z] ++ [MouseUp])
         resting)
  = [ImageCanvas.OnBrushComplete [(1, 1); (2, 1); (3, 2)]%Z 20 Handlers.AddMode].
Proof.
  destruct (stroke_is_delivered_once (fun _ _ _ => false) brushing (1, 1)%Z
              [Some (2, 1)%Z; None; Some (3, 2)%Z] 0 false resting MouseUp
              eq_refl (or_introl eq_refl)) as (H & _).
  exact H.
Defined.

End Witnesses.
